(** * imagecertinfo-operator: image inventory and certification refresh

    A shallow embedding of the operator's reference parser
    ([pkg/image/parser.go]), of the caching decorator of the Docker Hub
    client ([pkg/dockerhub], cached client) and of the pod reconciler
    ([internal/controller], pod controller), with the properties the
    specification states about them.

    Go strings are byte strings: they are modelled by [string], whose
    characters are the 256 byte values.  Integers that index strings are
    [Z]; timestamps and durations are [Z] (nanoseconds). *)

From Stdlib Require Import ZArith NArith Ascii String List Bool Lia DecimalString.
From stdpp Require Import base option list gmap strings fin_maps.

Local Open Scope string_scope.
#[local] Arguments String.append !_ _ / : simpl nomatch.
Local Open Scope Z_scope.

(** ** Results of fallible functions

    A Go function returning [(T, error)] returns [Ok v] or [Err e]. *)

Inductive result (E A : Type) : Type :=
  | Ok (v : A)
  | Err (e : E).
Arguments Ok {E A} v.
Arguments Err {E A} e.

Definition isOk {E A} (r : result E A) : bool :=
  match r with Ok _ => true | Err _ => false end.

(** ** The part of Go's [strings], [unicode/utf8] and [slices] packages
       that the operator calls *)

Module gostrings.

Definition byte (c : ascii) : Z := Z.of_N (N_of_ascii c).

(** [len(s)] *)
Definition len (s : string) : Z := Z.of_nat (String.length s).

(** [strings.CutPrefix(s, prefix)]: [Some after] when found. *)
Fixpoint CutPrefix (s prefix : string) {struct prefix} : option string :=
  match prefix with
  | EmptyString => Some s
  | String p ps =>
      match s with
      | EmptyString => None
      | String c cs => if Ascii.eqb c p then CutPrefix cs ps else None
      end
  end.

Definition HasPrefix (s prefix : string) : bool :=
  match CutPrefix s prefix with Some _ => true | None => false end.

(** [strings.TrimPrefix(s, prefix)] *)
Definition TrimPrefix (s prefix : string) : string :=
  match CutPrefix s prefix with Some t => t | None => s end.

(** [strings.Split(s, sep)] for a separator of one byte. *)
Fixpoint Split (s : string) (sep : ascii) : list string :=
  match s with
  | EmptyString => [EmptyString]
  | String c t =>
      if Ascii.eqb c sep then EmptyString :: Split t sep
      else match Split t sep with
           | h :: r => String c h :: r
           | [] => [String c EmptyString]
           end
  end.

(** [strings.Contains(s, sub)] for a substring of one byte. *)
Fixpoint Contains (s : string) (c : ascii) : bool :=
  match s with
  | EmptyString => false
  | String a t => Ascii.eqb a c || Contains t c
  end.

(** [strings.LastIndex(s, sub)] for a substring of one byte; [-1] when
    absent. *)
Fixpoint LastIndex (s : string) (c : ascii) : Z :=
  match s with
  | EmptyString => -1
  | String a t =>
      let i := LastIndex t c in
      if 0 <=? i then i + 1
      else if Ascii.eqb a c then 0 else -1
  end.

(** [s[:n]] and [s[n:]] for [0 <= n <= len(s)]. *)
Fixpoint takeN (n : nat) (s : string) : string :=
  match n, s with
  | S k, String c t => String c (takeN k t)
  | _, _ => EmptyString
  end.

Fixpoint dropN (n : nat) (s : string) : string :=
  match n, s with
  | S k, String _ t => dropN k t
  | _, _ => s
  end.

Definition sliceTo (s : string) (n : Z) : string := takeN (Z.to_nat n) s.
Definition sliceFrom (s : string) (n : Z) : string := dropN (Z.to_nat n) s.

(** [strings.Cut(s, sep)] for a separator of one byte: the text before
    and after its first occurrence. *)
Fixpoint Cut (s : string) (sep : ascii) : option (string * string) :=
  match s with
  | EmptyString => None
  | String c t =>
      if Ascii.eqb c sep then Some (EmptyString, t)
      else match Cut t sep with
           | Some (b, a) => Some (String c b, a)
           | None => None
           end
  end.

(** [strings.ReplaceAll(s, old, new)] for [old] and [new] of one byte. *)
Fixpoint ReplaceAll (s : string) (old new : ascii) : string :=
  match s with
  | EmptyString => EmptyString
  | String c t =>
      String (if Ascii.eqb c old then new else c) (ReplaceAll t old new)
  end.

(** [strings.HasSuffix(s, suffix)] *)
Definition HasSuffix (s suffix : string) : bool :=
  let n := String.length s in
  let m := String.length suffix in
  (m <=? n)%nat && String.eqb (dropN (n - m) s) suffix.

(** [slices.Contains(l, s)] *)
Fixpoint slicesContains (l : list string) (s : string) : bool :=
  match l with
  | [] => false
  | x :: r => String.eqb x s || slicesContains r s
  end.

(** [strings.Trim(s, cutset)] for a cutset of ASCII bytes, given as the
    test of membership in it. *)
Fixpoint TrimLeft (inCut : ascii -> bool) (s : string) : string :=
  match s with
  | EmptyString => EmptyString
  | String c t => if inCut c then TrimLeft inCut t else s
  end.

Fixpoint TrimRight (inCut : ascii -> bool) (s : string) : string :=
  match s with
  | EmptyString => EmptyString
  | String c t =>
      match TrimRight inCut t with
      | EmptyString => if inCut c then EmptyString else String c EmptyString
      | r => String c r
      end
  end.

Definition Trim (inCut : ascii -> bool) (s : string) : string :=
  TrimRight inCut (TrimLeft inCut s).

(** *** UTF-8 decoding, as [for i, r := range s] performs it *)

Definition RuneError : Z := 65533.

(** The entry of [utf8.first] for a leading byte of a multi-byte
    sequence: its size and the accepted range of the second byte. *)
Definition first (b0 : Z) : option (nat * Z * Z) :=
  if (194 <=? b0) && (b0 <=? 223) then Some (2%nat, 128, 191)
  else if b0 =? 224 then Some (3%nat, 160, 191)
  else if (225 <=? b0) && (b0 <=? 236) then Some (3%nat, 128, 191)
  else if b0 =? 237 then Some (3%nat, 128, 159)
  else if (238 <=? b0) && (b0 <=? 239) then Some (3%nat, 128, 191)
  else if b0 =? 240 then Some (4%nat, 144, 191)
  else if (241 <=? b0) && (b0 <=? 243) then Some (4%nat, 128, 191)
  else if b0 =? 244 then Some (4%nat, 128, 143)
  else None.

Definition isCont (b : Z) : bool := (128 <=? b) && (b <=? 191).

(** [utf8.DecodeRuneInString(s)]: the rune and its width in bytes. *)
Definition DecodeRuneInString (s : string) : Z * nat :=
  match s with
  | EmptyString => (RuneError, 0%nat)
  | String c0 t =>
      let s0 := byte c0 in
      if s0 <? 128 then (s0, 1%nat)
      else
        match first s0 with
        | None => (RuneError, 1%nat)
        | Some (sz, lo, hi) =>
            match t with
            | EmptyString => (RuneError, 1%nat)
            | String c1 t1 =>
                let s1 := byte c1 in
                if (s1 <? lo) || (hi <? s1) then (RuneError, 1%nat)
                else if (sz <=? 2)%nat then
                  (Z.lor (Z.shiftl (Z.land s0 31) 6) (Z.land s1 63), 2%nat)
                else
                  match t1 with
                  | EmptyString => (RuneError, 1%nat)
                  | String c2 t2 =>
                      let s2 := byte c2 in
                      if negb (isCont s2) then (RuneError, 1%nat)
                      else if (sz <=? 3)%nat then
                        (Z.lor (Z.shiftl (Z.land s0 15) 12)
                           (Z.lor (Z.shiftl (Z.land s1 63) 6) (Z.land s2 63)),
                         3%nat)
                      else
                        match t2 with
                        | EmptyString => (RuneError, 1%nat)
                        | String c3 _ =>
                            let s3 := byte c3 in
                            if negb (isCont s3) then (RuneError, 1%nat)
                            else
                              (Z.lor (Z.shiftl (Z.land s0 7) 18)
                                 (Z.lor (Z.shiftl (Z.land s1 63) 12)
                                    (Z.lor (Z.shiftl (Z.land s2 63) 6)
                                       (Z.land s3 63))),
                               4%nat)
                        end
                  end
            end
        end
  end.

(** The pairs [(i, r)] that [for i, r := range s] visits: [i] is the
    byte offset of the rune [r]; [skip] counts the bytes of the current
    rune still to pass. *)
Fixpoint rangeFrom (i : Z) (skip : nat) (s : string) : list (Z * Z) :=
  match s with
  | EmptyString => []
  | String _ t =>
      match skip with
      | S k => rangeFrom (i + 1) k t
      | O =>
          let '(r, w) := DecodeRuneInString s in
          (i, r) :: rangeFrom (i + 1) (w - 1)%nat t
      end
  end.

Definition range (s : string) : list (Z * Z) := rangeFrom 0 0 s.

(** *** [strings.ToLower] *)

Definition isASCII (s : string) : bool :=
  forallb (fun c => byte c <? 128) (list_ascii_of_string s).

Definition lowerByte (c : ascii) : ascii :=
  let b := byte c in
  if (65 <=? b) && (b <=? 90) then ascii_of_N (Z.to_N (b + 32)) else c.

Fixpoint mapBytes (f : ascii -> ascii) (s : string) : string :=
  match s with
  | EmptyString => EmptyString
  | String c t => String (f c) (mapBytes f t)
  end.

Section ToLower.
(** [strings.Map(unicode.ToLower, s)], which [strings.ToLower] calls
    for a string with a byte outside ASCII; it consults the Unicode
    tables of the Go library. *)
Variable mapUnicodeToLower : string -> string.

Definition ToLower (s : string) : string :=
  if isASCII s then mapBytes lowerByte s else mapUnicodeToLower s.
End ToLower.

End gostrings.

(** ** [api/v1alpha1]: the inventory record *)

Module v1alpha1.

(** [RegistryType] and [CertificationStatus] are Go string types; their
    zero value is the empty string. *)
Definition RegistryType := string.
Definition RegistryTypeRedHat : RegistryType := "RedHat".
Definition RegistryTypePartner : RegistryType := "Partner".
Definition RegistryTypeCommunity : RegistryType := "Community".
Definition RegistryTypePrivate : RegistryType := "Private".
Definition RegistryTypeUnknown : RegistryType := "Unknown".

Definition CertificationStatus := string.
Definition CertificationStatusCertified : CertificationStatus := "Certified".
Definition CertificationStatusNotCertified : CertificationStatus := "NotCertified".
Definition CertificationStatusPending : CertificationStatus := "Pending".
Definition CertificationStatusUnknown : CertificationStatus := "Unknown".
Definition CertificationStatusError : CertificationStatus := "Error".

Record PodReference := {
  Namespace : string;
  Name : string;
  Container : string
}.

#[export] Instance PodReference_eq_dec : EqDecision PodReference.
Proof. solve_decision. Defined.

Record VulnerabilitySummary := {
  Critical : Z;
  Important : Z;
  Moderate : Z;
  Low : Z
}.

(** The enrichment payload, with the fields the controller writes.
    Timestamps ([*metav1.Time]) are optional instants. *)
Record PyxisData := {
  ProjectID : string;
  Publisher : string;
  HealthIndex : string;
  CatalogURL : string;
  PublishedAt : option Z;
  Vulnerabilities : option VulnerabilitySummary;
  EOLDate : option Z;
  ReleaseCategory : string;
  ReplacedBy : string;
  Architectures : list string;
  CompressedSizeBytes : Z;
  AutoRebuildEnabled : bool;
  ArchitectureHealth : list (string * string);
  UncompressedSizeBytes : Z;
  LayerCount : Z;
  BuildDate : string;
  AdvisoryIDs : list string
}.

Record ImageCertificationInfoSpec := {
  ImageDigest : string;
  FullImageReference : string;
  Registry : string;
  Repository : string;
  Tag : string
}.

(** [metav1.Condition] *)
Record Condition := {
  condType : string;
  condStatus : string;
  condLastTransitionTime : Z;
  condReason : string;
  condMessage : string
}.

Record ImageCertificationInfoStatus := {
  RegistryType_ : RegistryType;
  CertificationStatus_ : CertificationStatus;
  PyxisData_ : option PyxisData;
  PodReferences : list PodReference;
  FirstSeenAt : option Z;
  LastSeenAt : option Z;
  LastPyxisCheckAt : option Z;
  ImageAge : string;
  DaysUntilEOL : option Z;
  Conditions : list Condition
}.

(** The zero value of the status, which a record has between its
    creation and its first status update. *)
Definition zeroStatus : ImageCertificationInfoStatus :=
  {| RegistryType_ := ""; CertificationStatus_ := ""; PyxisData_ := None;
     PodReferences := []; FirstSeenAt := None; LastSeenAt := None;
     LastPyxisCheckAt := None; ImageAge := ""; DaysUntilEOL := None;
     Conditions := [] |}.

Record ImageCertificationInfo := {
  ObjectName : string;
  Annotations : gmap string string;
  Spec : ImageCertificationInfoSpec;
  Status : ImageCertificationInfoStatus
}.

End v1alpha1.

(** ** [pkg/image]: the reference parser *)

Module image.
Import gostrings.

Record Reference := {
  Registry : string;
  Repository : string;
  Tag : string;
  Digest : string;
  FullReference : string
}.

(** The rune of a byte literal such as ['a']. *)
Definition rune (c : ascii) : Z := byte c.

(** [ParseImageID] *)
Definition ParseImageID (imageID : string) : result string Reference :=
  if String.eqb imageID "" then Err "empty imageID"
  else
    let imageID := TrimPrefix imageID "docker-pullable://" in
    let imageID := TrimPrefix imageID "docker://" in
    match Split imageID "@" with
    | [part0; part1] =>
        let colonIdx := LastIndex part0 ":" in
        let afterColon := sliceFrom part0 (colonIdx + 1) in
        let hasTag := negb (colonIdx =? -1) && negb (Contains afterColon "/") in
        let tag := if hasTag then afterColon else "" in
        let imageWithoutDigest := if hasTag then sliceTo part0 colonIdx else part0 in
        let '(registry, repository) :=
          match Cut imageWithoutDigest "/" with
          | None => ("docker.io", "library/" ++ imageWithoutDigest)
          | Some (possibleRegistry, after) =>
              if Contains possibleRegistry "." || Contains possibleRegistry ":"
                 || String.eqb possibleRegistry "localhost"
              then (possibleRegistry, after)
              else ("docker.io", imageWithoutDigest)
          end in
        Ok {| Registry := registry; Repository := repository; Tag := tag;
              Digest := part1; FullReference := imageID |}
    | _ => Err ("imageID does not contain digest: " ++ imageID)
    end.

(** The runes [sanitizeK8sName] copies. *)
Definition isNameRune (r : Z) : bool :=
  ((rune "a" <=? r) && (r <=? rune "z"))
  || ((rune "0" <=? r) && (r <=? rune "9"))
  || (r =? rune ".") || (r =? rune "-").

(** [result.WriteRune(r)], called here for runes below 128 only: one
    byte. *)
Definition WriteRune (r : Z) : string :=
  String (ascii_of_N (Z.to_N r)) EmptyString.

(** One iteration of the loop of [sanitizeK8sName] over a name of [n]
    bytes: what it appends to the builder. *)
Definition sanitizeStep (n : Z) (ir : Z * Z) : string :=
  let '(i, r) := ir in
  if isNameRune r then WriteRune r
  else if (r =? rune "_") || (r =? rune "/") then WriteRune (rune ".")
  else if (0 <? i) && (i <? n - 1) then WriteRune (rune "-")
  else EmptyString.

Fixpoint sanitizeLoop (n : Z) (l : list (Z * Z)) : string :=
  match l with
  | [] => EmptyString
  | ir :: rest => sanitizeStep n ir ++ sanitizeLoop n rest
  end.

(** The cutset [".-"]. *)
Definition inDotDash (c : ascii) : bool :=
  Ascii.eqb c "." || Ascii.eqb c "-".

(** [sanitizeK8sName] *)
Definition sanitizeK8sName (name : string) : string :=
  let s := sanitizeLoop (len name) (range name) in
  Trim inDotDash s.

Section WithUnicode.
Variable mapUnicodeToLower : string -> string.

(** [ReferenceToCRName] *)
Definition ReferenceToCRName (ref : Reference) : string :=
  let name := Registry ref ++ "." ++ Repository ref in
  let name := ReplaceAll name "/" "." in
  let shortDigest :=
    match CutPrefix (Digest ref) "sha256:" with
    | Some trimmed => if 8 <? len trimmed then sliceTo trimmed 8 else trimmed
    | None => Digest ref
    end in
  let name := name ++ "." ++ shortDigest in
  let name := ToLower mapUnicodeToLower name in
  let name := sanitizeK8sName name in
  if 253 <? len name then sliceTo name 253 else name.

(** [ClassifyRegistry] *)
Definition ClassifyRegistry (registry : string) : v1alpha1.RegistryType :=
  let registry := ToLower mapUnicodeToLower registry in
  let redHatRegistries :=
    ["registry.redhat.io"; "registry.access.redhat.com";
     "registry.connect.redhat.com"] in
  if slicesContains redHatRegistries registry then v1alpha1.RegistryTypeRedHat
  else if String.eqb registry "quay.io" then v1alpha1.RegistryTypePartner
  else
    let communityRegistries :=
      ["docker.io"; "ghcr.io"; "gcr.io"; "registry.k8s.io"; "k8s.gcr.io"] in
    if slicesContains communityRegistries registry
    then v1alpha1.RegistryTypeCommunity
    else if HasSuffix registry ".local" || HasSuffix registry ".internal"
            || String.eqb registry "localhost"
            || HasPrefix registry "localhost:"
    then v1alpha1.RegistryTypePrivate
    else v1alpha1.RegistryTypeUnknown.

(** [IsRedHatRegistry] *)
Definition IsRedHatRegistry (registry : string) : bool :=
  String.eqb (ClassifyRegistry registry) v1alpha1.RegistryTypeRedHat.
End WithUnicode.

(** [DigestToCRName] *)
Definition DigestToCRName (digest : string) : string :=
  ReplaceAll digest ":" "-".

(** [CRNameToDigest] *)
Definition CRNameToDigest (crName : string) : string :=
  match CutPrefix crName "sha256-" with
  | Some suffix => "sha256:" ++ suffix
  | None => crName
  end.

End image.


(** ** [pkg/dockerhub]: the caching decorator *)

Module dockerhub.

Record RepositoryInfo := {
  Namespace : string;
  Name : string;
  IsOfficial : bool;
  IsVerifiedPublisher : bool;
  PullCount : Z;
  StarCount : Z;
  LastUpdated : Z;
  Description : string
}.

(** A Go [error], by its message. *)
Definition error := string.

(** [DefaultCacheTTL], one hour. *)
Definition DefaultCacheTTL : Z := 3600 * 1000000000.

(** [cacheEntry]; [data] is a pointer, [None] when the repository is
    known to be absent. *)
Record cacheEntry := {
  data : option RepositoryInfo;
  expiresAt : Z
}.

(** [cacheKey] *)
Definition cacheKey (namespace repository : string) : string :=
  namespace ++ "/" ++ repository.

Section Decorator.
(** The wrapped [Client]: any state [C] with a [GetRepositoryInfo]
    method, which may change that state. *)
Variable C : Type.
Variable clientGet :
  C -> string -> string -> C * result error (option RepositoryInfo).

(** The wrapped client together with the list of the calls it has
    received. *)
Record Wrapped := {
  inner : C;
  calls : list (string * string)
}.

(** [c.client.GetRepositoryInfo(ctx, namespace, repository)] *)
Definition invoke (w : Wrapped) (namespace repository : string)
  : Wrapped * result error (option RepositoryInfo) :=
  let '(c', r) := clientGet (inner w) namespace repository in
  ({| inner := c'; calls := calls w ++ [(namespace, repository)] |}, r).

(** [CachedClient] *)
Record CachedClient := {
  client : Wrapped;
  cache : gmap string cacheEntry;
  ttl : Z
}.

(** [NewCachedClient] with [WithCacheTTL] *)
Definition NewCachedClient (w : Wrapped) (cacheTTL : option Z) : CachedClient :=
  {| client := w; cache := ∅;
     ttl := match cacheTTL with Some t => t | None => DefaultCacheTTL end |}.

(** [found && time.Now().Before(entry.expiresAt)], the clock reading
    [now]. *)
Definition liveEntry (c : CachedClient) (now : Z) (key : string)
  : option cacheEntry :=
  match cache c !! key with
  | Some entry => if now <? expiresAt entry then Some entry else None
  | None => None
  end.

(** [CachedClient.GetRepositoryInfo].  The method reads the clock
    twice: [now] when it looks the key up, [stored] when it stores the
    answer of the wrapped client. *)
Definition GetRepositoryInfo
    (c : CachedClient) (now stored : Z) (namespace repository : string)
  : CachedClient * result error (option RepositoryInfo) :=
  let key := cacheKey namespace repository in
  match liveEntry c now key with
  | Some entry => (c, Ok (data entry))
  | None =>
      let '(w, r) := invoke (client c) namespace repository in
      match r with
      | Err err => ({| client := w; cache := cache c; ttl := ttl c |}, Err err)
      | Ok d =>
          ({| client := w;
              cache := <[key := {| data := d; expiresAt := stored + ttl c |}]>
                         (cache c);
              ttl := ttl c |},
           Ok d)
      end
  end.

(** [ClearCache] *)
Definition ClearCache (c : CachedClient) : CachedClient :=
  {| client := client c; cache := ∅; ttl := ttl c |}.

(** [CleanupExpired]: deletes the entries [now.After(entry.expiresAt)]. *)
Definition CleanupExpired (c : CachedClient) (now : Z) : CachedClient :=
  {| client := client c;
     cache := filter (fun kv => negb (expiresAt kv.2 <? now) = true) (cache c);
     ttl := ttl c |}.

(** A sequence of requests for one repository, at the given clock
    readings: the final state and the answers. *)
Fixpoint requests
    (c : CachedClient) (times : list (Z * Z)) (namespace repository : string)
  : CachedClient * list (result error (option RepositoryInfo)) :=
  match times with
  | [] => (c, [])
  | (now, stored) :: rest =>
      let '(c1, r) := GetRepositoryInfo c now stored namespace repository in
      let '(c2, rs) := requests c1 rest namespace repository in
      (c2, r :: rs)
  end.

End Decorator.

Arguments inner {C} w.
Arguments calls {C} w.
Arguments client {C} c.
Arguments cache {C} c.
Arguments ttl {C} c.
Arguments Build_Wrapped {C} inner calls.
Arguments Build_CachedClient {C} client cache ttl.
Arguments liveEntry {C} c now key.
Arguments GetRepositoryInfo {C} clientGet c now stored namespace repository.
Arguments requests {C} clientGet c times namespace repository.
Arguments invoke {C} clientGet w namespace repository.

Section RateLimiter.
(** The wrapped client, and the limiter: any state [L] with a
    [Wait(ctx)], which returns an error when no token is granted
    before the context is done. *)
Variables C L : Type.
Variable clientGet :
  C -> string -> string -> C * result error (option RepositoryInfo).
Variable limiterWait : L -> L * option error.

(** [RateLimitedClient] *)
Record RateLimitedClient := {
  limited : C;
  limiter : L
}.

(** [RateLimitedClient.GetRepositoryInfo] *)
Definition RateLimitedGetRepositoryInfo
    (c : RateLimitedClient) (namespace repository : string)
  : RateLimitedClient * result error (option RepositoryInfo) :=
  let '(l, waited) := limiterWait (limiter c) in
  match waited with
  | Some err => ({| limited := limited c; limiter := l |}, Err err)
  | None =>
      let '(c', r) := clientGet (limited c) namespace repository in
      ({| limited := c'; limiter := l |}, r)
  end.

(** [NewCachedRateLimitedClient]: the cache around the rate limiter
    around the base client; [l] is the limiter made from the rate and
    the burst. *)
Definition NewCachedRateLimitedClient (baseClient : C) (cacheTTL : Z) (l : L)
  : CachedClient RateLimitedClient :=
  NewCachedClient RateLimitedClient
    {| inner := {| limited := baseClient; limiter := l |}; calls := [] |}
    (Some cacheTTL).

End RateLimiter.

Arguments limited {C L} r.
Arguments limiter {C L} r.
Arguments Build_RateLimitedClient {C L} limited limiter.
Arguments RateLimitedGetRepositoryInfo {C L} clientGet limiterWait c
  namespace repository.
Arguments NewCachedRateLimitedClient {C L} baseClient cacheTTL l.
Arguments CleanupExpired {C} c now.
Arguments ClearCache {C} c.

(** [GetRepositoryInfo] of the client that [NewCachedRateLimitedClient]
    returns, the calls received by the base client being listed. *)
Definition ChainedGetRepositoryInfo {B L : Type}
    (baseGet : B -> string -> string -> B * result error (option RepositoryInfo))
    (limiterWait : L -> L * option error)
    (c : CachedClient (RateLimitedClient (Wrapped B) L))
    (now stored : Z) (namespace repository : string)
  : CachedClient (RateLimitedClient (Wrapped B) L)
    * result error (option RepositoryInfo) :=
  GetRepositoryInfo
    (RateLimitedGetRepositoryInfo (invoke baseGet) limiterWait)
    c now stored namespace repository.

End dockerhub.

(** ** [k8s.io/api/core/v1]: what the controller reads of a pod *)

Module corev1.

Definition PodPhase := string.
Definition PodPending : PodPhase := "Pending".
Definition PodRunning : PodPhase := "Running".
Definition PodSucceeded : PodPhase := "Succeeded".
Definition PodFailed : PodPhase := "Failed".
Definition PodUnknown : PodPhase := "Unknown".

Definition EventTypeNormal : string := "Normal".
Definition EventTypeWarning : string := "Warning".

Record ContainerStatus := {
  ContainerName : string;
  ImageID : string
}.

Record Pod := {
  Namespace : string;
  Name : string;
  Phase : PodPhase;
  ContainerStatuses : list ContainerStatus;
  InitContainerStatuses : list ContainerStatus
}.

End corev1.

(** ** [pkg/pyxis]: the certification client, as the controller sees it *)

Module pyxis.

Record VulnerabilitySummary := {
  Critical : Z;
  Important : Z;
  Moderate : Z;
  Low : Z
}.

Record CertificationData := {
  ProjectID : string;
  Publisher : string;
  HealthIndex : string;
  Vulnerabilities : option VulnerabilitySummary;
  CatalogURL : string;
  ImageID : string;
  PublishedAt : string;
  CVEs : list string;
  EOLDate : string;
  ReleaseCategory : string;
  ReplacedBy : string;
  Architectures : list string;
  CompressedSizeBytes : Z;
  AutoRebuildEnabled : bool;
  ArchitectureHealth : list (string * string);
  UncompressedSizeBytes : Z;
  LayerCount : Z;
  BuildDate : string;
  AdvisoryIDs : list string
}.

(** [Client.GetImageCertification(ctx, registry, repository, digest)]:
    the data, [None] for an image that is not certified, or an error. *)
Definition Client : Type :=
  string -> string -> string -> result string (option CertificationData).

End pyxis.

(** ** [internal/controller]: the pod reconciler *)

Module controller.
Import gostrings.
Import v1alpha1.

Definition EventReasonImageDiscovered : string := "ImageDiscovered".
Definition EventReasonCertificationChanged : string := "CertificationChanged".
Definition EventReasonVulnerabilitiesFound : string := "VulnerabilitiesFound".
Definition EventReasonEOLApproaching : string := "EOLApproaching".
Definition EventReasonHealthDegraded : string := "HealthDegraded".

(** *** The API server

    The controller reaches the cluster through [client.Client].  The
    cluster is modelled in memory, as the client of the controller tests
    is: pods by namespace and name, inventory records by name.  Reads of
    chosen pods, and the listing of the records, can be made to fail. *)

Inductive apiError :=
  | NotFound
  | AlreadyExists
  | Failure (msg : string).

(** [apierrors.IsNotFound] *)
Definition IsNotFound (err : apiError) : bool :=
  match err with NotFound => true | _ => false end.

(** An event emitted through the recorder. *)
Record Event := {
  eventObject : string;
  eventType : string;
  eventReason : string;
  eventMessage : string
}.

Record Cluster := {
  pods : gmap (string * string) corev1.Pod;
  podFailures : gmap (string * string) string;
  infos : gmap string ImageCertificationInfo;
  listFailure : option string;
  (** the names passed to [Status().Update], in order *)
  statusWrites : list string;
  events : list Event
}.

Definition setInfos (c : Cluster) (m : gmap string ImageCertificationInfo)
  : Cluster :=
  {| pods := pods c; podFailures := podFailures c; infos := m;
     listFailure := listFailure c; statusWrites := statusWrites c;
     events := events c |}.

Definition logStatusWrite (c : Cluster) (name : string) : Cluster :=
  {| pods := pods c; podFailures := podFailures c; infos := infos c;
     listFailure := listFailure c; statusWrites := statusWrites c ++ [name];
     events := events c |}.

(** [Recorder.Event(object, eventtype, reason, message)] *)
Definition recordEvent (c : Cluster) (e : Event) : Cluster :=
  {| pods := pods c; podFailures := podFailures c; infos := infos c;
     listFailure := listFailure c; statusWrites := statusWrites c;
     events := events c ++ [e] |}.

Definition setStatus (cr : ImageCertificationInfo)
    (st : ImageCertificationInfoStatus) : ImageCertificationInfo :=
  {| ObjectName := ObjectName cr; Annotations := Annotations cr;
     Spec := Spec cr; Status := st |}.

(** [r.Get(ctx, key, &pod)] *)
Definition GetPod (c : Cluster) (key : string * string)
  : result apiError corev1.Pod :=
  match podFailures c !! key with
  | Some msg => Err (Failure msg)
  | None =>
      match pods c !! key with
      | Some pod => Ok pod
      | None => Err NotFound
      end
  end.

(** [r.Get(ctx, client.ObjectKey{Name: name}, &cr)] *)
Definition GetInfo (c : Cluster) (name : string)
  : result apiError ImageCertificationInfo :=
  match infos c !! name with
  | Some cr => Ok cr
  | None => Err NotFound
  end.

(** [r.Create(ctx, cr)]; the record has a status subresource, so its
    status is not taken from [cr]. *)
Definition Create (c : Cluster) (cr : ImageCertificationInfo)
  : Cluster * option apiError :=
  match infos c !! ObjectName cr with
  | Some _ => (c, Some AlreadyExists)
  | None =>
      (setInfos c (<[ObjectName cr := setStatus cr zeroStatus]> (infos c)), None)
  end.

(** [r.Status().Update(ctx, cr)]: replaces the status of the stored
    record. *)
Definition StatusUpdate (c : Cluster) (cr : ImageCertificationInfo)
  : Cluster * option apiError :=
  let c := logStatusWrite c (ObjectName cr) in
  match infos c !! ObjectName cr with
  | Some stored =>
      (setInfos c (<[ObjectName cr := setStatus stored (Status cr)]> (infos c)),
       None)
  | None => (c, Some NotFound)
  end.

(** [r.Update(ctx, cr)]: replaces the stored record but its status. *)
Definition Update (c : Cluster) (cr : ImageCertificationInfo)
  : Cluster * option apiError :=
  match infos c !! ObjectName cr with
  | Some stored =>
      (setInfos c (<[ObjectName cr := setStatus cr (Status stored)]> (infos c)),
       None)
  | None => (c, Some NotFound)
  end.

(** [r.List(ctx, &crList)] *)
Definition ListInfos (c : Cluster) : result apiError (list ImageCertificationInfo) :=
  match listFailure c with
  | Some msg => Err (Failure msg)
  | None => Ok (map snd (map_to_list (infos c)))
  end.

(** *** The reconciler *)

(** [PodReconciler]: the certification client, [None] when it is nil,
    and whether an event recorder is set. *)
Record PodReconciler := {
  PyxisClient : option pyxis.Client;
  Recorder : bool
}.

(** A started [go r.checkPyxisCertification(ctx, crName, ref)]. *)
Record Enrichment := {
  enrichName : string;
  enrichRef : image.Reference
}.

(** [fmt.Sprintf("%d", n)] *)
Definition formatInt (n : Z) : string := NilZero.string_of_int (Z.to_int n).

(** The body of [formatDuration] after [days := int(d.Hours() / 24)]. *)
Definition formatDays (days : Z) : string :=
  if days <? 1 then "less than a day"
  else if days =? 1 then "1 day"
  else if days <? 30 then formatInt days ++ " days"
  else
    let months := Z.quot days 30 in
    if months =? 1 then "1 month"
    else if months <? 12 then formatInt months ++ " months"
    else
      let years := Z.quot months 12 in
      let remainingMonths := Z.rem months 12 in
      if years =? 1 then
        if remainingMonths =? 0 then "1 year"
        else "1 year " ++ formatInt remainingMonths ++ " months"
      else if remainingMonths =? 0 then formatInt years ++ " years"
      else formatInt years ++ " years " ++ formatInt remainingMonths ++ " months".

(** [existing.Namespace == podRef.Namespace && existing.Name == podRef.Name
     && existing.Container == podRef.Container] *)
Definition samePodReference (existing podRef : PodReference) : bool :=
  String.eqb (Namespace existing) (Namespace podRef)
  && String.eqb (Name existing) (Name podRef)
  && String.eqb (Container existing) (Container podRef).

Definition setPodReferences (st : ImageCertificationInfoStatus)
    (refs : list PodReference) : ImageCertificationInfoStatus :=
  {| RegistryType_ := RegistryType_ st;
     CertificationStatus_ := CertificationStatus_ st;
     PyxisData_ := PyxisData_ st; PodReferences := refs;
     FirstSeenAt := FirstSeenAt st; LastSeenAt := LastSeenAt st;
     LastPyxisCheckAt := LastPyxisCheckAt st; ImageAge := ImageAge st;
     DaysUntilEOL := DaysUntilEOL st; Conditions := Conditions st |}.

Definition setLastSeenAt (st : ImageCertificationInfoStatus) (t : Z)
  : ImageCertificationInfoStatus :=
  {| RegistryType_ := RegistryType_ st;
     CertificationStatus_ := CertificationStatus_ st;
     PyxisData_ := PyxisData_ st; PodReferences := PodReferences st;
     FirstSeenAt := FirstSeenAt st; LastSeenAt := Some t;
     LastPyxisCheckAt := LastPyxisCheckAt st; ImageAge := ImageAge st;
     DaysUntilEOL := DaysUntilEOL st; Conditions := Conditions st |}.

(** [updatePodReferences]; [now] is the reading of [metav1.Now()].  The
    record [cr] is changed in place: the changed record is returned with
    the cluster and the error of the status update. *)
Definition updatePodReferences (now : Z) (c : Cluster)
    (cr : ImageCertificationInfo) (podRef : PodReference)
  : Cluster * ImageCertificationInfo * option apiError :=
  if existsb (fun existing => samePodReference existing podRef)
       (PodReferences (Status cr))
  then
    let cr := setStatus cr (setLastSeenAt (Status cr) now) in
    let '(c, err) := StatusUpdate c cr in (c, cr, err)
  else
    let cr := setStatus cr
                (setPodReferences (Status cr)
                   (PodReferences (Status cr) ++ [podRef])) in
    let cr := setStatus cr (setLastSeenAt (Status cr) now) in
    let '(c, err) := StatusUpdate c cr in (c, cr, err).

(** The reference is kept by [CleanupStaleReferences]: the pod exists, or
    the read failed with an error other than not-found. *)
Definition keepReference (c : Cluster) (podRef : PodReference) : bool :=
  match GetPod c (Namespace podRef, Name podRef) with
  | Ok _ => true
  | Err err => negb (IsNotFound err)
  end.

(** One iteration of the loop of [CleanupStaleReferences] over the
    listed records. *)
Definition cleanupRecord (c : Cluster) (cr : ImageCertificationInfo) : Cluster :=
  let validRefs := List.filter (keepReference c) (PodReferences (Status cr)) in
  if negb (Nat.eqb (length validRefs) (length (PodReferences (Status cr)))) then
    (StatusUpdate c (setStatus cr (setPodReferences (Status cr) validRefs))).1
  else c.

(** [CleanupStaleReferences] *)
Definition CleanupStaleReferences (c : Cluster) : Cluster * option apiError :=
  match ListInfos c with
  | Err err => (c, Some err)
  | Ok items => (fold_left cleanupRecord items c, None)
  end.

(** Modelled from the spec: the ranking that [isHealthDegraded] uses;
    the function is called by the tests of the controller and its body
    is not among the sources.  The specification speaks of "a fixed
    ordinal ranking (best to worst)" of the health grades, which are the
    grades A to F of the record; any other string, the empty one
    included, has no rank. *)
Definition gradeRank (grade : string) : option Z :=
  if String.eqb grade "A" then Some 1
  else if String.eqb grade "B" then Some 2
  else if String.eqb grade "C" then Some 3
  else if String.eqb grade "D" then Some 4
  else if String.eqb grade "E" then Some 5
  else if String.eqb grade "F" then Some 6
  else None.

(** Modelled from the spec: [isHealthDegraded], whose body is not among
    the sources.  A degradation is reported "only when the new grade is
    strictly worse" than the previous one, and never for a transition
    "involving an empty or unrecognized grade". *)
Definition isHealthDegraded (oldGrade newGrade : string) : bool :=
  match gradeRank oldGrade, gradeRank newGrade with
  | Some oldRank, Some newRank => oldRank <? newRank
  | _, _ => false
  end.

(** The table of [TestIsHealthDegraded]: old grade, new grade, expected
    answer. *)
Definition TestIsHealthDegraded : list (string * string * bool) :=
  [ ("A", "B", true); ("A", "C", true); ("A", "F", true);
    ("B", "A", false); ("B", "B", false); ("C", "D", true);
    ("F", "A", false); ("", "B", false); ("A", "", false);
    ("X", "Y", false) ].


Section Reconciler.
(** What the controller takes from the Go library and is left open
    here: the lowering of strings that are not ASCII (see
    [gostrings.ToLower]); [time.Parse(layout, value)], giving the
    instant or failing; and [int(d.Hours() / 24)], the whole days of a
    duration, which Go computes in floating point. *)
Variable mapUnicodeToLower : string -> string.
Variable timeParse : string -> string -> option Z.
Variable durationDays : Z -> Z.

(** [time.RFC3339] *)
Definition RFC3339 : string := "2006-01-02T15:04:05Z07:00".

(** [formatDuration] *)
Definition formatDuration (d : Z) : string := formatDays (durationDays d).

(** [createImageCertificationInfo]; [now] is the reading of
    [metav1.Now()].  Returns the cluster, the enrichment started in the
    background, if any, and the error. *)
Definition createImageCertificationInfo
    (r : PodReconciler) (now : Z) (c : Cluster) (ref : image.Reference)
    (crName : string) (podRef : PodReference)
  : Cluster * option Enrichment * option apiError :=
  let registryType := image.ClassifyRegistry mapUnicodeToLower (image.Registry ref) in
  let cr :=
    {| ObjectName := crName;
       Annotations := ∅;
       Spec := {| ImageDigest := image.Digest ref;
                  FullImageReference := image.FullReference ref;
                  Registry := image.Registry ref;
                  Repository := image.Repository ref;
                  Tag := image.Tag ref |};
       Status := zeroStatus |} in
  match Create c cr with
  | (c, Some err) => (c, None, Some err)
  | (c, None) =>
      let cr :=
        setStatus cr
          {| RegistryType_ := registryType;
             CertificationStatus_ := CertificationStatusUnknown;
             PyxisData_ := None;
             PodReferences := [podRef];
             FirstSeenAt := Some now;
             LastSeenAt := Some now;
             LastPyxisCheckAt := None;
             ImageAge := "";
             DaysUntilEOL := None;
             Conditions :=
               [{| condType := "Available";
                   condStatus := "True";
                   condLastTransitionTime := now;
                   condReason := "ImageDiscovered";
                   condMessage := "Image has been discovered in the cluster" |}]
          |} in
      match StatusUpdate c cr with
      | (c, Some err) => (c, None, Some err)
      | (c, None) =>
          let c :=
            if Recorder r then
              recordEvent c
                {| eventObject := ObjectName cr;
                   eventType := corev1.EventTypeNormal;
                   eventReason := EventReasonImageDiscovered;
                   eventMessage := "Discovered image " ++ image.FullReference ref |}
            else c in
          let started :=
            match PyxisClient r with
            | Some _ =>
                if image.IsRedHatRegistry mapUnicodeToLower (image.Registry ref)
                then Some {| enrichName := ObjectName cr; enrichRef := ref |}
                else None
            | None => None
            end in
          (c, started, None)
      end
  end.

(** The payload [checkPyxisCertification] builds from the data of the
    certification client. *)
Definition newPyxisData (certData : pyxis.CertificationData) : PyxisData :=
  {| ProjectID := pyxis.ProjectID certData;
     Publisher := pyxis.Publisher certData;
     HealthIndex := pyxis.HealthIndex certData;
     CatalogURL := pyxis.CatalogURL certData;
     PublishedAt :=
       if String.eqb (pyxis.PublishedAt certData) "" then None
       else timeParse RFC3339 (pyxis.PublishedAt certData);
     Vulnerabilities :=
       match pyxis.Vulnerabilities certData with
       | Some v =>
           Some {| Critical := pyxis.Critical v;
                   Important := pyxis.Important v;
                   Moderate := pyxis.Moderate v;
                   Low := pyxis.Low v |}
       | None => None
       end;
     EOLDate :=
       if String.eqb (pyxis.EOLDate certData) "" then None
       else
         match timeParse RFC3339 (pyxis.EOLDate certData) with
         | Some eolTime => Some eolTime
         | None => timeParse "2006-01-02" (pyxis.EOLDate certData)
         end;
     ReleaseCategory := pyxis.ReleaseCategory certData;
     ReplacedBy := pyxis.ReplacedBy certData;
     Architectures := pyxis.Architectures certData;
     CompressedSizeBytes := pyxis.CompressedSizeBytes certData;
     AutoRebuildEnabled := pyxis.AutoRebuildEnabled certData;
     ArchitectureHealth := pyxis.ArchitectureHealth certData;
     UncompressedSizeBytes := pyxis.UncompressedSizeBytes certData;
     LayerCount := pyxis.LayerCount certData;
     BuildDate := pyxis.BuildDate certData;
     AdvisoryIDs := pyxis.AdvisoryIDs certData |}.

(** The status [checkPyxisCertification] writes when the client
    answered [certData]; [st] is the status read back, with the time of
    the check already set; [tSince] and [tUntil] are the clock readings
    of [time.Since] and [time.Until]. *)
Definition certifiedStatus (tSince tUntil : Z)
    (st : ImageCertificationInfoStatus) (certData : pyxis.CertificationData)
  : ImageCertificationInfoStatus :=
  let data := newPyxisData certData in
  {| RegistryType_ := RegistryType_ st;
     CertificationStatus_ := CertificationStatusCertified;
     PyxisData_ := Some data;
     PodReferences := PodReferences st;
     FirstSeenAt := FirstSeenAt st;
     LastSeenAt := LastSeenAt st;
     LastPyxisCheckAt := LastPyxisCheckAt st;
     ImageAge :=
       match PublishedAt data with
       | Some published => formatDuration (tSince - published)
       | None => ImageAge st
       end;
     DaysUntilEOL :=
       match EOLDate data with
       | Some eol => Some (durationDays (eol - tUntil))
       | None => DaysUntilEOL st
       end;
     Conditions := Conditions st |}.

Definition setCertificationStatus (st : ImageCertificationInfoStatus)
    (s : CertificationStatus) : ImageCertificationInfoStatus :=
  {| RegistryType_ := RegistryType_ st; CertificationStatus_ := s;
     PyxisData_ := PyxisData_ st; PodReferences := PodReferences st;
     FirstSeenAt := FirstSeenAt st; LastSeenAt := LastSeenAt st;
     LastPyxisCheckAt := LastPyxisCheckAt st; ImageAge := ImageAge st;
     DaysUntilEOL := DaysUntilEOL st; Conditions := Conditions st |}.

Definition setLastPyxisCheckAt (st : ImageCertificationInfoStatus) (t : Z)
  : ImageCertificationInfoStatus :=
  {| RegistryType_ := RegistryType_ st;
     CertificationStatus_ := CertificationStatus_ st;
     PyxisData_ := PyxisData_ st; PodReferences := PodReferences st;
     FirstSeenAt := FirstSeenAt st; LastSeenAt := LastSeenAt st;
     LastPyxisCheckAt := Some t; ImageAge := ImageAge st;
     DaysUntilEOL := DaysUntilEOL st; Conditions := Conditions st |}.

(** The events [checkPyxisCertification] emits for certified data. *)
Definition certificationEvents (r : PodReconciler) (tUntil : Z)
    (crName : string) (certData : pyxis.CertificationData) : list Event :=
  let eol :=
    match EOLDate (newPyxisData certData) with
    | Some eolDate =>
        let daysUntil := durationDays (eolDate - tUntil) in
        if (0 <=? daysUntil) && (daysUntil <=? 90) && Recorder r then
          let msg := "Image reaches EOL in " ++ formatInt daysUntil ++ " days" in
          let msg :=
            if negb (String.eqb (pyxis.ReplacedBy certData) "")
            then msg ++ ", replacement: " ++ pyxis.ReplacedBy certData
            else msg in
          [{| eventObject := crName; eventType := corev1.EventTypeWarning;
              eventReason := EventReasonEOLApproaching; eventMessage := msg |}]
        else []
    | None => []
    end in
  let vulns :=
    match pyxis.Vulnerabilities certData with
    | Some v =>
        if ((0 <? pyxis.Critical v) || (0 <? pyxis.Important v)) && Recorder r
        then
          [{| eventObject := crName; eventType := corev1.EventTypeWarning;
              eventReason := EventReasonVulnerabilitiesFound;
              eventMessage :=
                "Found " ++ formatInt (pyxis.Critical v) ++ " critical, "
                ++ formatInt (pyxis.Important v) ++ " important vulnerabilities" |}]
        else []
    | None => []
    end in
  (eol ++ vulns)%list.

(** [checkPyxisCertification]; [now], [tSince] and [tUntil] are the
    readings of the clock by [metav1.Now()], [time.Since] and
    [time.Until]. *)
Definition checkPyxisCertification
    (r : PodReconciler) (now tSince tUntil : Z) (c : Cluster)
    (crName : string) (ref : image.Reference) : Cluster :=
  match PyxisClient r with
  | None => c
  | Some GetImageCertification =>
      let answer :=
        GetImageCertification (image.Registry ref) (image.Repository ref)
          (image.Digest ref) in
      match GetInfo c crName with
      | Err _ => c
      | Ok cr =>
          let st := setLastPyxisCheckAt (Status cr) now in
          match answer with
          | Err _ =>
              let st := setCertificationStatus st CertificationStatusError in
              (StatusUpdate c (setStatus cr st)).1
          | Ok None =>
              let st := setCertificationStatus st CertificationStatusNotCertified in
              (StatusUpdate c (setStatus cr st)).1
          | Ok (Some certData) =>
              let st := certifiedStatus tSince tUntil st certData in
              let c :=
                fold_left recordEvent
                  (certificationEvents r tUntil (ObjectName cr) certData) c in
              let c := (StatusUpdate c (setStatus cr st)).1 in
              if (0 <? length (pyxis.CVEs certData))%nat then
                match GetInfo c crName with
                | Err _ => c
                | Ok crForAnnotation =>
                    let annotated :=
                      {| ObjectName := ObjectName crForAnnotation;
                         Annotations :=
                           <["security.telco.openshift.io/cves" :=
                               String.concat "," (pyxis.CVEs certData)]>
                             (Annotations crForAnnotation);
                         Spec := Spec crForAnnotation;
                         Status := Status crForAnnotation |} in
                    (Update c annotated).1
                end
              else c
          end
      end
  end.

(** One iteration of the loop of [Reconcile] over the container
    statuses of [pod]; [now] is the clock reading of this iteration,
    [acc] the cluster and the enrichments started so far. *)
Definition reconcileStatus (r : PodReconciler) (pod : corev1.Pod) (now : Z)
    (acc : Cluster * list Enrichment) (containerStatus : corev1.ContainerStatus)
  : Cluster * list Enrichment :=
  let '(c, started) := acc in
  if String.eqb (corev1.ImageID containerStatus) "" then acc
  else
    match image.ParseImageID (corev1.ImageID containerStatus) with
    | Err _ => acc
    | Ok ref =>
        let crName := image.ReferenceToCRName mapUnicodeToLower ref in
        let podRef :=
          {| Namespace := corev1.Namespace pod;
             Name := corev1.Name pod;
             Container := corev1.ContainerName containerStatus |} in
        match GetInfo c crName with
        | Err err =>
            if IsNotFound err then
              let '(c, task, _) :=
                createImageCertificationInfo r now c ref crName podRef in
              (c, (started ++ option_list task)%list)
            else acc
        | Ok existingCR =>
            let '(c, _, _) := updatePodReferences now c existingCR podRef in
            (c, started)
        end
    end.

Fixpoint reconcileStatuses (r : PodReconciler) (pod : corev1.Pod)
    (clock : nat -> Z) (i : nat) (statuses : list corev1.ContainerStatus)
    (acc : Cluster * list Enrichment) : Cluster * list Enrichment :=
  match statuses with
  | [] => acc
  | containerStatus :: rest =>
      reconcileStatuses r pod clock (S i) rest
        (reconcileStatus r pod (clock i) acc containerStatus)
  end.

(** [PodReconciler.Reconcile]; [clock i] is the reading of the clock
    while the [i]-th container status is processed.  Returns the
    cluster, the enrichments started in the background and the error
    handed to the work queue. *)
Definition Reconcile (r : PodReconciler) (clock : nat -> Z) (c : Cluster)
    (req : string * string)
  : Cluster * list Enrichment * option apiError :=
  match GetPod c req with
  | Err err =>
      if IsNotFound err then (c, [], None) else (c, [], Some err)
  | Ok pod =>
      if negb (String.eqb (corev1.Phase pod) corev1.PodRunning)
         && negb (String.eqb (corev1.Phase pod) corev1.PodPending)
      then (c, [], None)
      else
        let allStatuses :=
          (corev1.ContainerStatuses pod ++ corev1.InitContainerStatuses pod)%list in
        let '(c, started) := reconcileStatuses r pod clock 0 allStatuses (c, []) in
        (c, started, None)
  end.

End Reconciler.

End controller.

(** ** [pkg/secrets]: reading an API key from a secret *)

Module secrets.

(** The secrets of the cluster, as [client.Get] shows them: their data
    by namespace and name; reads of chosen secrets can be made to
    fail. *)
Record SecretStore := {
  secretData : gmap (string * string) (gmap string string);
  secretFailures : gmap (string * string) string
}.

Inductive getError :=
  | NotFound
  | Failure (msg : string).

(** The errors of [ReadAPIKey]: an argument is empty; the secret could
    not be read; the secret has no such key. *)
Inductive readError :=
  | MissingArgument
  | GetFailed (namespace secretName : string) (cause : getError)
  | KeyNotFound (secretKey namespace secretName : string).

(** [r.client.Get(ctx, types.NamespacedName{...}, secret)] *)
Definition GetSecret (s : SecretStore) (key : string * string)
  : result getError (gmap string string) :=
  match secretFailures s !! key with
  | Some msg => Err (Failure msg)
  | None =>
      match secretData s !! key with
      | Some data => Ok data
      | None => Err NotFound
      end
  end.

(** [SecretReader.ReadAPIKey] *)
Definition ReadAPIKey (s : SecretStore) (namespace secretName secretKey : string)
  : result readError string :=
  if String.eqb namespace "" || String.eqb secretName ""
     || String.eqb secretKey ""
  then Err MissingArgument
  else
    match GetSecret s (namespace, secretName) with
    | Err err => Err (GetFailed namespace secretName err)
    | Ok data =>
        match data !! secretKey with
        | Some value => Ok value
        | None => Err (KeyNotFound secretKey namespace secretName)
        end
    end.

End secrets.

(** ** [pkg/pyxis]: the answers of the Pyxis API *)

Module pyxiswire.

Record PyxisImageRepository := {
  Registry : string;
  Repository : string;
  ManifestListDigest : string;
  PushDate : string
}.

Record PyxisLabel := {
  Name : string;
  Value : string
}.

Record PyxisImageParsedData := {
  Labels : list PyxisLabel
}.

Record PyxisFreshnessGrade := {
  Grade : string
}.

Record PyxisVulnerabilitySummary := {
  Critical : Z;
  Important : Z;
  Moderate : Z;
  Low : Z
}.

(** [PyxisContentStreamGrade]; [StreamGrade] is its field [Grade]. *)
Record PyxisContentStreamGrade := {
  Architecture : string;
  StreamGrade : string
}.

Record PyxisImageResponse := {
  ID : string;
  Certified : bool;
  ParsedData : option PyxisImageParsedData;
  FreshnessGrades : list PyxisFreshnessGrade;
  VulnerabilitySummary : option PyxisVulnerabilitySummary;
  Repositories : list PyxisImageRepository;
  TotalSizeBytes : Z;
  TotalUncompressedSizeBytes : Z;
  ContentStreamGrades : list PyxisContentStreamGrade;
  CanAutoReleaseCVERebuild : bool;
  LayerCount : Z;
  BuildDate : string
}.

End pyxiswire.

(** ** [pkg/pyxis]: the HTTP client *)

Module pyxisclient.
Import pyxiswire.

(** [RepositoryInfo] *)
Record RepositoryInfo := {
  RepositoryID : string;
  EOLDate : string;
  ReleaseCategory : string;
  ReplacedByRepositoryName : string
}.

(** [isRedHatRegistry] *)
Definition isRedHatRegistry (registry : string) : bool :=
  gostrings.slicesContains
    ["registry.redhat.io"; "registry.access.redhat.com";
     "registry.connect.redhat.com"] registry.

(** [HTTPClient.isFromRedHatRegistry] *)
Definition isFromRedHatRegistry (pyxisResp : PyxisImageResponse) : bool :=
  match Repositories pyxisResp with
  | [] => true
  | _ :: _ => existsb (fun repo => isRedHatRegistry (Registry repo))
                (Repositories pyxisResp)
  end.

(** A Go [map[string]bool] used as a set, by its keys in the order they
    were first added. *)
Definition setAdd (key : string) (set : list string) : list string :=
  if existsb (String.eqb key) set then set else (set ++ [key])%list.

(** A Go [map[string]string], by its entries in the order their keys
    were first set. *)
Fixpoint mapSet (key value : string) (m : list (string * string))
  : list (string * string) :=
  match m with
  | [] => [(key, value)]
  | (k, v) :: rest =>
      if String.eqb k key then (k, value) :: rest
      else (k, v) :: mapSet key value rest
  end.

(** [m[key]] *)
Fixpoint mapGet (key : string) (m : list (string * string)) : option string :=
  match m with
  | [] => None
  | (k, v) :: rest => if String.eqb k key then Some v else mapGet key rest
  end.

(** [extractArchitectureHealth]; the empty map stands for [nil]. *)
Definition extractArchitectureHealth (grades : list PyxisContentStreamGrade)
  : list (string * string) :=
  fold_left
    (fun archHealth grade =>
       if negb (String.eqb (Architecture grade) "")
          && negb (String.eqb (StreamGrade grade) "")
       then mapSet (Architecture grade) (StreamGrade grade) archHealth
       else archHealth)
    grades [].

(** The assignments to the fields of [*CertificationData]. *)
Definition setPublisher (certData : pyxis.CertificationData) (publisher : string)
  : pyxis.CertificationData :=
  {| pyxis.ProjectID := pyxis.ProjectID certData;
     pyxis.Publisher := publisher;
     pyxis.HealthIndex := pyxis.HealthIndex certData;
     pyxis.Vulnerabilities := pyxis.Vulnerabilities certData;
     pyxis.CatalogURL := pyxis.CatalogURL certData;
     pyxis.ImageID := pyxis.ImageID certData;
     pyxis.PublishedAt := pyxis.PublishedAt certData;
     pyxis.CVEs := pyxis.CVEs certData;
     pyxis.EOLDate := pyxis.EOLDate certData;
     pyxis.ReleaseCategory := pyxis.ReleaseCategory certData;
     pyxis.ReplacedBy := pyxis.ReplacedBy certData;
     pyxis.Architectures := pyxis.Architectures certData;
     pyxis.CompressedSizeBytes := pyxis.CompressedSizeBytes certData;
     pyxis.AutoRebuildEnabled := pyxis.AutoRebuildEnabled certData;
     pyxis.ArchitectureHealth := pyxis.ArchitectureHealth certData;
     pyxis.UncompressedSizeBytes := pyxis.UncompressedSizeBytes certData;
     pyxis.LayerCount := pyxis.LayerCount certData;
     pyxis.BuildDate := pyxis.BuildDate certData;
     pyxis.AdvisoryIDs := pyxis.AdvisoryIDs certData |}.

Definition setProjectID (certData : pyxis.CertificationData) (projectID : string)
  : pyxis.CertificationData :=
  {| pyxis.ProjectID := projectID;
     pyxis.Publisher := pyxis.Publisher certData;
     pyxis.HealthIndex := pyxis.HealthIndex certData;
     pyxis.Vulnerabilities := pyxis.Vulnerabilities certData;
     pyxis.CatalogURL := pyxis.CatalogURL certData;
     pyxis.ImageID := pyxis.ImageID certData;
     pyxis.PublishedAt := pyxis.PublishedAt certData;
     pyxis.CVEs := pyxis.CVEs certData;
     pyxis.EOLDate := pyxis.EOLDate certData;
     pyxis.ReleaseCategory := pyxis.ReleaseCategory certData;
     pyxis.ReplacedBy := pyxis.ReplacedBy certData;
     pyxis.Architectures := pyxis.Architectures certData;
     pyxis.CompressedSizeBytes := pyxis.CompressedSizeBytes certData;
     pyxis.AutoRebuildEnabled := pyxis.AutoRebuildEnabled certData;
     pyxis.ArchitectureHealth := pyxis.ArchitectureHealth certData;
     pyxis.UncompressedSizeBytes := pyxis.UncompressedSizeBytes certData;
     pyxis.LayerCount := pyxis.LayerCount certData;
     pyxis.BuildDate := pyxis.BuildDate certData;
     pyxis.AdvisoryIDs := pyxis.AdvisoryIDs certData |}.

Definition setHealthIndex (certData : pyxis.CertificationData) (grade : string)
  : pyxis.CertificationData :=
  {| pyxis.ProjectID := pyxis.ProjectID certData;
     pyxis.Publisher := pyxis.Publisher certData;
     pyxis.HealthIndex := grade;
     pyxis.Vulnerabilities := pyxis.Vulnerabilities certData;
     pyxis.CatalogURL := pyxis.CatalogURL certData;
     pyxis.ImageID := pyxis.ImageID certData;
     pyxis.PublishedAt := pyxis.PublishedAt certData;
     pyxis.CVEs := pyxis.CVEs certData;
     pyxis.EOLDate := pyxis.EOLDate certData;
     pyxis.ReleaseCategory := pyxis.ReleaseCategory certData;
     pyxis.ReplacedBy := pyxis.ReplacedBy certData;
     pyxis.Architectures := pyxis.Architectures certData;
     pyxis.CompressedSizeBytes := pyxis.CompressedSizeBytes certData;
     pyxis.AutoRebuildEnabled := pyxis.AutoRebuildEnabled certData;
     pyxis.ArchitectureHealth := pyxis.ArchitectureHealth certData;
     pyxis.UncompressedSizeBytes := pyxis.UncompressedSizeBytes certData;
     pyxis.LayerCount := pyxis.LayerCount certData;
     pyxis.BuildDate := pyxis.BuildDate certData;
     pyxis.AdvisoryIDs := pyxis.AdvisoryIDs certData |}.

Definition setVulnerabilities (certData : pyxis.CertificationData) (summary : option pyxis.VulnerabilitySummary)
  : pyxis.CertificationData :=
  {| pyxis.ProjectID := pyxis.ProjectID certData;
     pyxis.Publisher := pyxis.Publisher certData;
     pyxis.HealthIndex := pyxis.HealthIndex certData;
     pyxis.Vulnerabilities := summary;
     pyxis.CatalogURL := pyxis.CatalogURL certData;
     pyxis.ImageID := pyxis.ImageID certData;
     pyxis.PublishedAt := pyxis.PublishedAt certData;
     pyxis.CVEs := pyxis.CVEs certData;
     pyxis.EOLDate := pyxis.EOLDate certData;
     pyxis.ReleaseCategory := pyxis.ReleaseCategory certData;
     pyxis.ReplacedBy := pyxis.ReplacedBy certData;
     pyxis.Architectures := pyxis.Architectures certData;
     pyxis.CompressedSizeBytes := pyxis.CompressedSizeBytes certData;
     pyxis.AutoRebuildEnabled := pyxis.AutoRebuildEnabled certData;
     pyxis.ArchitectureHealth := pyxis.ArchitectureHealth certData;
     pyxis.UncompressedSizeBytes := pyxis.UncompressedSizeBytes certData;
     pyxis.LayerCount := pyxis.LayerCount certData;
     pyxis.BuildDate := pyxis.BuildDate certData;
     pyxis.AdvisoryIDs := pyxis.AdvisoryIDs certData |}.

Definition setPublishedAt (certData : pyxis.CertificationData) (pushDate : string)
  : pyxis.CertificationData :=
  {| pyxis.ProjectID := pyxis.ProjectID certData;
     pyxis.Publisher := pyxis.Publisher certData;
     pyxis.HealthIndex := pyxis.HealthIndex certData;
     pyxis.Vulnerabilities := pyxis.Vulnerabilities certData;
     pyxis.CatalogURL := pyxis.CatalogURL certData;
     pyxis.ImageID := pyxis.ImageID certData;
     pyxis.PublishedAt := pushDate;
     pyxis.CVEs := pyxis.CVEs certData;
     pyxis.EOLDate := pyxis.EOLDate certData;
     pyxis.ReleaseCategory := pyxis.ReleaseCategory certData;
     pyxis.ReplacedBy := pyxis.ReplacedBy certData;
     pyxis.Architectures := pyxis.Architectures certData;
     pyxis.CompressedSizeBytes := pyxis.CompressedSizeBytes certData;
     pyxis.AutoRebuildEnabled := pyxis.AutoRebuildEnabled certData;
     pyxis.ArchitectureHealth := pyxis.ArchitectureHealth certData;
     pyxis.UncompressedSizeBytes := pyxis.UncompressedSizeBytes certData;
     pyxis.LayerCount := pyxis.LayerCount certData;
     pyxis.BuildDate := pyxis.BuildDate certData;
     pyxis.AdvisoryIDs := pyxis.AdvisoryIDs certData |}.

Definition setRepositoryData (certData : pyxis.CertificationData) 
    (catalogURL eolDate releaseCategory replacedBy : string)
  : pyxis.CertificationData :=
  {| pyxis.ProjectID := pyxis.ProjectID certData;
     pyxis.Publisher := pyxis.Publisher certData;
     pyxis.HealthIndex := pyxis.HealthIndex certData;
     pyxis.Vulnerabilities := pyxis.Vulnerabilities certData;
     pyxis.CatalogURL := catalogURL;
     pyxis.ImageID := pyxis.ImageID certData;
     pyxis.PublishedAt := pyxis.PublishedAt certData;
     pyxis.CVEs := pyxis.CVEs certData;
     pyxis.EOLDate := eolDate;
     pyxis.ReleaseCategory := releaseCategory;
     pyxis.ReplacedBy := replacedBy;
     pyxis.Architectures := pyxis.Architectures certData;
     pyxis.CompressedSizeBytes := pyxis.CompressedSizeBytes certData;
     pyxis.AutoRebuildEnabled := pyxis.AutoRebuildEnabled certData;
     pyxis.ArchitectureHealth := pyxis.ArchitectureHealth certData;
     pyxis.UncompressedSizeBytes := pyxis.UncompressedSizeBytes certData;
     pyxis.LayerCount := pyxis.LayerCount certData;
     pyxis.BuildDate := pyxis.BuildDate certData;
     pyxis.AdvisoryIDs := pyxis.AdvisoryIDs certData |}.

Definition setAdvisories (certData : pyxis.CertificationData) (cves advisoryIDs : list string)
  : pyxis.CertificationData :=
  {| pyxis.ProjectID := pyxis.ProjectID certData;
     pyxis.Publisher := pyxis.Publisher certData;
     pyxis.HealthIndex := pyxis.HealthIndex certData;
     pyxis.Vulnerabilities := pyxis.Vulnerabilities certData;
     pyxis.CatalogURL := pyxis.CatalogURL certData;
     pyxis.ImageID := pyxis.ImageID certData;
     pyxis.PublishedAt := pyxis.PublishedAt certData;
     pyxis.CVEs := cves;
     pyxis.EOLDate := pyxis.EOLDate certData;
     pyxis.ReleaseCategory := pyxis.ReleaseCategory certData;
     pyxis.ReplacedBy := pyxis.ReplacedBy certData;
     pyxis.Architectures := pyxis.Architectures certData;
     pyxis.CompressedSizeBytes := pyxis.CompressedSizeBytes certData;
     pyxis.AutoRebuildEnabled := pyxis.AutoRebuildEnabled certData;
     pyxis.ArchitectureHealth := pyxis.ArchitectureHealth certData;
     pyxis.UncompressedSizeBytes := pyxis.UncompressedSizeBytes certData;
     pyxis.LayerCount := pyxis.LayerCount certData;
     pyxis.BuildDate := pyxis.BuildDate certData;
     pyxis.AdvisoryIDs := advisoryIDs |}.

(** [extractPublisherInfo] *)
Definition extractPublisherInfo (parsedData : option PyxisImageParsedData)
    (certData : pyxis.CertificationData) : pyxis.CertificationData :=
  match parsedData with
  | None => certData
  | Some parsed =>
      fold_left
        (fun certData label =>
           if String.eqb (Name label) "vendor"
              || String.eqb (Name label) "maintainer"
           then
             if String.eqb (pyxis.Publisher certData) ""
             then setPublisher certData (Value label) else certData
           else if String.eqb (Name label) "com.redhat.component" then
             if String.eqb (pyxis.ProjectID certData) ""
             then setProjectID certData (Value label) else certData
           else certData)
        (Labels parsed) certData
  end.

(** [copyVulnerabilitySummary] *)
Definition copyVulnerabilitySummary (summary : option PyxisVulnerabilitySummary)
    (certData : pyxis.CertificationData) : pyxis.CertificationData :=
  match summary with
  | None => certData
  | Some s =>
      setVulnerabilities certData
        (Some {| pyxis.Critical := Critical s; pyxis.Important := Important s;
                 pyxis.Moderate := Moderate s; pyxis.Low := Low s |})
  end.

Section HTTP.
(** What the client takes from outside: its base URL;
    [url.QueryEscape]; the order in which a [range] visits the keys of
    a map; and the exchanges with the Pyxis API, each with the
    decoding of its answer: [fetchAndParseResponse], the first image of
    the page or none; [getRepositoryInfo]; and
    [getVulnerabilitiesWithAdvisories]. *)
Variable baseURL : string.
Variable QueryEscape : string -> string.
Variable rangeOrder : list string -> list string.
Variable fetchAndParseResponse :
  string -> result string (option PyxisImageResponse).
Variable getRepositoryInfo : string -> string -> option RepositoryInfo.
Variable getVulnerabilitiesWithAdvisories :
  string -> list string * list string.

(** [extractArchitectures] *)
Definition extractArchitectures (grades : list PyxisContentStreamGrade)
  : list string :=
  let archSet :=
    fold_left
      (fun archSet grade =>
         if negb (String.eqb (Architecture grade) "")
         then setAdd (Architecture grade) archSet else archSet)
      grades [] in
  rangeOrder archSet.

(** [HTTPClient.populateRepositoryData] *)
Definition populateRepositoryData (pyxisResp : PyxisImageResponse)
    (certData : pyxis.CertificationData) : pyxis.CertificationData :=
  match Repositories pyxisResp with
  | [] => certData
  | repo :: _ =>
      let certData :=
        match getRepositoryInfo (Registry repo) (Repository repo) with
        | Some repoInfo =>
            setRepositoryData certData
              (if negb (String.eqb (RepositoryID repoInfo) "")
               then "https://catalog.redhat.com/software/containers/"
                    ++ RepositoryID repoInfo
               else pyxis.CatalogURL certData)
              (EOLDate repoInfo) (ReleaseCategory repoInfo)
              (ReplacedByRepositoryName repoInfo)
        | None => certData
        end in
      if negb (String.eqb (PushDate repo) "")
      then setPublishedAt certData (PushDate repo) else certData
  end.

(** [HTTPClient.convertToCertificationData] *)
Definition convertToCertificationData (pyxisResp : PyxisImageResponse)
  : pyxis.CertificationData :=
  let certData :=
    {| pyxis.ProjectID := ""; pyxis.Publisher := ""; pyxis.HealthIndex := "";
       pyxis.Vulnerabilities := None; pyxis.CatalogURL := "";
       pyxis.ImageID := ID pyxisResp; pyxis.PublishedAt := "";
       pyxis.CVEs := []; pyxis.EOLDate := ""; pyxis.ReleaseCategory := "";
       pyxis.ReplacedBy := "";
       pyxis.Architectures :=
         extractArchitectures (ContentStreamGrades pyxisResp);
       pyxis.CompressedSizeBytes :=
         if 0 <? TotalSizeBytes pyxisResp then TotalSizeBytes pyxisResp else 0;
       pyxis.AutoRebuildEnabled := CanAutoReleaseCVERebuild pyxisResp;
       pyxis.ArchitectureHealth :=
         extractArchitectureHealth (ContentStreamGrades pyxisResp);
       pyxis.UncompressedSizeBytes :=
         if 0 <? TotalUncompressedSizeBytes pyxisResp
         then TotalUncompressedSizeBytes pyxisResp else 0;
       pyxis.LayerCount :=
         if 0 <? LayerCount pyxisResp then LayerCount pyxisResp else 0;
       pyxis.BuildDate := BuildDate pyxisResp;
       pyxis.AdvisoryIDs := [] |} in
  let certData := populateRepositoryData pyxisResp certData in
  let certData :=
    match FreshnessGrades pyxisResp with
    | grade :: _ => setHealthIndex certData (Grade grade)
    | [] => certData
    end in
  let certData := extractPublisherInfo (ParsedData pyxisResp) certData in
  let certData :=
    copyVulnerabilitySummary (VulnerabilitySummary pyxisResp) certData in
  if negb (String.eqb (pyxis.ImageID certData) "") then
    let '(cves, advisoryIDs) :=
      getVulnerabilitiesWithAdvisories (pyxis.ImageID certData) in
    setAdvisories certData
      (match cves with [] => pyxis.CVEs certData | _ :: _ => cves end)
      (match advisoryIDs with
       | [] => pyxis.AdvisoryIDs certData
       | _ :: _ => advisoryIDs
       end)
  else certData.

(** [HTTPClient.queryAndParse] *)
Definition queryAndParse (requestURL : string)
  : result string (option pyxis.CertificationData) :=
  match fetchAndParseResponse requestURL with
  | Err err => Err err
  | Ok None => Ok None
  | Ok (Some pyxisResp) =>
      if negb (isFromRedHatRegistry pyxisResp) then Ok None
      else Ok (Some (convertToCertificationData pyxisResp))
  end.

(** [HTTPClient.queryByImageID] *)
Definition queryByImageID (digest : string)
  : result string (option pyxis.CertificationData) :=
  queryAndParse (baseURL ++ "/images?filter=image_id==" ++ QueryEscape digest).

(** [HTTPClient.queryByManifestListDigest] *)
Definition queryByManifestListDigest (digest : string)
  : result string (option pyxis.CertificationData) :=
  queryAndParse
    (baseURL ++ "/images?filter=repositories.manifest_list_digest=="
     ++ QueryEscape digest).

(** [HTTPClient.GetImageCertification] *)
Definition GetImageCertification (registry repository digest : string)
  : result string (option pyxis.CertificationData) :=
  match queryByImageID digest with
  | Err err => Err err
  | Ok (Some certData) => Ok (Some certData)
  | Ok None => queryByManifestListDigest digest
  end.

End HTTP.

End pyxisclient.

(** ** Vocabulary of the statements about the parser *)

Module parser_spec.
Import gostrings image.

(** The identifier once its pull-scheme prefixes are removed. *)
Definition stripScheme (imageID : string) : string :=
  TrimPrefix (TrimPrefix imageID "docker-pullable://") "docker://".

(** The number of occurrences of a byte. *)
Fixpoint countByte (s : string) (c : ascii) : nat :=
  match s with
  | EmptyString => O
  | String a t => ((if Ascii.eqb a c then 1 else 0) + countByte t c)%nat
  end.

(** Every byte of the string passes the test. *)
Fixpoint allBytes (p : ascii -> bool) (s : string) : bool :=
  match s with
  | EmptyString => true
  | String c t => p c && allBytes p t
  end.

(** The first byte of the string, if any, passes the test. *)
Definition startsWith (p : ascii -> bool) (s : string) : bool :=
  match s with
  | EmptyString => false
  | String c _ => p c
  end.

(** A lowercase letter, a digit, ['.'] or ['-']. *)
Definition isKeyChar (c : ascii) : bool :=
  let b := byte c in
  ((byte "a" <=? b) && (b <=? byte "z"))
  || ((byte "0" <=? b) && (b <=? byte "9"))
  || Ascii.eqb c "." || Ascii.eqb c "-".

(** A lowercase hexadecimal digit, as the record schema requires of the
    digits of a digest ([^sha256:[a-f0-9]{64}$]). *)
Definition isHexDigit (c : ascii) : bool :=
  let b := byte c in
  ((byte "0" <=? b) && (b <=? byte "9"))
  || ((byte "a" <=? b) && (b <=? byte "f")).

(** The reading of the specification's sentence on parse failures:
    parsing fails exactly when the stripped identifier is empty or has
    no ['@']. *)
Definition fails_only_without_digest : Prop :=
  forall imageID : string,
    isOk (ParseImageID imageID) = false <->
    (stripScheme imageID = "" \/ Contains (stripScheme imageID) "@" = false).

(** An identifier with two ['@']. *)
Definition twoDigests : string :=
  "registry.example/ns/app@sha256:aa@sha256:bb".

(** The last byte of the string, if any, passes the test. *)
Fixpoint endsWith (p : ascii -> bool) (s : string) : bool :=
  match s with
  | EmptyString => false
  | String c EmptyString => p c
  | String _ t => endsWith p t
  end.

End parser_spec.

(** ** Vocabulary of the statements about the reconciler *)

Module reconciler_spec.
Import v1alpha1 controller.

(** Every record of the store is filed under its own name, as the API
    server has it. *)
Definition namedByKey (c : Cluster) : Prop :=
  map_Forall (fun name cr => ObjectName cr = name) (infos c).

(** The pod of the reference is confirmed absent: the read answers
    not-found. *)
Definition confirmedAbsent (c : Cluster) (podRef : PodReference) : bool :=
  match GetPod c (Namespace podRef, Name podRef) with
  | Err NotFound => true
  | _ => false
  end.

(** The record as a cleanup pass leaves it: the references whose pod is
    not confirmed absent, in their order, and nothing else changed. *)
Definition withoutStale (c : Cluster) (cr : ImageCertificationInfo)
  : ImageCertificationInfo :=
  setStatus cr
    (setPodReferences (Status cr)
       (List.filter (fun podRef => negb (confirmedAbsent c podRef))
          (PodReferences (Status cr)))).

(** Some reference of the record is to a pod confirmed absent. *)
Definition hasStale (c : Cluster) (cr : ImageCertificationInfo) : bool :=
  existsb (confirmedAbsent c) (PodReferences (Status cr)).

(** What [Reconcile] observes in a container status of a pod: the key
    of the image and the reference to the container, when the image
    identifier is set and parses. *)
Definition observation (lower : string -> string) (pod : corev1.Pod)
    (containerStatus : corev1.ContainerStatus)
  : option (string * PodReference) :=
  if String.eqb (corev1.ImageID containerStatus) "" then None
  else
    match image.ParseImageID (corev1.ImageID containerStatus) with
    | Err _ => None
    | Ok ref =>
        Some (image.ReferenceToCRName lower ref,
              {| Namespace := corev1.Namespace pod;
                 Name := corev1.Name pod;
                 Container := corev1.ContainerName containerStatus |})
    end.

(** The record [cr'] is the record [cr] seen again: the same but for
    the time it was last seen and for references that were added. *)
Definition seenAgain (cr cr' : ImageCertificationInfo) : Prop :=
  ObjectName cr' = ObjectName cr /\
  Annotations cr' = Annotations cr /\
  Spec cr' = Spec cr /\
  RegistryType_ (Status cr') = RegistryType_ (Status cr) /\
  CertificationStatus_ (Status cr') = CertificationStatus_ (Status cr) /\
  PyxisData_ (Status cr') = PyxisData_ (Status cr) /\
  FirstSeenAt (Status cr') = FirstSeenAt (Status cr) /\
  LastPyxisCheckAt (Status cr') = LastPyxisCheckAt (Status cr) /\
  ImageAge (Status cr') = ImageAge (Status cr) /\
  DaysUntilEOL (Status cr') = DaysUntilEOL (Status cr) /\
  Conditions (Status cr') = Conditions (Status cr) /\
  forall podRef, podRef ∈ PodReferences (Status cr) ->
                 podRef ∈ PodReferences (Status cr').

(** The references of the record of that name, if there is one. *)
Definition referencesOf (c : Cluster) (name : string)
  : option (list PodReference) :=
  (fun cr => PodReferences (Status cr)) <$> infos c !! name.

(** The record [cr] as [checkPyxisCertification] writes it back when
    the certification client gave [answer]. *)
Definition enriched (timeParse : string -> string -> option Z)
    (durationDays : Z -> Z) (now tSince tUntil : Z)
    (cr : ImageCertificationInfo)
    (answer : result string (option pyxis.CertificationData))
  : ImageCertificationInfo :=
  let st := setLastPyxisCheckAt (Status cr) now in
  match answer with
  | Err _ => setStatus cr (setCertificationStatus st CertificationStatusError)
  | Ok None =>
      setStatus cr (setCertificationStatus st CertificationStatusNotCertified)
  | Ok (Some certData) =>
      {| ObjectName := ObjectName cr;
         Annotations :=
           if (0 <? length (pyxis.CVEs certData))%nat
           then <["security.telco.openshift.io/cves" :=
                    String.concat "," (pyxis.CVEs certData)]> (Annotations cr)
           else Annotations cr;
         Spec := Spec cr;
         Status := certifiedStatus timeParse durationDays tSince tUntil st certData |}
  end.

(** An enrichment that may be started: there is a certification
    client, the image is of a Red Hat registry, and the enrichment is for
    the record under the key of the image. *)
Definition eligible (lower : string -> string) (r : PodReconciler)
    (t : Enrichment) : Prop :=
  PyxisClient r <> None /\
  image.IsRedHatRegistry lower (image.Registry (enrichRef t)) = true /\
  enrichName t = image.ReferenceToCRName lower (enrichRef t).

End reconciler_spec.

(** ** Vocabulary for the Pyxis client *)

Module pyxis_spec.
Import pyxiswire.

(** The value of the first label of [labels] that carries one of
    [names] and a value that is not empty; the empty string when there
    is none. *)
Definition firstValue (names : list string) (labels : list PyxisLabel) : string :=
  match
    find (fun label =>
            existsb (String.eqb (Name label)) names
            && negb (String.eqb (Value label) ""))
         labels
  with
  | Some label => Value label
  | None => ""
  end.

(** What a field that is only assigned while empty ends with. *)
Definition unlessSet (current found : string) : string :=
  if String.eqb current "" then found else current.

(** [grades] gives [arch] the grade [grade]: an entry for [arch] carries
    it, and no later entry for [arch] carries a grade. *)
Definition lastGrade (grades : list PyxisContentStreamGrade)
    (arch grade : string) : Prop :=
  exists before g after,
    grades = (before ++ g :: after)%list /\
    Architecture g = arch /\ StreamGrade g = grade /\
    forall h, In h after -> Architecture h = arch -> StreamGrade h = "".

End pyxis_spec.

(** ** Concrete inputs, on which the statements are exercised *)

Module examples.
Import v1alpha1 controller.

(** No string outside ASCII occurs below: the lowering of such strings
    is never called. *)
Definition lower (s : string) : string := s.

(** A clock for [time.Parse]: every date reads as the instant 0. *)
Definition parseAny (layout value : string) : option Z := Some 0.

(** Whole days of a duration in nanoseconds. *)
Definition days (d : Z) : Z := Z.quot d (24 * 3600 * 1000000000).

Definition testDigest : string :=
  "abc123def456abc123def456abc123def456abc123def456abc123def456abc1".

Definition exampleImageID : string :=
  "registry.example/ns/app@sha256:" ++ testDigest.

Definition exampleRef : image.Reference :=
  {| image.Registry := "registry.example"; image.Repository := "ns/app";
     image.Tag := ""; image.Digest := "sha256:" ++ testDigest;
     image.FullReference := exampleImageID |}.

Definition testPod : corev1.Pod :=
  {| corev1.Namespace := "default"; corev1.Name := "test-pod";
     corev1.Phase := corev1.PodRunning;
     corev1.ContainerStatuses :=
       [{| corev1.ContainerName := "test-container";
           corev1.ImageID := exampleImageID |}];
     corev1.InitContainerStatuses := [] |}.

(** A cluster with that pod and no record. *)
Definition freshCluster : Cluster :=
  {| pods := {[ ("default", "test-pod") := testPod ]};
     podFailures := ∅; infos := ∅; listFailure := None;
     statusWrites := []; events := [] |}.

Definition reference (pod container : string) : PodReference :=
  {| Namespace := "default"; Name := pod; Container := container |}.

(** A record with three references: to the pod of the cluster, to a
    deleted pod and to a pod whose read fails. *)
Definition exampleRecord : ImageCertificationInfo :=
  {| ObjectName := "registry.example.ns.app.abc123de";
     Annotations := ∅;
     Spec := {| ImageDigest := "sha256:" ++ testDigest;
                FullImageReference := exampleImageID;
                Registry := "registry.example"; Repository := "ns/app";
                Tag := "" |};
     Status := {| RegistryType_ := RegistryTypeUnknown;
                  CertificationStatus_ := CertificationStatusCertified;
                  PyxisData_ := None;
                  PodReferences :=
                    [reference "test-pod" "test-container";
                     reference "deleted-pod" "container2";
                     reference "unreadable-pod" "container3"];
                  FirstSeenAt := Some 100; LastSeenAt := Some 100;
                  LastPyxisCheckAt := None; ImageAge := "";
                  DaysUntilEOL := None; Conditions := [] |} |}.

Definition exampleCluster : Cluster :=
  {| pods := {[ ("default", "test-pod") := testPod ]};
     podFailures := {[ ("default", "unreadable-pod") := "connection refused" ]};
     infos := {[ "registry.example.ns.app.abc123de" := exampleRecord ]};
     listFailure := None; statusWrites := []; events := [] |}.

Definition gradeA : pyxis.CertificationData :=
  {| pyxis.ProjectID := "ubi8-container"; pyxis.Publisher := "Red Hat, Inc.";
     pyxis.HealthIndex := "A"; pyxis.Vulnerabilities := None;
     pyxis.CatalogURL := ""; pyxis.ImageID := ""; pyxis.PublishedAt := "";
     pyxis.CVEs := ["CVE-2024-0001"]; pyxis.EOLDate := "";
     pyxis.ReleaseCategory := ""; pyxis.ReplacedBy := "";
     pyxis.Architectures := ["amd64"]; pyxis.CompressedSizeBytes := 0;
     pyxis.AutoRebuildEnabled := false; pyxis.ArchitectureHealth := [];
     pyxis.UncompressedSizeBytes := 0; pyxis.LayerCount := 0;
     pyxis.BuildDate := ""; pyxis.AdvisoryIDs := [] |}.

(** A certification client that answers with grade A, and one that
    fails. *)
Definition certified : pyxis.Client := fun _ _ _ => Ok (Some gradeA).
Definition unreachable : pyxis.Client := fun _ _ _ => Err "timeout".

Definition withClient (get : pyxis.Client) : PodReconciler :=
  {| PyxisClient := Some get; Recorder := true |}.

(** A wrapped Docker Hub client that counts its calls in its state and
    knows no repository. *)
Definition countingClient (n : nat) (namespace repository : string)
  : nat * result dockerhub.error (option dockerhub.RepositoryInfo) :=
  (S n, Ok None).

Definition coldCache : dockerhub.CachedClient nat :=
  dockerhub.NewCachedClient nat
    {| dockerhub.inner := O; dockerhub.calls := [] |} (Some 10).

Definition warmEntry : dockerhub.cacheEntry :=
  {| dockerhub.data := None; dockerhub.expiresAt := 11 |}.

Definition warmCache : dockerhub.CachedClient nat :=
  {| dockerhub.client := {| dockerhub.inner := 1%nat;
                            dockerhub.calls := [("library", "nginx")] |};
     dockerhub.cache := {[ dockerhub.cacheKey "library" "nginx" := warmEntry ]};
     dockerhub.ttl := 10 |}.

(** The digest of the repository's tests. *)
Definition sourceDigest : string :=
  "sha256:abc123def456abc123def456abc123def456abc123def456abc123def456abc1".

(** The pod of the controller tests: Running, one container of the UBI
    image. *)
Definition ubiPod (name container : string) : corev1.Pod :=
  {| corev1.Namespace := "default"; corev1.Name := name;
     corev1.Phase := corev1.PodRunning;
     corev1.ContainerStatuses :=
       [{| corev1.ContainerName := container;
           corev1.ImageID :=
             "docker-pullable://registry.redhat.io/ubi8/ubi@" ++ sourceDigest |}];
     corev1.InitContainerStatuses := [] |}.

(** [TestPodReconciler_Reconcile]: the cluster before and after the
    first pass. *)
Definition ubiCluster : Cluster :=
  {| pods := {[ ("default", "test-pod") := ubiPod "test-pod" "test-container" ]};
     podFailures := ∅; infos := ∅; listFailure := None;
     statusWrites := []; events := [] |}.

Definition noClient : PodReconciler :=
  {| PyxisClient := None; Recorder := false |}.

Definition afterFirstPass : Cluster :=
  (Reconcile lower noClient (fun _ => 100) ubiCluster ("default", "test-pod")).1.1.

(** A clock for [time.Parse] that knows two dates: 15 January 2024 in
    RFC 3339, and 30 June 2030 as a plain day; instants in
    nanoseconds. *)
Definition parseDates (layout value : string) : option Z :=
  if String.eqb layout "2006-01-02T15:04:05Z07:00"
     && String.eqb value "2024-01-15T10:30:00Z"
  then Some 1705314600000000000
  else if String.eqb layout "2006-01-02" && String.eqb value "2030-06-30"
  then Some 1909008000000000000
  else None.

(** Grade A data with a publication date and an end-of-life day. *)
Definition datedA : pyxis.CertificationData :=
  {| pyxis.ProjectID := "ubi8-container"; pyxis.Publisher := "Red Hat, Inc.";
     pyxis.HealthIndex := "A";
     pyxis.Vulnerabilities :=
       Some {| pyxis.Critical := 0; pyxis.Important := 2;
               pyxis.Moderate := 5; pyxis.Low := 1 |};
     pyxis.CatalogURL := ""; pyxis.ImageID := "";
     pyxis.PublishedAt := "2024-01-15T10:30:00Z";
     pyxis.CVEs := []; pyxis.EOLDate := "2030-06-30";
     pyxis.ReleaseCategory := "Generally Available"; pyxis.ReplacedBy := "";
     pyxis.Architectures := ["amd64"; "arm64"];
     pyxis.CompressedSizeBytes := 12345; pyxis.AutoRebuildEnabled := true;
     pyxis.ArchitectureHealth := [("amd64", "A")];
     pyxis.UncompressedSizeBytes := 54321; pyxis.LayerCount := 3;
     pyxis.BuildDate := "2024-01-10T00:00:00Z"; pyxis.AdvisoryIDs := [] |}.

Definition dated : pyxis.Client := fun _ _ _ => Ok (Some datedA).

(** Forty-five days after the publication of [datedA], and ten days
    before its end of life. *)
Definition afterPublication : Z := 1705314600000000000 + 45 * 86400000000000.
Definition beforeEOL : Z := 1909008000000000000 - 10 * 86400000000000.

(** The reference of the image of [ubiPod]. *)
Definition ubiRef : image.Reference :=
  {| image.Registry := "registry.redhat.io"; image.Repository := "ubi8/ubi";
     image.Tag := ""; image.Digest := sourceDigest;
     image.FullReference := "registry.redhat.io/ubi8/ubi@" ++ sourceDigest |}.

(** Content stream grades as the Pyxis tests have them, with an entry
    without a grade and a repeated architecture added. *)
Definition exampleGrades : list pyxiswire.PyxisContentStreamGrade :=
  [{| pyxiswire.Architecture := "amd64"; pyxiswire.StreamGrade := "B" |};
   {| pyxiswire.Architecture := "arm64"; pyxiswire.StreamGrade := "" |};
   {| pyxiswire.Architecture := "amd64"; pyxiswire.StreamGrade := "A" |}].

End examples.

(** * Properties *)

(** ** The tests of the repository, replayed on the model *)

Section SourceTests.
Import v1alpha1 controller examples.

(** [TestParseImageID] *)
Example TestParseImageID_errors :
  map (fun s => isOk (image.ParseImageID s))
    [""; "registry.redhat.io/ubi8/ubi:latest"] = [false; false].
Proof. reflexivity. Qed.

Example TestParseImageID_references :
  map image.ParseImageID
    ["docker-pullable://registry.redhat.io/ubi8/ubi@" ++ sourceDigest;
     "docker://quay.io/openshift/origin-cli@" ++ sourceDigest;
     "nginx@" ++ sourceDigest;
     "myuser/myimage@" ++ sourceDigest;
     "registry.redhat.io/ubi8/ubi:8.5@" ++ sourceDigest;
     "localhost:5000/myimage@" ++ sourceDigest] =
  [Ok {| image.Registry := "registry.redhat.io"; image.Repository := "ubi8/ubi"; image.Tag := "";
         image.Digest := sourceDigest;
         image.FullReference := "registry.redhat.io/ubi8/ubi@" ++ sourceDigest |};
   Ok {| image.Registry := "quay.io"; image.Repository := "openshift/origin-cli"; image.Tag := "";
         image.Digest := sourceDigest;
         image.FullReference := "quay.io/openshift/origin-cli@" ++ sourceDigest |};
   Ok {| image.Registry := "docker.io"; image.Repository := "library/nginx"; image.Tag := "";
         image.Digest := sourceDigest;
         image.FullReference := "nginx@" ++ sourceDigest |};
   Ok {| image.Registry := "docker.io"; image.Repository := "myuser/myimage"; image.Tag := "";
         image.Digest := sourceDigest;
         image.FullReference := "myuser/myimage@" ++ sourceDigest |};
   Ok {| image.Registry := "registry.redhat.io"; image.Repository := "ubi8/ubi"; image.Tag := "8.5";
         image.Digest := sourceDigest;
         image.FullReference := "registry.redhat.io/ubi8/ubi:8.5@" ++ sourceDigest |};
   Ok {| image.Registry := "localhost:5000"; image.Repository := "myimage"; image.Tag := "";
         image.Digest := sourceDigest;
         image.FullReference := "localhost:5000/myimage@" ++ sourceDigest |}].
Proof. reflexivity. Qed.

(** [TestReferenceToCRName] *)
Example TestReferenceToCRName :
  map (fun '(registry, repository, digest) =>
         image.ReferenceToCRName lower
           {| image.Registry := registry; image.Repository := repository; image.Tag := "";
         image.Digest := digest;
         image.FullReference := "" |})
    [("registry.redhat.io", "ubi8/ubi", sourceDigest);
     ("quay.io", "openshift/origin-cli",
      "sha256:fedcba98765432fedcba98765432fedcba98765432fedcba98765432fedcba98");
     ("docker.io", "library/nginx",
      "sha256:1234567890abcdef1234567890abcdef1234567890abcdef1234567890abcdef");
     ("gcr.io", "google-containers/some/deep/path",
      "sha256:aabbccdd11223344aabbccdd11223344aabbccdd11223344aabbccdd11223344")] =
  ["registry.redhat.io.ubi8.ubi.abc123de";
   "quay.io.openshift.origin-cli.fedcba98";
   "docker.io.library.nginx.12345678";
   "gcr.io.google-containers.some.deep.path.aabbccdd"].
Proof. reflexivity. Qed.

(** [TestClassifyRegistry] *)
Example TestClassifyRegistry :
  map (image.ClassifyRegistry lower)
    ["registry.redhat.io"; "registry.access.redhat.com";
     "registry.connect.redhat.com"; "REGISTRY.REDHAT.IO";
     "quay.io"; "QUAY.IO";
     "docker.io"; "ghcr.io"; "gcr.io"; "registry.k8s.io"; "k8s.gcr.io";
     "myregistry.local"; "registry.internal"; "localhost"; "localhost:5000";
     "mycompany.azurecr.io"; "ecr.aws"; "custom-registry.com"] =
  ["RedHat"; "RedHat"; "RedHat"; "RedHat"; "Partner"; "Partner";
   "Community"; "Community"; "Community"; "Community"; "Community";
   "Private"; "Private"; "Private"; "Private";
   "Unknown"; "Unknown"; "Unknown"].
Proof. reflexivity. Qed.

(** [TestPodReconciler_Reconcile]: a Running pod with one container of
    the UBI image, no record in the store. *)
Example TestPodReconciler_Reconcile :
  (fun cr => (ImageDigest (Spec cr), Registry (Spec cr), Repository (Spec cr),
              RegistryType_ (Status cr), PodReferences (Status cr)))
    <$> infos afterFirstPass !! "registry.redhat.io.ubi8.ubi.abc123de" =
  Some (sourceDigest, "registry.redhat.io", "ubi8/ubi", RegistryTypeRedHat,
        [reference "test-pod" "test-container"]).
Proof. vm_compute. reflexivity. Qed.

(** [TestPodReconciler_Reconcile_ExistingCR]: a second pod with the same
    image adds a second reference. *)
Example TestPodReconciler_Reconcile_ExistingCR :
  let c :=
    {| pods := {[ ("default", "new-pod") := ubiPod "new-pod" "new-container" ]};
       podFailures := ∅; infos := infos afterFirstPass; listFailure := None;
       statusWrites := []; events := [] |} in
  (fun cr => length (PodReferences (Status cr)))
    <$> infos (Reconcile lower noClient (fun _ => 200) c
                 ("default", "new-pod")).1.1
        !! "registry.redhat.io.ubi8.ubi.abc123de" = Some 2%nat.
Proof. vm_compute. reflexivity. Qed.

(** [TestPodReconciler_Reconcile_PodNotRunning] *)
Example TestPodReconciler_Reconcile_PodNotRunning :
  let pod :=
    {| corev1.Namespace := "default"; corev1.Name := "completed-pod";
       corev1.Phase := corev1.PodSucceeded;
       corev1.ContainerStatuses :=
         corev1.ContainerStatuses (ubiPod "completed-pod" "c");
       corev1.InitContainerStatuses := [] |} in
  let c :=
    {| pods := {[ ("default", "completed-pod") := pod ]};
       podFailures := ∅; infos := ∅; listFailure := None;
       statusWrites := []; events := [] |} in
  map_to_list
    (infos (Reconcile lower noClient (fun _ => 100) c
              ("default", "completed-pod")).1.1) = [].
Proof. vm_compute. reflexivity. Qed.

(** [TestPodReconciler_CleanupStaleReferences]: of the references to an
    existing and to a deleted pod, the first remains. *)
Example TestPodReconciler_CleanupStaleReferences :
  (fun cr => PodReferences (Status cr))
    <$> infos (CleanupStaleReferences exampleCluster).1
        !! "registry.example.ns.app.abc123de" =
  Some [reference "test-pod" "test-container";
        reference "unreadable-pod" "container3"].
Proof. vm_compute. reflexivity. Qed.

End SourceTests.

(** ** The reference parser *)

Section ParserFacts.
Import gostrings image parser_spec.

Lemma Split_length (s : string) (c : ascii) :
  length (Split s c) = S (countByte s c).
Proof.
  induction s as [|a t IH]; simpl; [reflexivity|].
  destruct (Ascii.eqb a c); simpl.
  - now rewrite IH.
  - destruct (Split t c) as [|h r] eqn:E; simpl in *; lia.
Qed.

Lemma Split_no_sep (s : string) (c : ascii) :
  countByte s c = O -> Split s c = [s].
Proof.
  induction s as [|a t IH]; simpl; [reflexivity|].
  destruct (Ascii.eqb a c); [discriminate|].
  intros H. now rewrite IH.
Qed.

Lemma Split_app_sep (pre post : string) (c : ascii) :
  countByte pre c = O ->
  Split (pre ++ String c post) c = pre :: Split post c.
Proof.
  induction pre as [|a t IH]; simpl.
  - now rewrite Ascii.eqb_refl.
  - destruct (Ascii.eqb a c); [discriminate|].
    intros H. now rewrite IH.
Qed.

(** What [strings.Split] returns is the text between the separators. *)
Lemma Split_two (s p0 p1 : string) (c : ascii) :
  Split s c = [p0; p1] -> s = p0 ++ String c p1.
Proof.
  revert p0. induction s as [|a t IH]; intros p0; simpl; [discriminate|].
  destruct (Ascii.eqb a c) eqn:E.
  - apply Ascii.eqb_eq in E. subst a. intros H.
    injection H as <- H.
    assert (L := Split_length t c). rewrite H in L. simpl in L.
    assert (Split t c = [t]) as H' by (apply Split_no_sep; lia).
    rewrite H in H'. now injection H' as ->.
  - destruct (Split t c) as [|h r] eqn:E'; [discriminate|].
    intros H. injection H as <- ->. simpl. f_equal. now apply IH.
Qed.

Lemma countByte_app (a b : string) (c : ascii) :
  countByte (a ++ b) c = (countByte a c + countByte b c)%nat.
Proof. induction a as [|x t IH]; simpl; [reflexivity|]. rewrite IH. lia. Qed.

Lemma Contains_countByte (s : string) (c : ascii) :
  Contains s c = false <-> countByte s c = O.
Proof.
  induction s as [|a t IH]; simpl; [easy|].
  destruct (Ascii.eqb a c); simpl; [easy|exact IH].
Qed.

(** Once the identifier has two parts, [ParseImageID] returns a
    reference whose digest is the second part. *)
Lemma ParseImageID_parts (imageID p0 p1 : string) :
  imageID <> "" ->
  Split (stripScheme imageID) "@" = [p0; p1] ->
  exists ref, ParseImageID imageID = Ok ref /\ Digest ref = p1 /\
              FullReference ref = stripScheme imageID.
Proof.
  intros Hne Hs. unfold ParseImageID.
  destruct (String.eqb imageID "") eqn:E.
  - apply String.eqb_eq in E. contradiction.
  - unfold stripScheme in Hs. rewrite Hs.
    match goal with
    | |- context [let '(_, _) := ?p in _] => destruct p as [rg rp]
    end.
    eexists. split; [reflexivity|]. split; reflexivity.
Qed.

Lemma ParseImageID_not_two (imageID : string) :
  length (Split (stripScheme imageID) "@") <> 2%nat ->
  exists e, ParseImageID imageID = Err e.
Proof.
  intros Hl. unfold ParseImageID.
  destruct (String.eqb imageID ""); [eauto|].
  fold (stripScheme imageID).
  destruct (Split (stripScheme imageID) "@") as [|a [|b [|c l]]]; simpl in Hl;
    try (eexists; reflexivity).
  lia.
Qed.

Lemma stripScheme_empty : stripScheme "" = "".
Proof. reflexivity. Qed.

End ParserFacts.

Section ParseImageID.
Import gostrings image parser_spec.

(** C6, as the code has it.  [ParseImageID] splits the stripped
    identifier on every ['@'] and demands exactly two parts: it succeeds
    exactly when the stripped identifier has one ['@'], the digest is the
    text after that ['@'] and the whole stripped identifier is kept as
    the full reference; it fails on every other identifier, the empty
    one, one without ['@'] and one with several ['@'] alike. *)
Theorem ParseImageID_one_at (imageID : string) :
  match ParseImageID imageID with
  | Ok ref =>
      countByte (stripScheme imageID) "@" = 1%nat /\
      (exists repo, stripScheme imageID = repo ++ String "@" (Digest ref) /\
                    Contains repo "@" = false /\
                    Contains (Digest ref) "@" = false) /\
      FullReference ref = stripScheme imageID
  | Err _ => countByte (stripScheme imageID) "@" <> 1%nat
  end.
Proof.
  destruct (Nat.eq_dec (countByte (stripScheme imageID) "@") 1%nat) as [H1|H1].
  - assert (Hl := Split_length (stripScheme imageID) "@"). rewrite H1 in Hl.
    destruct (Split (stripScheme imageID) "@") as [|p0 [|p1 [|x l]]] eqn:Hs;
      try discriminate.
    assert (imageID <> "") as Hne.
    { intros ->. rewrite stripScheme_empty in H1. discriminate. }
    destruct (ParseImageID_parts _ _ _ Hne Hs) as (ref & -> & Hd & Hf).
    split; [assumption|]. split; [|assumption].
    exists p0. rewrite Hd.
    assert (Heq := Split_two _ _ _ _ Hs).
    split; [assumption|].
    rewrite Heq, countByte_app in H1. simpl in H1.
    rewrite !Contains_countByte. lia.
  - destruct (ParseImageID_not_two imageID) as [e ->]; [|assumption].
    rewrite Split_length. lia.
Qed.

(** C6, as the specification words it, fails: an identifier with two
    ['@'] is not empty and has a ['@'], and is rejected all the same. *)
Lemma ParseImageID_rejects_two_digests : ~ fails_only_without_digest.
Proof.
  intros H. destruct (H twoDigests) as [H1 _].
  destruct H1 as [H1|H1]; [reflexivity|discriminate H1|discriminate H1].
Qed.

End ParseImageID.

Section KeyFacts.
Import gostrings image parser_spec.

Lemma allBytes_app (p : ascii -> bool) (a b : string) :
  allBytes p (a ++ b) = allBytes p a && allBytes p b.
Proof.
  induction a as [|c t IH]; simpl; [reflexivity|].
  now rewrite IH, andb_assoc.
Qed.

Lemma byte_range (c : ascii) : 0 <= byte c < 256.
Proof.
  unfold byte. pose proof (N_ascii_bounded c). lia.
Qed.

Lemma byte_ascii_of (r : Z) :
  0 <= r < 256 -> byte (ascii_of_N (Z.to_N r)) = r.
Proof.
  intros H. unfold byte. rewrite N_ascii_embedding; lia.
Qed.

Lemma byte_inj (a b : ascii) : byte a = byte b -> a = b.
Proof.
  unfold byte. intros H. apply N2Z.inj in H.
  rewrite <- (ascii_N_embedding a), <- (ascii_N_embedding b). now rewrite H.
Qed.

Lemma eqb_byte (a b : ascii) : Ascii.eqb a b = (byte a =? byte b).
Proof.
  destruct (Ascii.eqb a b) eqn:E.
  - apply Ascii.eqb_eq in E. subst. symmetry. apply Z.eqb_refl.
  - symmetry. apply Z.eqb_neq. intros H. apply byte_inj in H. subst.
    rewrite Ascii.eqb_refl in E. discriminate.
Qed.

Lemma isNameRune_isKeyChar (r : Z) :
  isNameRune r = true -> isKeyChar (ascii_of_N (Z.to_N r)) = true.
Proof.
  intros H. unfold isKeyChar.
  assert (0 <= r < 256) as Hr.
  { unfold isNameRune, rune in H. vm_compute byte in H. lia. }
  rewrite !eqb_byte, byte_ascii_of by assumption. exact H.
Qed.

Lemma sanitizeStep_key (n : Z) (ir : Z * Z) :
  allBytes isKeyChar (sanitizeStep n ir) = true.
Proof.
  destruct ir as [i r]. unfold sanitizeStep.
  destruct (isNameRune r) eqn:E.
  - simpl. now rewrite isNameRune_isKeyChar.
  - destruct ((r =? rune "_") || (r =? rune "/")); [reflexivity|].
    destruct ((0 <? i) && (i <? n - 1)); reflexivity.
Qed.

Lemma sanitizeLoop_key (n : Z) (l : list (Z * Z)) :
  allBytes isKeyChar (sanitizeLoop n l) = true.
Proof.
  induction l as [|ir l IH]; simpl; [reflexivity|].
  now rewrite allBytes_app, sanitizeStep_key, IH.
Qed.

Lemma TrimLeft_all (p q : ascii -> bool) (s : string) :
  allBytes p s = true -> allBytes p (TrimLeft q s) = true.
Proof.
  induction s as [|c t IH]; simpl; [easy|].
  intros H. apply andb_prop in H as [Hc Ht].
  destruct (q c); [auto|]. simpl. now rewrite Hc, Ht.
Qed.

Lemma TrimRight_all (p q : ascii -> bool) (s : string) :
  allBytes p s = true -> allBytes p (TrimRight q s) = true.
Proof.
  induction s as [|c t IH]; simpl; [easy|].
  intros H. apply andb_prop in H as [Hc Ht]. specialize (IH Ht).
  destruct (TrimRight q t) as [|d r].
  - destruct (q c); simpl; [reflexivity|]. now rewrite Hc.
  - simpl in *. now rewrite Hc, IH.
Qed.

Lemma TrimLeft_start (q : ascii -> bool) (s : string) :
  startsWith q (TrimLeft q s) = false.
Proof.
  induction s as [|c t IH]; simpl; [reflexivity|].
  destruct (q c) eqn:E; [assumption|]. simpl. assumption.
Qed.

Lemma TrimRight_start (p q : ascii -> bool) (s : string) :
  startsWith p s = false -> startsWith p (TrimRight q s) = false.
Proof.
  destruct s as [|c t]; simpl; [easy|].
  intros H. destruct (TrimRight q t); [|exact H].
  destruct (q c); [reflexivity|exact H].
Qed.

Lemma takeN_all (p : ascii -> bool) (n : nat) (s : string) :
  allBytes p s = true -> allBytes p (takeN n s) = true.
Proof.
  revert s. induction n as [|n IH]; intros [|c t]; simpl; try easy.
  intros H. apply andb_prop in H as [Hc Ht]. now rewrite Hc, IH.
Qed.

Lemma takeN_start (p : ascii -> bool) (n : nat) (s : string) :
  startsWith p s = false -> startsWith p (takeN n s) = false.
Proof. destruct n, s; simpl; easy. Qed.

Lemma takeN_length (n : nat) (s : string) :
  (String.length (takeN n s) <= n)%nat.
Proof.
  revert s. induction n as [|n IH]; intros [|c t]; simpl; try lia.
  specialize (IH t). lia.
Qed.

Lemma sanitizeK8sName_key (name : string) :
  allBytes isKeyChar (sanitizeK8sName name) = true /\
  startsWith inDotDash (sanitizeK8sName name) = false.
Proof.
  unfold sanitizeK8sName, Trim. split.
  - apply TrimRight_all, TrimLeft_all, sanitizeLoop_key.
  - apply TrimRight_start, TrimLeft_start.
Qed.

(** The key of any reference whatever is a valid record name. *)
Lemma ReferenceToCRName_key (lower : string -> string) (ref : Reference) :
  let key := ReferenceToCRName lower ref in
  len key <= 253 /\ allBytes isKeyChar key = true /\
  startsWith inDotDash key = false.
Proof.
  unfold ReferenceToCRName.
  match goal with
  | |- context [sanitizeK8sName ?n] => generalize n
  end.
  intros name. destruct (sanitizeK8sName_key name) as [Ha Hs].
  cbv zeta. destruct (253 <? len (sanitizeK8sName name)) eqn:E.
  - unfold sliceTo. split; [|split].
    + unfold len. pose proof (takeN_length (Z.to_nat 253) (sanitizeK8sName name)).
      lia.
    + now apply takeN_all.
    + now apply takeN_start.
  - apply Z.ltb_ge in E. auto.
Qed.

Lemma startsWith_HasPrefix (s : string) :
  startsWith inDotDash s = false ->
  HasPrefix s "." = false /\ HasPrefix s "-" = false.
Proof.
  destruct s as [|c t]; simpl; [easy|].
  unfold inDotDash, HasPrefix. simpl. intros H.
  apply orb_false_elim in H as [-> ->]. easy.
Qed.

End KeyFacts.

Section ReferenceToCRName.
Import gostrings image parser_spec.

(** C9.  The record key of every parsed reference has at most 253
    bytes, all of them lowercase letters, digits, ['.'] or ['-'], and
    does not begin with ['.'] or ['-']. *)
Theorem ReferenceToCRName_valid
    (lower : string -> string) (imageID : string) (ref : Reference) :
  ParseImageID imageID = Ok ref ->
  len (ReferenceToCRName lower ref) <= 253 /\
  allBytes isKeyChar (ReferenceToCRName lower ref) = true /\
  HasPrefix (ReferenceToCRName lower ref) "." = false /\
  HasPrefix (ReferenceToCRName lower ref) "-" = false.
Proof.
  intros _. destruct (ReferenceToCRName_key lower ref) as (Hl & Ha & Hs).
  split; [assumption|]. split; [assumption|].
  now apply startsWith_HasPrefix.
Qed.

End ReferenceToCRName.

(** ** The caching decorator *)

Section CacheFacts.
Import dockerhub.
Context {C : Type}.
Variable clientGet :
  C -> string -> string -> C * result error (option RepositoryInfo).

Implicit Types (c : CachedClient C) (now stored : Z) (ns repo : string).

Lemma liveEntry_Some c now key entry :
  liveEntry c now key = Some entry <->
  cache c !! key = Some entry /\ now < expiresAt entry.
Proof.
  unfold liveEntry. destruct (cache c !! key) as [e|];
    [|split; [discriminate|intros [? _]; discriminate]].
  destruct (Z.ltb_spec now (expiresAt e)); split.
  - intros [= ->]. auto.
  - intros [[= ->] _]. reflexivity.
  - discriminate.
  - intros [[= ->] ?]. lia.
Qed.

Lemma liveEntry_None_later c now later key :
  liveEntry c now key = None -> now <= later -> liveEntry c later key = None.
Proof.
  unfold liveEntry. destruct (cache c !! key) as [e|]; [|reflexivity].
  destruct (Z.ltb_spec now (expiresAt e)); [discriminate|].
  intros _ Hle. destruct (Z.ltb_spec later (expiresAt e)); [lia|reflexivity].
Qed.

(** A hit returns the entry and leaves the decorator as it is. *)
Lemma GetRepositoryInfo_hit c now stored ns repo entry :
  liveEntry c now (cacheKey ns repo) = Some entry ->
  GetRepositoryInfo clientGet c now stored ns repo = (c, Ok (data entry)).
Proof. unfold GetRepositoryInfo. now intros ->. Qed.

(** A miss calls the wrapped client once. *)
Lemma GetRepositoryInfo_miss_calls c now stored ns repo :
  liveEntry c now (cacheKey ns repo) = None ->
  calls (client (GetRepositoryInfo clientGet c now stored ns repo).1) =
  (calls (client c) ++ [(ns, repo)])%list.
Proof.
  unfold GetRepositoryInfo, invoke. intros ->.
  destruct (clientGet (inner (client c)) ns repo) as [c' [d|e]]; reflexivity.
Qed.

(** What a miss stores when the wrapped client answers. *)
Lemma GetRepositoryInfo_miss_store c now stored ns repo :
  liveEntry c now (cacheKey ns repo) = None ->
  let c1 := (GetRepositoryInfo clientGet c now stored ns repo).1 in
  ttl c1 = ttl c /\
  match (clientGet (inner (client c)) ns repo).2 with
  | Ok d =>
      cache c1 =
      <[cacheKey ns repo := {| data := d; expiresAt := stored + ttl c |}]> (cache c)
  | Err _ => cache c1 = cache c
  end.
Proof.
  unfold GetRepositoryInfo, invoke. intros ->.
  destruct (clientGet (inner (client c)) ns repo) as [c' [d|e]]; simpl; auto.
Qed.

(** Requests made while the entry is live are all answered from it, and
    the decorator, its entry and the wrapped client stay as they were. *)
Lemma requests_live c ns repo entry (times : list (Z * Z)) :
  cache c !! cacheKey ns repo = Some entry ->
  Forall (fun t => t.1 < expiresAt entry) times ->
  requests clientGet c times ns repo =
  (c, repeat (Ok (data entry)) (length times)).
Proof.
  intros Hc. induction 1 as [|[now stored] times Ht _ IH]; simpl; [reflexivity|].
  rewrite (GetRepositoryInfo_hit c now stored ns repo entry).
  - now rewrite IH.
  - apply liveEntry_Some. auto.
Qed.

End CacheFacts.

Section CachedClient.
Import dockerhub.
Context {C : Type}.
Variable clientGet :
  C -> string -> string -> C * result error (option RepositoryInfo).

(** C7.  Take a request that finds no live entry, so that the wrapped
    client is called.  If the wrapped client answers (with a repository
    or with its absence), the answer is stored with expiry [stored + ttl];
    every later request read before that instant is answered with the
    stored value, and the decorator and the list of calls received by the
    wrapped client stay unchanged; a request read at or after that instant
    calls the wrapped client once more.  If the wrapped client fails,
    the cache is left as it was and the next request calls the wrapped
    client once more. *)
Theorem GetRepositoryInfo_caches_success_only
    (c : CachedClient C) (now stored : Z) (ns repo : string) :
  liveEntry c now (cacheKey ns repo) = None ->
  let c1 := (GetRepositoryInfo clientGet c now stored ns repo).1 in
  calls (client c1) = (calls (client c) ++ [(ns, repo)])%list /\
  match (clientGet (inner (client c)) ns repo).2 with
  | Ok d =>
      (GetRepositoryInfo clientGet c now stored ns repo).2 = Ok d /\
      cache c1 !! cacheKey ns repo =
        Some {| data := d; expiresAt := stored + ttl c |} /\
      (forall times : list (Z * Z),
         Forall (fun t => t.1 < stored + ttl c) times ->
         requests clientGet c1 times ns repo =
         (c1, repeat (Ok d) (length times))) /\
      (forall later stored', stored + ttl c <= later ->
         calls (client (GetRepositoryInfo clientGet c1 later stored' ns repo).1)
         = (calls (client c1) ++ [(ns, repo)])%list)
  | Err e =>
      (GetRepositoryInfo clientGet c now stored ns repo).2 = Err e /\
      cache c1 = cache c /\
      (forall later stored', now <= later ->
         calls (client (GetRepositoryInfo clientGet c1 later stored' ns repo).1)
         = (calls (client c1) ++ [(ns, repo)])%list)
  end.
Proof.
  intros Hmiss c1.
  split; [now apply GetRepositoryInfo_miss_calls|].
  destruct (GetRepositoryInfo_miss_store clientGet c now stored ns repo Hmiss)
    as [Httl Hcache].
  fold c1 in Httl, Hcache.
  assert ((GetRepositoryInfo clientGet c now stored ns repo).2 =
          (clientGet (inner (client c)) ns repo).2) as Hres.
  { unfold GetRepositoryInfo, invoke. rewrite Hmiss.
    destruct (clientGet (inner (client c)) ns repo) as [c' [d|e]]; reflexivity. }
  destruct ((clientGet (inner (client c)) ns repo).2) as [d|e].
  - split; [assumption|].
    assert (cache c1 !! cacheKey ns repo =
            Some {| data := d; expiresAt := stored + ttl c |}) as Hent.
    { rewrite Hcache. apply lookup_insert_eq. }
    split; [assumption|]. split.
    + intros times Ht.
      apply (requests_live clientGet c1 ns repo _ times Hent Ht).
    + intros later stored' Hle. apply GetRepositoryInfo_miss_calls.
      unfold liveEntry. rewrite Hent. simpl.
      destruct (Z.ltb_spec later (stored + ttl c)); [lia|reflexivity].
  - split; [assumption|]. split; [assumption|].
    intros later stored' Hle. apply GetRepositoryInfo_miss_calls.
    apply (liveEntry_None_later c1 now later); [|assumption].
    unfold liveEntry in *. now rewrite Hcache.
Qed.

(** C10.  Requests made while an entry is live leave the decorator
    exactly as it was: the entry, its expiry, every other entry, the
    time-to-live and the wrapped client with the list of its calls.  The
    expiry of an entry is therefore the one set when the answer of the
    wrapped client was stored, and no number of reads moves it. *)
Theorem GetRepositoryInfo_hit_frame
    (c : CachedClient C) (ns repo : string) (entry : cacheEntry)
    (times : list (Z * Z)) :
  cache c !! cacheKey ns repo = Some entry ->
  Forall (fun t => t.1 < expiresAt entry) times ->
  (requests clientGet c times ns repo).1 = c /\
  (requests clientGet c times ns repo).2 =
    repeat (Ok (data entry)) (length times) /\
  cache (requests clientGet c times ns repo).1 !! cacheKey ns repo = Some entry.
Proof.
  intros Hc Ht. rewrite (requests_live clientGet c ns repo entry times Hc Ht).
  simpl. auto.
Qed.

End CachedClient.

(** ** The reconciler: workload references *)

Section PodReferences.
Import v1alpha1 controller reconciler_spec.

Lemma samePodReference_eq (a b : PodReference) :
  samePodReference a b = true <-> a = b.
Proof.
  unfold samePodReference. destruct a as [n1 p1 k1], b as [n2 p2 k2]; simpl.
  rewrite !andb_true_iff, !String.eqb_eq. split.
  - intros [[-> ->] ->]. reflexivity.
  - intros [= -> -> ->]. auto.
Qed.

Lemma existsb_samePodReference (refs : list PodReference) (podRef : PodReference) :
  existsb (fun existing => samePodReference existing podRef) refs = true <->
  podRef ∈ refs.
Proof.
  rewrite existsb_exists, list_elem_of_In. split.
  - intros (x & Hin & Hx). apply samePodReference_eq in Hx. now subst.
  - intros Hin. exists podRef. split; [assumption|]. now apply samePodReference_eq.
Qed.

(** The references of the record after [updatePodReferences]. *)
Lemma updatePodReferences_refs now c cr podRef :
  PodReferences (Status (updatePodReferences now c cr podRef).1.2) =
  if decide (podRef ∈ PodReferences (Status cr))
  then PodReferences (Status cr)
  else (PodReferences (Status cr) ++ [podRef])%list.
Proof.
  unfold updatePodReferences.
  destruct (existsb _ _) eqn:E.
  - apply existsb_samePodReference in E. rewrite decide_True by assumption.
    destruct (StatusUpdate _ _). reflexivity.
  - rewrite decide_False.
    + destruct (StatusUpdate _ _). reflexivity.
    + intros Hin. apply existsb_samePodReference in Hin. congruence.
Qed.

(** The status written to the store is the one of the changed record. *)
Lemma updatePodReferences_store now c cr podRef :
  let '(c1, cr1, err) := updatePodReferences now c cr podRef in
  match infos c !! ObjectName cr with
  | Some stored =>
      err = None /\
      infos c1 = <[ObjectName cr := setStatus stored (Status cr1)]> (infos c)
  | None => err = Some NotFound /\ infos c1 = infos c
  end.
Proof.
  unfold updatePodReferences, StatusUpdate.
  destruct (existsb _ _); simpl;
    destruct (infos c !! ObjectName cr); simpl; auto.
Qed.

(** C2.  [updatePodReferences] leaves the references of the record as
    they are when the observed (namespace, pod, container) triple is
    among them, so their number does not change, and appends the triple,
    once, when it is not; the store receives that list.  Observing the
    triple a second time therefore changes nothing. *)
Theorem updatePodReferences_idempotent
    (now again : Z) (c : Cluster) (cr : ImageCertificationInfo)
    (podRef : PodReference) :
  let refs := PodReferences (Status cr) in
  let c1 := (updatePodReferences now c cr podRef).1.1 in
  let cr1 := (updatePodReferences now c cr podRef).1.2 in
  let cr2 := (updatePodReferences again c1 cr1 podRef).1.2 in
  PodReferences (Status cr1) =
    (if decide (podRef ∈ refs) then refs else (refs ++ [podRef])%list) /\
  length (PodReferences (Status cr1)) =
    (if decide (podRef ∈ refs) then length refs else S (length refs)) /\
  PodReferences (Status cr2) = PodReferences (Status cr1) /\
  match infos c !! ObjectName cr with
  | Some stored => infos c1 !! ObjectName cr = Some (setStatus stored (Status cr1))
  | None => infos c1 = infos c
  end.
Proof.
  intros refs c1 cr1 cr2.
  assert (H1 := updatePodReferences_refs now c cr podRef).
  fold cr1 refs in H1.
  split; [exact H1|]. split; [|split].
  - rewrite H1. destruct (decide (podRef ∈ refs)); [reflexivity|].
    rewrite length_app. simpl. lia.
  - unfold cr2. rewrite updatePodReferences_refs.
    rewrite decide_True; [reflexivity|].
    rewrite H1. destruct (decide (podRef ∈ refs)); [assumption|].
    apply elem_of_app. right. apply list_elem_of_singleton. reflexivity.
  - assert (H2 := updatePodReferences_store now c cr podRef).
    unfold c1, cr1.
    destruct (updatePodReferences now c cr podRef) as [[x y] z]. simpl.
    destruct (infos c !! ObjectName cr).
    + destruct H2 as [_ ->]. apply lookup_insert_eq.
    + tauto.
Qed.

End PodReferences.

(** ** The reconciler: enrichment *)

Section Enrichment.
Import v1alpha1 controller reconciler_spec.
Variable timeParse : string -> string -> option Z.
Variable durationDays : Z -> Z.

Lemma StatusUpdate_stored (c : Cluster) (cr : ImageCertificationInfo)
    (st : ImageCertificationInfoStatus) :
  infos c !! ObjectName cr = Some cr ->
  infos (StatusUpdate c (setStatus cr st)).1 =
    <[ObjectName cr := setStatus cr st]> (infos c).
Proof. unfold StatusUpdate. simpl. now intros ->. Qed.

Lemma fold_recordEvent_infos (es : list Event) (c : Cluster) :
  infos (fold_left recordEvent es c) = infos c.
Proof. revert c. induction es as [|e es IH]; intros c; simpl; [reflexivity|]. now rewrite IH. Qed.

Lemma Update_lookup (c : Cluster) (cr : ImageCertificationInfo) :
  match infos c !! ObjectName cr with
  | Some stored =>
      infos (Update c cr).1 !! ObjectName cr = Some (setStatus cr (Status stored))
  | None => infos (Update c cr).1 = infos c
  end.
Proof.
  unfold Update. destruct (infos c !! ObjectName cr); simpl; [|reflexivity].
  apply lookup_insert_eq.
Qed.

(** C3.  When the certification client answers without error, the
    record read back from the store is written with the time of the
    check and, whatever its status and its payload were, with status
    [Certified] and a new payload when the answer carries data, with
    status [NotCertified] when the answer is absent.  Every field of
    the new payload is given by the answer: the texts, numbers and lists
    are copied, the vulnerability counts are copied when the answer
    has them, the publication date is the date of the answer read as
    RFC 3339, and the end-of-life date is the date of the answer read as
    RFC 3339 or else as a plain day; a date that is empty or cannot be
    read leaves the field empty.  Nothing of the payload stored before
    is kept. *)
Theorem checkPyxisCertification_answer
    (r : PodReconciler) (get : pyxis.Client) (now tSince tUntil : Z)
    (c : Cluster) (crName : string) (ref : image.Reference)
    (cr : ImageCertificationInfo) (answer : option pyxis.CertificationData) :
  PyxisClient r = Some get ->
  get (image.Registry ref) (image.Repository ref) (image.Digest ref) = Ok answer ->
  infos c !! crName = Some cr ->
  ObjectName cr = crName ->
  exists cr',
    infos (checkPyxisCertification timeParse durationDays r now tSince tUntil
             c crName ref) !! crName = Some cr' /\
    LastPyxisCheckAt (Status cr') = Some now /\
    match answer with
    | Some certData =>
        CertificationStatus_ (Status cr') = CertificationStatusCertified /\
        exists data,
          PyxisData_ (Status cr') = Some data /\
          ProjectID data = pyxis.ProjectID certData /\
          Publisher data = pyxis.Publisher certData /\
          HealthIndex data = pyxis.HealthIndex certData /\
          CatalogURL data = pyxis.CatalogURL certData /\
          PublishedAt data =
            (if String.eqb (pyxis.PublishedAt certData) "" then None
             else timeParse "2006-01-02T15:04:05Z07:00"
                    (pyxis.PublishedAt certData)) /\
          Vulnerabilities data =
            match pyxis.Vulnerabilities certData with
            | Some found =>
                Some {| Critical := pyxis.Critical found;
                        Important := pyxis.Important found;
                        Moderate := pyxis.Moderate found;
                        Low := pyxis.Low found |}
            | None => None
            end /\
          EOLDate data =
            (if String.eqb (pyxis.EOLDate certData) "" then None
             else
               match timeParse "2006-01-02T15:04:05Z07:00"
                       (pyxis.EOLDate certData) with
               | Some eolTime => Some eolTime
               | None => timeParse "2006-01-02" (pyxis.EOLDate certData)
               end) /\
          ReleaseCategory data = pyxis.ReleaseCategory certData /\
          ReplacedBy data = pyxis.ReplacedBy certData /\
          Architectures data = pyxis.Architectures certData /\
          CompressedSizeBytes data = pyxis.CompressedSizeBytes certData /\
          AutoRebuildEnabled data = pyxis.AutoRebuildEnabled certData /\
          ArchitectureHealth data = pyxis.ArchitectureHealth certData /\
          UncompressedSizeBytes data = pyxis.UncompressedSizeBytes certData /\
          LayerCount data = pyxis.LayerCount certData /\
          BuildDate data = pyxis.BuildDate certData /\
          AdvisoryIDs data = pyxis.AdvisoryIDs certData
    | None =>
        CertificationStatus_ (Status cr') = CertificationStatusNotCertified
    end.
Proof.
  intros Hr Hget Hcr Hname. unfold checkPyxisCertification.
  rewrite Hr, Hget. unfold GetInfo at 1. rewrite Hcr.
  destruct answer as [certData|].
  - set (st := certifiedStatus _ _ _ _ _ _).
    set (c0 := fold_left recordEvent _ c).
    assert (infos c0 !! ObjectName cr = Some cr) as H0.
    { unfold c0. rewrite fold_recordEvent_infos. now rewrite Hname. }
    assert (infos (StatusUpdate c0 (setStatus cr st)).1 !! crName
            = Some (setStatus cr st)) as H1.
    { rewrite StatusUpdate_stored by assumption.
      rewrite <- Hname. apply lookup_insert_eq. }
    destruct (0 <? length (pyxis.CVEs certData))%nat.
    + unfold GetInfo. rewrite H1.
      cbn [setStatus ObjectName Annotations Spec Status]. rewrite Hname.
      match goal with
      | |- context [Update ?k ?a] =>
          assert (Hu := Update_lookup k a); cbn [ObjectName] in Hu
      end.
      rewrite H1 in Hu.
      eexists. split; [exact Hu|].
      cbn [setStatus Status]. unfold st, certifiedStatus.
      cbn [LastPyxisCheckAt CertificationStatus_ PyxisData_ setLastPyxisCheckAt].
      split; [reflexivity|]. split; [reflexivity|].
      eexists. split; [reflexivity|]. unfold newPyxisData.
      cbn. repeat split.
    + eexists. split; [exact H1|].
      cbn [setStatus Status]. unfold st, certifiedStatus.
      cbn [LastPyxisCheckAt CertificationStatus_ PyxisData_ setLastPyxisCheckAt].
      split; [reflexivity|]. split; [reflexivity|].
      eexists. split; [reflexivity|]. unfold newPyxisData.
      cbn. repeat split.
  - eexists. split.
    + rewrite StatusUpdate_stored by now rewrite Hname.
      rewrite <- Hname. apply lookup_insert_eq.
    + simpl. auto.
Qed.

(** C4.  When the certification client fails, the record read back
    from the store is written with status [Error] and the time of the
    check; its payload, and every other field, is as it was. *)
Theorem checkPyxisCertification_failure
    (r : PodReconciler) (get : pyxis.Client) (now tSince tUntil : Z)
    (c : Cluster) (crName : string) (ref : image.Reference)
    (cr : ImageCertificationInfo) (err : string) :
  PyxisClient r = Some get ->
  get (image.Registry ref) (image.Repository ref) (image.Digest ref) = Err err ->
  infos c !! crName = Some cr ->
  ObjectName cr = crName ->
  exists cr',
    infos (checkPyxisCertification timeParse durationDays r now tSince tUntil
             c crName ref) = <[crName := cr']> (infos c) /\
    CertificationStatus_ (Status cr') = CertificationStatusError /\
    LastPyxisCheckAt (Status cr') = Some now /\
    PyxisData_ (Status cr') = PyxisData_ (Status cr) /\
    cr' = setStatus cr
            (setCertificationStatus (setLastPyxisCheckAt (Status cr) now)
               CertificationStatusError).
Proof.
  intros Hr Hget Hcr Hname. unfold checkPyxisCertification.
  rewrite Hr, Hget. unfold GetInfo. rewrite Hcr.
  eexists. split.
  - rewrite StatusUpdate_stored by now rewrite Hname.
    rewrite Hname. reflexivity.
  - simpl. auto.
Qed.

End Enrichment.

(** ** The reconciler: health grades *)

Section HealthGrades.
Import controller.

(** C8.  A transition is flagged exactly when both grades have a rank
    and the rank of the new grade is strictly greater (worse); the table
    of the controller's test is reproduced. *)
Theorem isHealthDegraded_strictly_worse (oldGrade newGrade : string) :
  (isHealthDegraded oldGrade newGrade = true <->
   exists oldRank newRank,
     gradeRank oldGrade = Some oldRank /\ gradeRank newGrade = Some newRank /\
     oldRank < newRank) /\
  (gradeRank oldGrade = None \/ gradeRank newGrade = None \/
   gradeRank newGrade = gradeRank oldGrade \/
   isHealthDegraded newGrade oldGrade = true \/
   isHealthDegraded oldGrade newGrade = true) /\
  isHealthDegraded oldGrade oldGrade = false /\
  Forall (fun '(o, n, want) => isHealthDegraded o n = want) TestIsHealthDegraded.
Proof.
  split; [|split; [|split]].
  - unfold isHealthDegraded.
    destruct (gradeRank oldGrade) as [o|], (gradeRank newGrade) as [n|].
    + rewrite Z.ltb_lt. split.
      * intros H. exists o, n. auto.
      * intros (o' & n' & [= <-] & [= <-] & H). exact H.
    + split; [discriminate|]. intros (o' & n' & _ & [=] & _).
    + split; [discriminate|]. intros (o' & n' & [=] & _).
    + split; [discriminate|]. intros (o' & n' & [=] & _).
  - unfold isHealthDegraded.
    destruct (gradeRank oldGrade) as [o|], (gradeRank newGrade) as [n|]; auto.
    destruct (Z.lt_trichotomy o n) as [H|[H|H]].
    + right; right; right; right. now apply Z.ltb_lt.
    + subst. auto.
    + right; right; right; left. now apply Z.ltb_lt.
  - unfold isHealthDegraded. destruct (gradeRank oldGrade); [|reflexivity].
    apply Z.ltb_irrefl.
  - repeat constructor.
Qed.

End HealthGrades.

(** ** The reconciler: cleanup of stale references *)

Section CleanupFacts.
Import v1alpha1 controller reconciler_spec.

Lemma keepReference_confirmedAbsent (c : Cluster) (podRef : PodReference) :
  keepReference c podRef = negb (confirmedAbsent c podRef).
Proof.
  unfold keepReference, confirmedAbsent.
  destruct (GetPod c _) as [pod|[| |msg]]; reflexivity.
Qed.

Lemma keepReference_same (c c' : Cluster) (podRef : PodReference) :
  pods c' = pods c -> podFailures c' = podFailures c ->
  keepReference c' podRef = keepReference c podRef.
Proof. unfold keepReference, GetPod. now intros -> ->. Qed.

Lemma filter_all {A} (f : A -> bool) (l : list A) :
  length (List.filter f l) = length l -> List.filter f l = l.
Proof.
  induction l as [|x l IH]; simpl; [reflexivity|].
  destruct (f x); simpl; intros H.
  - f_equal. apply IH. lia.
  - pose proof (List.filter_length_le f l). lia.
Qed.

Lemma filter_shrinks {A} (f : A -> bool) (l : list A) :
  negb (Nat.eqb (length (List.filter f l)) (length l)) =
  existsb (fun x => negb (f x)) l.
Proof.
  induction l as [|x l IH]; simpl; [reflexivity|].
  pose proof (List.filter_length_le f l) as Hle.
  destruct (f x); simpl; [exact IH|].
  destruct (Nat.eqb_spec (length (List.filter f l)) (S (length l))); [lia|reflexivity].
Qed.

Lemma filter_ext_bool {A} (f g : A -> bool) (l : list A) :
  (forall x, f x = g x) -> List.filter f l = List.filter g l.
Proof. intros H. apply List.filter_ext. exact H. Qed.

Lemma existsb_ext_bool {A} (f g : A -> bool) (l : list A) :
  (forall x, f x = g x) -> existsb f l = existsb g l.
Proof. intros H. induction l as [|x l IH]; simpl; [reflexivity|]. now rewrite H, IH. Qed.

(** One iteration, in a cluster [c'] with the pods of [c]. *)
Lemma cleanupRecord_step (c c' : Cluster) (cr : ImageCertificationInfo) :
  pods c' = pods c -> podFailures c' = podFailures c ->
  infos c' !! ObjectName cr = Some cr ->
  let c'' := cleanupRecord c' cr in
  pods c'' = pods c /\ podFailures c'' = podFailures c /\
  infos c'' = <[ObjectName cr := withoutStale c cr]> (infos c') /\
  statusWrites c'' =
    (statusWrites c' ++ if hasStale c cr then [ObjectName cr] else [])%list.
Proof.
  intros Hp Hf Hcr. unfold cleanupRecord.
  assert (List.filter (keepReference c') (PodReferences (Status cr)) =
          List.filter (fun p => negb (confirmedAbsent c p))
            (PodReferences (Status cr))) as Hfil.
  { apply filter_ext_bool. intros p.
    rewrite (keepReference_same c c') by assumption.
    apply keepReference_confirmedAbsent. }
  rewrite Hfil, filter_shrinks.
  assert (existsb (fun x => negb (negb (confirmedAbsent c x)))
            (PodReferences (Status cr)) = hasStale c cr) as Hex.
  { apply existsb_ext_bool. intros x. apply negb_involutive. }
  rewrite Hex.
  destruct (hasStale c cr) eqn:E; cbv zeta.
  - unfold StatusUpdate. simpl. rewrite Hcr. simpl. auto.
  - split; [assumption|]. split; [assumption|]. split.
    + assert (withoutStale c cr = cr) as ->.
      { unfold withoutStale.
        rewrite filter_all.
        - destruct cr as [n a s [? ? ? ? ? ? ? ? ? ?]]. reflexivity.
        - pose proof (filter_shrinks (fun p => negb (confirmedAbsent c p))
                        (PodReferences (Status cr))) as Hs.
          cbv beta in Hs. rewrite Hex in Hs.
          apply negb_false_iff, Nat.eqb_eq in Hs. exact Hs. }
      symmetry. now apply insert_id.
    + now rewrite app_nil_r.
Qed.

(** The loop over the listed records. *)
Lemma cleanup_loop (c : Cluster) (items : list ImageCertificationInfo) :
  forall c' : Cluster,
    pods c' = pods c -> podFailures c' = podFailures c ->
    NoDup (map ObjectName items) ->
    (forall cr, cr ∈ items -> infos c' !! ObjectName cr = Some cr) ->
    let c'' := fold_left cleanupRecord items c' in
    (forall cr, cr ∈ items ->
       infos c'' !! ObjectName cr = Some (withoutStale c cr)) /\
    (forall name, name ∉ map ObjectName items ->
       infos c'' !! name = infos c' !! name) /\
    statusWrites c'' =
      (statusWrites c' ++ map ObjectName (List.filter (hasStale c) items))%list.
Proof.
  induction items as [|cr items IH]; intros c' Hp Hf Hnd Hin; simpl.
  - split; [|split].
    + intros cr H. inversion H.
    + reflexivity.
    + now rewrite app_nil_r.
  - apply NoDup_cons in Hnd as [Hnot Hnd].
    destruct (cleanupRecord_step c c' cr Hp Hf) as (Hp1 & Hf1 & Hi1 & Hw1).
    { apply Hin. left. }
    destruct (IH (cleanupRecord c' cr) Hp1 Hf1 Hnd) as (Ha & Hb & Hc).
    { intros cr' Hcr'. rewrite Hi1, lookup_insert_ne.
      - apply Hin. now right.
      - intros Heq. apply Hnot. rewrite Heq.
        apply list_elem_of_In, in_map, list_elem_of_In. exact Hcr'. }
    split; [|split].
    + intros cr' Hcr'. apply elem_of_cons in Hcr' as [->|Hcr'].
      * rewrite Hb by assumption. rewrite Hi1. apply lookup_insert_eq.
      * now apply Ha.
    + intros name Hname. apply not_elem_of_cons in Hname as [Hne Hname].
      rewrite Hb by assumption. rewrite Hi1. now apply lookup_insert_ne.
    + rewrite Hc, Hw1, <- app_assoc. f_equal.
      destruct (hasStale c cr); reflexivity.
Qed.

Lemma items_names (c : Cluster) :
  namedByKey c ->
  map ObjectName (map snd (map_to_list (infos c))) = (map_to_list (infos c)).*1.
Proof.
  intros Hn.
  assert (forall kv, kv ∈ map_to_list (infos c) -> ObjectName kv.2 = kv.1) as H.
  { intros [k v] Hkv. apply elem_of_map_to_list in Hkv. now apply Hn in Hkv. }
  induction (map_to_list (infos c)) as [|kv l IH]; simpl; [reflexivity|].
  rewrite H by left. f_equal. apply IH. intros kv' Hkv'. apply H. now right.
Qed.

Lemma items_elem (c : Cluster) (cr : ImageCertificationInfo) :
  namedByKey c ->
  cr ∈ map snd (map_to_list (infos c)) <-> infos c !! ObjectName cr = Some cr.
Proof.
  intros Hn. rewrite list_elem_of_In, in_map_iff. split.
  - intros ([k v] & <- & Hin). apply list_elem_of_In, elem_of_map_to_list in Hin.
    simpl. now rewrite (Hn _ _ Hin).
  - intros H. exists (ObjectName cr, cr). split; [reflexivity|].
    now apply list_elem_of_In, elem_of_map_to_list.
Qed.

End CleanupFacts.

Section CleanupStaleReferences.
Import v1alpha1 controller reconciler_spec.

(** C5.  A cleanup pass over a store that can be listed leaves every
    record with exactly those of its references whose pod is not
    confirmed absent: a reference goes only when the read of its pod
    answers not-found, and stays when the pod is there or when the read
    fails otherwise.  Nothing else of a record changes, and the status
    update is called once for each record that lost a reference and for
    no other record. *)
Theorem CleanupStaleReferences_fail_safe (c : Cluster) :
  namedByKey c ->
  listFailure c = None ->
  let c' := (CleanupStaleReferences c).1 in
  (CleanupStaleReferences c).2 = None /\
  infos c' = withoutStale c <$> infos c /\
  (forall name cr podRef,
     infos c !! name = Some cr ->
     podRef ∈ PodReferences (Status cr) ->
     (podRef ∈ PodReferences (Status (withoutStale c cr)) <->
      GetPod c (Namespace podRef, Name podRef) <> Err NotFound)) /\
  statusWrites c' =
    (statusWrites c ++
     map ObjectName
       (List.filter
          (fun cr => length (PodReferences (Status (withoutStale c cr)))
                     <? length (PodReferences (Status cr)))%nat
          (map snd (map_to_list (infos c)))))%list.
Proof.
  intros Hn Hl c'. unfold c', CleanupStaleReferences, ListInfos. rewrite Hl.
  simpl.
  destruct (cleanup_loop c (map snd (map_to_list (infos c))) c eq_refl eq_refl)
    as (Ha & Hb & Hc).
  { rewrite items_names by assumption. apply NoDup_fst_map_to_list. }
  { intros cr Hcr. now apply items_elem. }
  split; [reflexivity|]. split; [|split].
  - apply map_eq. intros name. rewrite lookup_fmap.
    destruct (infos c !! name) as [cr|] eqn:E; simpl.
    + assert (ObjectName cr = name) as Hname by now apply Hn in E.
      rewrite <- Hname. apply Ha. apply items_elem; [assumption|].
      now rewrite Hname.
    + rewrite Hb; [assumption|].
      rewrite items_names by assumption. intros Hin.
      apply list_elem_of_fmap in Hin as ([k v] & -> & Hin).
      apply elem_of_map_to_list in Hin. simpl in E. congruence.
  - intros name cr podRef _ Hin. unfold withoutStale. simpl.
    rewrite list_elem_of_In, filter_In, <- list_elem_of_In.
    unfold confirmedAbsent.
    destruct (GetPod c _) as [pod|[| |msg]]; simpl; split; try tauto;
      try (intros _; split; [assumption|reflexivity]); try discriminate.
    intros [_ H]. discriminate.
  - rewrite Hc. f_equal. f_equal. apply filter_ext_bool. intros cr.
    unfold hasStale, withoutStale. simpl.
    pose proof (filter_shrinks (fun p => negb (confirmedAbsent c p))
                  (PodReferences (Status cr))) as Hs.
    rewrite (existsb_ext_bool _ (confirmedAbsent c)) in Hs
      by (intros x; apply negb_involutive).
    rewrite <- Hs.
    pose proof (List.filter_length_le (fun p => negb (confirmedAbsent c p))
                  (PodReferences (Status cr))) as Hle.
    destruct (Nat.eqb_spec
                (length (List.filter (fun p => negb (confirmedAbsent c p))
                           (PodReferences (Status cr))))
                (length (PodReferences (Status cr)))) as [He|He]; simpl.
    + symmetry. apply Nat.ltb_ge. lia.
    + symmetry. apply Nat.ltb_lt. lia.
Qed.

End CleanupStaleReferences.

(** ** The reconciler: discovery of a new image *)

Section DiscoveryFacts.
Import gostrings image parser_spec.

Lemma allBytes_countByte (p : ascii -> bool) (s : string) (c : ascii) :
  allBytes p s = true -> p c = false -> countByte s c = O.
Proof.
  intros Hs Hc. induction s as [|a t IH]; simpl in *; [reflexivity|].
  apply andb_prop in Hs as [Ha Ht]. rewrite (IH Ht).
  destruct (Ascii.eqb_spec a c); [congruence|reflexivity].
Qed.

Lemma allBytes_impl (p q : ascii -> bool) (s : string) :
  (forall c, p c = true -> q c = true) ->
  allBytes p s = true -> allBytes q s = true.
Proof.
  intros Hpq. induction s as [|a t IH]; simpl; [easy|].
  intros H. apply andb_prop in H as [Ha Ht]. now rewrite (Hpq _ Ha), IH.
Qed.

Lemma isHexDigit_bounds (c : ascii) :
  isHexDigit c = true -> 48 <= byte c <= 57 \/ 97 <= byte c <= 102.
Proof.
  unfold isHexDigit. change (byte "0") with 48. change (byte "9") with 57.
  change (byte "a") with 97. change (byte "f") with 102. lia.
Qed.

Lemma isKeyChar_bounds (c : ascii) :
  isKeyChar c = true <->
  97 <= byte c <= 122 \/ 48 <= byte c <= 57 \/ byte c = 46 \/ byte c = 45.
Proof.
  unfold isKeyChar. rewrite !eqb_byte.
  change (byte "0") with 48. change (byte "9") with 57.
  change (byte "a") with 97. change (byte "z") with 122.
  change (byte ".") with 46. change (byte "-") with 45. lia.
Qed.

Lemma isHexDigit_isKeyChar (c : ascii) :
  isHexDigit c = true -> isKeyChar c = true.
Proof. intros H. apply isHexDigit_bounds in H. apply isKeyChar_bounds. lia. Qed.

Lemma isHexDigit_not_cut (c : ascii) :
  isHexDigit c = true -> inDotDash c = false.
Proof.
  intros H. apply isHexDigit_bounds in H. unfold inDotDash.
  rewrite !eqb_byte. change (byte ".") with 46. change (byte "-") with 45. lia.
Qed.

Lemma isKeyChar_isNameRune (c : ascii) : isNameRune (byte c) = isKeyChar c.
Proof. unfold isNameRune, isKeyChar, rune. now rewrite !eqb_byte. Qed.

Lemma allBytes_takeN (p : ascii -> bool) (n : nat) (s : string) :
  allBytes p s = true -> allBytes p (takeN n s) = true.
Proof. apply takeN_all. Qed.

Lemma takeN_length_le (n : nat) (s : string) :
  (n <= String.length s)%nat -> String.length (takeN n s) = n.
Proof.
  revert s. induction n as [|n IH]; intros [|c t]; simpl; try lia.
  intros H. rewrite IH; lia.
Qed.

Lemma length_app (a b : string) :
  String.length (a ++ b) = (String.length a + String.length b)%nat.
Proof. induction a as [|c t IH]; simpl; [reflexivity|]. now rewrite IH. Qed.

(** [strings.ToLower] leaves a string of key characters as it is. *)
Lemma ToLower_key (lower : string -> string) (s : string) :
  allBytes isKeyChar s = true -> ToLower lower s = s.
Proof.
  intros H. unfold ToLower.
  assert (isASCII s = true /\ mapBytes lowerByte s = s) as [-> ->]; [|reflexivity].
  unfold isASCII. induction s as [|c t IH]; simpl in *; [easy|].
  apply andb_prop in H as [Hc Ht]. destruct (IH Ht) as [-> ->].
  apply isKeyChar_bounds in Hc. split.
  - rewrite andb_true_r. lia.
  - unfold lowerByte.
    destruct ((65 <=? byte c) && (byte c <=? 90)) eqn:E; [lia|reflexivity].
Qed.

(** The loop of [sanitizeK8sName] copies a string of key characters. *)
Lemma sanitizeLoop_copy (n i : Z) (s : string) :
  allBytes isKeyChar s = true -> sanitizeLoop n (rangeFrom i 0 s) = s.
Proof.
  revert i. induction s as [|c t IH]; intros i H; simpl in *; [reflexivity|].
  apply andb_prop in H as [Hc Ht].
  assert ((byte c <? 128) = true) as -> by (apply isKeyChar_bounds in Hc; lia).
  simpl. rewrite isKeyChar_isNameRune, Hc, (IH _ Ht).
  unfold WriteRune, byte. rewrite N2Z.id, ascii_N_embedding. reflexivity.
Qed.

Lemma TrimRight_keep (q : ascii -> bool) (b : string) :
  allBytes (fun c => negb (q c)) b = true -> TrimRight q b = b.
Proof.
  induction b as [|c t IH]; simpl; [reflexivity|].
  intros H. apply andb_prop in H as [Hc Ht]. rewrite (IH Ht).
  apply negb_true_iff in Hc. rewrite Hc. destruct t; reflexivity.
Qed.

Lemma TrimRight_app_keep (q : ascii -> bool) (a b : string) :
  b <> "" -> allBytes (fun c => negb (q c)) b = true ->
  TrimRight q (a ++ b) = a ++ b.
Proof.
  intros Hne Hb. induction a as [|c t IH]; simpl.
  - now apply TrimRight_keep.
  - rewrite IH. destruct (t ++ b) eqn:E; [|reflexivity].
    destruct t; simpl in E; [contradiction|discriminate].
Qed.

(** What [ParseImageID] makes of the identifier of the specification's
    example. *)
Lemma ParseImageID_example (digest : string) :
  allBytes isHexDigit digest = true ->
  ParseImageID ("registry.example/ns/app@sha256:" ++ digest) =
  Ok {| Registry := "registry.example"; Repository := "ns/app"; Tag := "";
        Digest := "sha256:" ++ digest;
        FullReference := "registry.example/ns/app@sha256:" ++ digest |}.
Proof.
  intros Hd. unfold ParseImageID.
  change (String.eqb ("registry.example/ns/app@sha256:" ++ digest) "") with false.
  change (TrimPrefix
            (TrimPrefix ("registry.example/ns/app@sha256:" ++ digest)
               "docker-pullable://") "docker://")
    with ("registry.example/ns/app" ++ String "@" ("sha256:" ++ digest)).
  cbv iota.
  rewrite Split_app_sep by reflexivity.
  rewrite Split_no_sep.
  - reflexivity.
  - rewrite countByte_app.
    rewrite (allBytes_countByte isHexDigit digest "@" Hd) by reflexivity.
    reflexivity.
Qed.

(** The key [ReferenceToCRName] derives from it. *)
Lemma ReferenceToCRName_example (lower : string -> string) (digest : string) :
  String.length digest = 64%nat ->
  allBytes isHexDigit digest = true ->
  ReferenceToCRName lower
    {| Registry := "registry.example"; Repository := "ns/app"; Tag := "";
       Digest := "sha256:" ++ digest;
       FullReference := "registry.example/ns/app@sha256:" ++ digest |} =
  "registry.example.ns.app." ++ sliceTo digest 8.
Proof.
  intros Hlen Hd. unfold ReferenceToCRName. cbn [Registry Repository Digest].
  change (CutPrefix ("sha256:" ++ digest) "sha256:") with (Some digest).
  cbv iota beta.
  assert ((8 <? len digest) = true) as ->.
  { unfold len. rewrite Hlen. reflexivity. }
  change (ReplaceAll ("registry.example" ++ "." ++ "ns/app") "/" "." ++ "."
          ++ sliceTo digest 8)
    with ("registry.example.ns.app." ++ sliceTo digest 8).
  set (short := sliceTo digest 8).
  assert (allBytes isHexDigit short = true) as Hs
    by (apply takeN_all; assumption).
  assert (String.length short = 8%nat) as Hsl.
  { unfold short, sliceTo. apply takeN_length_le. rewrite Hlen.
    change (Z.to_nat 8) with 8%nat. lia. }
  assert (allBytes isKeyChar ("registry.example.ns.app." ++ short) = true) as Hk.
  { rewrite allBytes_app. apply andb_true_intro. split; [reflexivity|].
    apply (allBytes_impl isHexDigit); [apply isHexDigit_isKeyChar|assumption]. }
  rewrite ToLower_key by assumption.
  assert (sanitizeK8sName ("registry.example.ns.app." ++ short)
          = "registry.example.ns.app." ++ short) as ->.
  { unfold sanitizeK8sName, range. rewrite sanitizeLoop_copy by assumption.
    unfold Trim.
    change (TrimLeft inDotDash ("registry.example.ns.app." ++ short))
      with ("registry.example.ns.app." ++ short).
    apply TrimRight_app_keep.
    - intros E. rewrite E in Hsl. discriminate.
    - apply (allBytes_impl isHexDigit); [|assumption].
      intros c Hc. now rewrite isHexDigit_not_cut. }
  assert ((253 <? len ("registry.example.ns.app." ++ short)) = false) as ->.
  { unfold len. rewrite length_app, Hsl. reflexivity. }
  reflexivity.
Qed.

Lemma IsRedHatRegistry_example (lower : string -> string) :
  IsRedHatRegistry lower "registry.example" = false.
Proof. reflexivity. Qed.

End DiscoveryFacts.

Section Reconcile.
Import v1alpha1 controller reconciler_spec.
Variable mapUnicodeToLower : string -> string.

(** C1.  Let the pod of the request be Running or Pending, with one
    container status, whose image identifier is
    [registry.example/ns/app@sha256:] followed by 64 hexadecimal digits,
    and let the store hold no record under the key
    [registry.example.ns.app.] followed by the first eight digits.  One
    pass of [Reconcile] succeeds and adds to the store one record, under
    that key and with that name, and changes no other; its status is
    [Unknown] and its references are the one triple of the pod's
    namespace, the pod's name and the container's name.  No enrichment is
    started, the registry not being a Red Hat one. *)
Theorem Reconcile_discovers_image
    (r : PodReconciler) (clock : nat -> Z) (c : Cluster)
    (req : string * string) (pod : corev1.Pod)
    (container digest : string) :
  GetPod c req = Ok pod ->
  corev1.Phase pod = corev1.PodRunning \/ corev1.Phase pod = corev1.PodPending ->
  (corev1.ContainerStatuses pod ++ corev1.InitContainerStatuses pod)%list =
    [{| corev1.ContainerName := container;
        corev1.ImageID := "registry.example/ns/app@sha256:" ++ digest |}] ->
  String.length digest = 64%nat ->
  parser_spec.allBytes parser_spec.isHexDigit digest = true ->
  infos c !! ("registry.example.ns.app." ++ gostrings.sliceTo digest 8) = None ->
  exists cr,
    Reconcile mapUnicodeToLower r clock c req =
      ((Reconcile mapUnicodeToLower r clock c req).1.1, [], None) /\
    infos (Reconcile mapUnicodeToLower r clock c req).1.1 =
      <["registry.example.ns.app." ++ gostrings.sliceTo digest 8 := cr]> (infos c) /\
    ObjectName cr = "registry.example.ns.app." ++ gostrings.sliceTo digest 8 /\
    CertificationStatus_ (Status cr) = CertificationStatusUnknown /\
    PodReferences (Status cr) =
      [{| Namespace := corev1.Namespace pod; Name := corev1.Name pod;
          Container := container |}] /\
    ImageDigest (Spec cr) = "sha256:" ++ digest.
Proof.
  intros Hpod Hphase Hst Hlen Hhex Hnone.
  unfold Reconcile. rewrite Hpod.
  assert (negb (String.eqb (corev1.Phase pod) corev1.PodRunning)
          && negb (String.eqb (corev1.Phase pod) corev1.PodPending) = false) as ->.
  { destruct Hphase as [-> | ->]; reflexivity. }
  rewrite Hst. cbn [reconcileStatuses]. unfold reconcileStatus.
  cbn [corev1.ImageID corev1.ContainerName].
  change (String.eqb ("registry.example/ns/app@sha256:" ++ digest) "") with false.
  cbv iota.
  rewrite ParseImageID_example by assumption.
  rewrite ReferenceToCRName_example by assumption.
  set (key := "registry.example.ns.app." ++ gostrings.sliceTo digest 8) in *.
  unfold GetInfo. rewrite Hnone. cbn [IsNotFound].
  unfold createImageCertificationInfo, Create. cbn [ObjectName].
  rewrite Hnone.
  unfold StatusUpdate. cbn [setStatus ObjectName logStatusWrite setInfos infos].
  rewrite lookup_insert_eq.
  cbn [image.Registry]. rewrite IsRedHatRegistry_example.
  eexists. split; [|split].
  - destruct (PyxisClient r), (Recorder r); reflexivity.
  - destruct (PyxisClient r), (Recorder r); cbn;
      rewrite insert_insert_eq; reflexivity.
  - cbn. auto.
Qed.

End Reconcile.

(** ** The statements on concrete inputs *)

Section Witnesses.
Import v1alpha1 controller reconciler_spec examples.

Lemma Reconcile_discovers_image_witness :
  exists cr,
    infos (Reconcile lower (withClient certified) (fun _ => 100) freshCluster
             ("default", "test-pod")).1.1 =
      <["registry.example.ns.app.abc123de" := cr]> (infos freshCluster) /\
    CertificationStatus_ (Status cr) = CertificationStatusUnknown /\
    PodReferences (Status cr) = [reference "test-pod" "test-container"].
Proof.
  destruct (Reconcile_discovers_image lower (withClient certified)
              (fun _ => 100) freshCluster ("default", "test-pod") testPod
              "test-container" testDigest)
    as (cr & _ & Hi & _ & Hs & Hr & _).
  - reflexivity.
  - left. reflexivity.
  - reflexivity.
  - reflexivity.
  - reflexivity.
  - reflexivity.
  - exists cr. split; [exact Hi|]. split; [exact Hs|exact Hr].
Defined.

Lemma checkPyxisCertification_answer_witness :
  exists cr' data,
    infos (checkPyxisCertification parseDates days (withClient dated)
             300 afterPublication beforeEOL exampleCluster
             "registry.example.ns.app.abc123de" exampleRef)
      !! "registry.example.ns.app.abc123de" = Some cr' /\
    CertificationStatus_ (Status cr') = CertificationStatusCertified /\
    PyxisData_ (Status cr') = Some data /\
    HealthIndex data = "A" /\
    PublishedAt data = Some 1705314600000000000 /\
    EOLDate data = Some 1909008000000000000 /\
    LayerCount data = 3.
Proof.
  destruct (checkPyxisCertification_answer parseDates days (withClient dated)
              dated 300 afterPublication beforeEOL exampleCluster
              "registry.example.ns.app.abc123de" exampleRef exampleRecord
              (Some datedA))
    as (cr' & Hi & _ & Hs & data & Hd & _ & _ & Hh & _ & Hp & _ & He
        & _ & _ & _ & _ & _ & _ & _ & Hl & _).
  - reflexivity.
  - reflexivity.
  - reflexivity.
  - reflexivity.
  - exists cr', data.
    split; [exact Hi|]. split; [exact Hs|]. split; [exact Hd|].
    split; [exact Hh|]. split; [exact Hp|]. split; [exact He|exact Hl].
Defined.

Lemma checkPyxisCertification_failure_witness :
  exists cr',
    infos (checkPyxisCertification parseAny days (withClient unreachable)
             300 301 302 exampleCluster "registry.example.ns.app.abc123de"
             exampleRef) =
      <["registry.example.ns.app.abc123de" := cr']> (infos exampleCluster) /\
    CertificationStatus_ (Status cr') = CertificationStatusError /\
    LastPyxisCheckAt (Status cr') = Some 300 /\
    PyxisData_ (Status cr') = PyxisData_ (Status exampleRecord).
Proof.
  destruct (checkPyxisCertification_failure parseAny days
              (withClient unreachable) unreachable 300 301 302 exampleCluster
              "registry.example.ns.app.abc123de" exampleRef exampleRecord
              "timeout")
    as (cr' & Hi & Hs & Ht & Hp & _).
  - reflexivity.
  - reflexivity.
  - reflexivity.
  - reflexivity.
  - exists cr'. auto.
Defined.

Lemma CleanupStaleReferences_fail_safe_witness :
  infos (CleanupStaleReferences exampleCluster).1 =
    withoutStale exampleCluster <$> infos exampleCluster.
Proof.
  destruct (CleanupStaleReferences_fail_safe exampleCluster)
    as (_ & Hi & _).
  - apply map_Forall_singleton. reflexivity.
  - reflexivity.
  - exact Hi.
Defined.

Lemma GetRepositoryInfo_caches_success_only_witness :
  dockerhub.calls
    (dockerhub.client
       (dockerhub.GetRepositoryInfo countingClient coldCache 0 1
          "library" "nginx").1) = [("library", "nginx")].
Proof.
  destruct (GetRepositoryInfo_caches_success_only countingClient coldCache 0 1
              "library" "nginx") as [Hc _].
  - reflexivity.
  - exact Hc.
Defined.

Lemma GetRepositoryInfo_hit_frame_witness :
  (dockerhub.requests countingClient warmCache [(1, 1); (5, 6); (10, 10)]
     "library" "nginx").1 = warmCache.
Proof.
  destruct (GetRepositoryInfo_hit_frame countingClient warmCache
              "library" "nginx" warmEntry [(1, 1); (5, 6); (10, 10)])
    as [Hc _].
  - reflexivity.
  - repeat constructor.
  - exact Hc.
Defined.

Lemma ReferenceToCRName_valid_witness :
  gostrings.len (image.ReferenceToCRName lower exampleRef) <= 253 /\
  parser_spec.allBytes parser_spec.isKeyChar
    (image.ReferenceToCRName lower exampleRef) = true /\
  gostrings.HasPrefix (image.ReferenceToCRName lower exampleRef) "." = false /\
  gostrings.HasPrefix (image.ReferenceToCRName lower exampleRef) "-" = false.
Proof.
  apply (ReferenceToCRName_valid lower exampleImageID exampleRef).
  reflexivity.
Defined.

End Witnesses.

(** ** More on the reference parser *)

Section ParserMoreFacts.
Import gostrings image parser_spec.

Lemma ReplaceAll_absent (s : string) (old new : ascii) :
  Contains s old = false -> ReplaceAll s old new = s.
Proof.
  induction s as [|c t IH]; simpl; [reflexivity|].
  intros H. apply orb_false_elim in H as [Hc Ht]. now rewrite Hc, IH.
Qed.

Lemma CutPrefix_app (p s : string) : CutPrefix (p ++ s) p = Some s.
Proof.
  induction p as [|c t IH]; simpl; [reflexivity|].
  now rewrite Ascii.eqb_refl.
Qed.

Lemma TrimPrefix_absent (s p : string) :
  HasPrefix s p = false -> TrimPrefix s p = s.
Proof.
  unfold HasPrefix, TrimPrefix. destruct (CutPrefix s p); [discriminate|reflexivity].
Qed.

(** [ParseImageID] sees of a non-empty identifier only what is left of
    it once the pull schemes are removed. *)
Lemma ParseImageID_stripped (a b : string) :
  a <> "" -> b <> "" -> stripScheme a = stripScheme b ->
  ParseImageID a = ParseImageID b.
Proof.
  intros Ha Hb H. unfold ParseImageID.
  destruct (String.eqb_spec a ""); [contradiction|].
  destruct (String.eqb_spec b ""); [contradiction|].
  unfold stripScheme in H. now rewrite H.
Qed.

Lemma LastIndex_lower (s : string) (c : ascii) : -1 <= LastIndex s c.
Proof.
  induction s as [|a t IH]; simpl; [lia|].
  destruct (Z.leb_spec 0 (LastIndex t c)); [lia|].
  destruct (Ascii.eqb a c); lia.
Qed.

Lemma LastIndex_absent (s : string) (c : ascii) :
  LastIndex s c < 0 -> Contains s c = false.
Proof.
  induction s as [|a t IH]; simpl; [reflexivity|].
  destruct (Z.leb_spec 0 (LastIndex t c)) as [H|H].
  - lia.
  - destruct (Ascii.eqb a c); [lia|]. intros _. simpl. now apply IH.
Qed.

(** The string around the last occurrence of the byte. *)
Lemma LastIndex_split (s : string) (c : ascii) :
  0 <= LastIndex s c ->
  s = sliceTo s (LastIndex s c) ++ String c (sliceFrom s (LastIndex s c + 1)) /\
  Contains (sliceFrom s (LastIndex s c + 1)) c = false.
Proof.
  unfold sliceTo, sliceFrom.
  induction s as [|a t IH]; simpl; [lia|].
  destruct (Z.leb_spec 0 (LastIndex t c)) as [H|H].
  - intros _. destruct (IH H) as [IH1 IH2].
    replace (Z.to_nat (LastIndex t c + 1)) with (S (Z.to_nat (LastIndex t c))) by lia.
    replace (Z.to_nat (LastIndex t c + 1 + 1))
      with (S (Z.to_nat (LastIndex t c + 1))) by lia.
    simpl. split; [|assumption]. f_equal. exact IH1.
  - destruct (Ascii.eqb_spec a c) as [->|]; [|lia].
    intros _. simpl. split; [reflexivity|]. now apply LastIndex_absent.
Qed.

(** The string around the first occurrence of the byte. *)
Lemma Cut_split (s : string) (c : ascii) :
  match Cut s c with
  | Some (before, after) =>
      s = before ++ String c after /\ Contains before c = false
  | None => Contains s c = false
  end.
Proof.
  induction s as [|a t IH]; simpl; [reflexivity|].
  destruct (Ascii.eqb_spec a c) as [->|Hne].
  - split; reflexivity.
  - destruct (Cut t c) as [[b r]|]; simpl.
    + destruct IH as [-> Hb]. split; [reflexivity|].
      destruct (Ascii.eqb_spec a c); [contradiction|assumption].
    + destruct (Ascii.eqb_spec a c); [contradiction|assumption].
Qed.

Lemma append_assoc (a b c : string) : (a ++ b) ++ c = a ++ b ++ c.
Proof. induction a as [|x t IH]; simpl; [reflexivity|]. now rewrite IH. Qed.

Lemma append_empty_r (a : string) : a ++ "" = a.
Proof. induction a as [|x t IH]; simpl; [reflexivity|]. now rewrite IH. Qed.

Lemma Contains_nonempty (s : string) (c : ascii) :
  Contains s c = true -> s <> "".
Proof. destruct s; [discriminate|discriminate]. Qed.

Lemma TrimRight_end (q : ascii -> bool) (s : string) :
  endsWith q (TrimRight q s) = false.
Proof.
  induction s as [|c t IH]; simpl; [reflexivity|].
  destruct (TrimRight q t) as [|d r] eqn:E.
  - destruct (q c) eqn:Hc; simpl; [reflexivity|assumption].
  - exact IH.
Qed.

Lemma TrimLeft_keep (q : ascii -> bool) (s : string) :
  startsWith q s = false -> TrimLeft q s = s.
Proof. destruct s as [|c t]; simpl; [reflexivity|]. now intros ->. Qed.

Lemma TrimRight_same (q : ascii -> bool) (s : string) :
  endsWith q s = false -> TrimRight q s = s.
Proof.
  induction s as [|c t IH]; [reflexivity|].
  destruct t as [|d t'].
  - simpl. now intros ->.
  - intros H. change (endsWith q (String d t') = false) in H.
    change (TrimRight q (String c (String d t')))
      with (match TrimRight q (String d t') with
            | EmptyString => if q c then EmptyString else String c EmptyString
            | r => String c r
            end).
    now rewrite (IH H).
Qed.

(** A string of key characters that neither begins nor ends with ['.']
    or ['-'] is a name already: [sanitizeK8sName] returns it. *)
Lemma sanitizeK8sName_fixed (s : string) :
  allBytes isKeyChar s = true ->
  startsWith inDotDash s = false ->
  endsWith inDotDash s = false ->
  sanitizeK8sName s = s.
Proof.
  intros Hk Hs He. unfold sanitizeK8sName, range.
  rewrite sanitizeLoop_copy by assumption.
  unfold Trim. rewrite TrimLeft_keep by assumption. now apply TrimRight_same.
Qed.

End ParserMoreFacts.

Section ParserMore.
Import gostrings image parser_spec.

(** X1.  The old-style record names and the digests are converted into
    one another without loss, for a digest [sha256:h] whose [h] has no
    colon: [CRNameToDigest] undoes [DigestToCRName], and
    [DigestToCRName] undoes [CRNameToDigest] on the name [sha256-h]. *)
Theorem DigestToCRName_roundtrip (h : string) :
  Contains h ":" = false ->
  DigestToCRName ("sha256:" ++ h) = "sha256-" ++ h /\
  CRNameToDigest (DigestToCRName ("sha256:" ++ h)) = "sha256:" ++ h /\
  DigestToCRName (CRNameToDigest ("sha256-" ++ h)) = "sha256-" ++ h.
Proof.
  intros H.
  assert (DigestToCRName ("sha256:" ++ h) = "sha256-" ++ h) as E.
  { unfold DigestToCRName. simpl. now rewrite ReplaceAll_absent. }
  split; [exact E|]. split.
  - rewrite E. unfold CRNameToDigest.
    now rewrite (CutPrefix_app "sha256-" h).
  - unfold CRNameToDigest. rewrite (CutPrefix_app "sha256-" h). exact E.
Qed.

(** X2.  The pull schemes do not matter: an identifier that carries no
    scheme is parsed to the same reference, or rejected with the same
    error, when [docker-pullable://] or [docker://] is put before it. *)
Theorem ParseImageID_scheme_insensitive (imageID : string) :
  imageID <> "" ->
  HasPrefix imageID "docker-pullable://" = false ->
  HasPrefix imageID "docker://" = false ->
  ParseImageID ("docker-pullable://" ++ imageID) = ParseImageID imageID /\
  ParseImageID ("docker://" ++ imageID) = ParseImageID imageID.
Proof.
  intros Hne Hp Hd.
  assert (stripScheme imageID = imageID) as Hs.
  { unfold stripScheme.
    rewrite (TrimPrefix_absent imageID "docker-pullable://") by assumption.
    now apply TrimPrefix_absent. }
  split; apply ParseImageID_stripped; try assumption; try discriminate.
  - unfold stripScheme at 1. unfold TrimPrefix at 2.
    rewrite (CutPrefix_app "docker-pullable://" imageID).
    rewrite TrimPrefix_absent by assumption. now rewrite Hs.
  - unfold stripScheme at 1.
    change (TrimPrefix ("docker://" ++ imageID) "docker-pullable://")
      with ("docker://" ++ imageID).
    unfold TrimPrefix. rewrite (CutPrefix_app "docker://" imageID).
    now rewrite Hs.
Qed.

(** X3.  Nothing of the identifier is lost in parsing.  The stripped
    identifier is the image name, then the tag behind a colon if the
    parser found one, then ['@'] and the digest; the image name is the
    registry, a slash and the repository, or, when the registry is the
    default [docker.io], the repository itself or the repository
    without its [library/].  The registry is never empty and has no
    slash, and the tag has neither a slash nor a colon. *)
Theorem ParseImageID_reassembles (imageID : string) (ref : Reference) :
  ParseImageID imageID = Ok ref ->
  exists name tagged : string,
    stripScheme imageID = name ++ tagged ++ String "@" (Digest ref) /\
    (tagged = ":" ++ Tag ref \/ tagged = "" /\ Tag ref = "") /\
    (name = Registry ref ++ String "/" (Repository ref) \/
     Registry ref = "docker.io" /\
     (Repository ref = name \/ Repository ref = "library/" ++ name)) /\
    Registry ref <> "" /\
    Contains (Registry ref) "/" = false /\
    Contains (Tag ref) "/" = false /\
    Contains (Tag ref) ":" = false.
Proof.
  unfold ParseImageID.
  destruct (String.eqb imageID ""); [discriminate|].
  fold (stripScheme imageID).
  destruct (Split (stripScheme imageID) "@") as [|p0 [|p1 [|x l]]] eqn:Hs;
    try discriminate.
  apply Split_two in Hs.
  set (colonIdx := LastIndex p0 ":").
  set (afterColon := sliceFrom p0 (colonIdx + 1)).
  set (hasTag := negb (colonIdx =? -1) && negb (Contains afterColon "/")).
  set (name := if hasTag then sliceTo p0 colonIdx else p0).
  set (tag := if hasTag then afterColon else "").
  assert (exists tagged, p0 = name ++ tagged /\
            (tagged = ":" ++ tag \/ tagged = "" /\ tag = "") /\
            Contains tag "/" = false /\ Contains tag ":" = false)
    as (tagged & Hp0 & Htag & Hts & Htc).
  { unfold name, tag. destruct hasTag eqn:Eh.
    - unfold hasTag in Eh. apply andb_prop in Eh as [E1 E2].
      apply negb_true_iff in E1, E2. apply Z.eqb_neq in E1.
      pose proof (LastIndex_lower p0 ":") as Hl. fold colonIdx in Hl.
      destruct (LastIndex_split p0 ":") as [Hsp Hno]; [fold colonIdx; lia|].
      fold colonIdx in Hsp, Hno. fold afterColon in Hsp, Hno.
      exists (":" ++ afterColon). split; [exact Hsp|]. auto.
    - exists "". split.
      + symmetry. apply append_empty_r.
      + auto. }
  pose proof (Cut_split name "/") as Hcut.
  destruct (Cut name "/") as [[possibleRegistry after]|] eqn:Ec.
  - destruct Hcut as [Hname Hnos].
    destruct (Contains possibleRegistry "." || Contains possibleRegistry ":"
              || String.eqb possibleRegistry "localhost") eqn:Er.
    + intros [= <-]. cbn [Registry Repository Tag Digest].
      exists name, tagged. rewrite Hs, Hp0.
      split; [| split; [assumption | split; [left; assumption|] ] ].
      * apply append_assoc.
      * split; [|auto].
        apply orb_prop in Er as [Er|Er].
        -- apply orb_prop in Er as [Er|Er]; now apply Contains_nonempty in Er.
        -- apply String.eqb_eq in Er. rewrite Er. discriminate.
    + intros [= <-]. cbn [Registry Repository Tag Digest].
      exists name, tagged. rewrite Hs, Hp0.
      split; [| split; [assumption | split; [right; auto|] ] ].
      * apply append_assoc.
      * split; [discriminate|]. auto.
  - intros [= <-]. cbn [Registry Repository Tag Digest].
    exists name, tagged. rewrite Hs, Hp0.
    split; [| split; [assumption | split; [right; auto|] ] ].
    * apply append_assoc.
    * split; [discriminate|]. auto.
Qed.

(** X4.  [sanitizeK8sName] is idempotent: what it returns neither
    begins nor ends with ['.'] or ['-'] and is returned unchanged when
    sanitized again. *)
Theorem sanitizeK8sName_idempotent (name : string) :
  startsWith inDotDash (sanitizeK8sName name) = false /\
  endsWith inDotDash (sanitizeK8sName name) = false /\
  sanitizeK8sName (sanitizeK8sName name) = sanitizeK8sName name.
Proof.
  destruct (sanitizeK8sName_key name) as [Hk Hs].
  assert (endsWith inDotDash (sanitizeK8sName name) = false) as He.
  { unfold sanitizeK8sName, Trim. apply TrimRight_end. }
  split; [assumption|]. split; [assumption|].
  now apply sanitizeK8sName_fixed.
Qed.

End ParserMore.

(** ** More on the caching decorator *)

Section CacheMoreFacts.
Import gostrings dockerhub.

Lemma Cut_app (a b : string) (c : ascii) :
  Contains a c = false -> Cut (a ++ String c b) c = Some (a, b).
Proof.
  induction a as [|x t IH]; simpl.
  - now rewrite Ascii.eqb_refl.
  - intros H. apply orb_false_elim in H as [-> Ht]. now rewrite (IH Ht).
Qed.

Lemma cacheKey_split (ns repo : string) :
  Contains ns "/" = false ->
  Cut (cacheKey ns repo) "/" = Some (ns, repo).
Proof. intros H. apply (Cut_app ns repo "/" H). Qed.

Context {C : Type}.
Variable clientGet :
  C -> string -> string -> C * result error (option RepositoryInfo).

(** The answer and what the request does to the wrapped client depend
    on the cache through the live entry of the key alone. *)
Lemma GetRepositoryInfo_by_liveEntry (c c' : CachedClient C)
    (now stored : Z) (ns repo : string) :
  client c' = client c -> ttl c' = ttl c ->
  liveEntry c' now (cacheKey ns repo) = liveEntry c now (cacheKey ns repo) ->
  (GetRepositoryInfo clientGet c' now stored ns repo).2 =
    (GetRepositoryInfo clientGet c now stored ns repo).2 /\
  client (GetRepositoryInfo clientGet c' now stored ns repo).1 =
    client (GetRepositoryInfo clientGet c now stored ns repo).1.
Proof.
  intros Hc Ht Hl. unfold GetRepositoryInfo. rewrite Hl.
  destruct (liveEntry c now (cacheKey ns repo)).
  - simpl. auto.
  - rewrite Hc. destruct (invoke clientGet (client c) ns repo) as [w [d|e]];
      simpl; auto.
Qed.

Lemma CleanupExpired_lookup (c : CachedClient C) (now : Z) (key : string) :
  cache (CleanupExpired c now) !! key =
  match cache c !! key with
  | Some entry => if expiresAt entry <? now then None else Some entry
  | None => None
  end.
Proof.
  unfold CleanupExpired. simpl.
  destruct (cache c !! key) as [entry|] eqn:E.
  - destruct (expiresAt entry <? now) eqn:Ex.
    + apply map_lookup_filter_None. right. intros x Hx. simpl.
      rewrite E in Hx. injection Hx as <-. now rewrite Ex.
    + apply map_lookup_filter_Some. split; [assumption|]. simpl. now rewrite Ex.
  - apply map_lookup_filter_None. now left.
Qed.

End CacheMoreFacts.

Section CacheMore.
Import gostrings dockerhub.
Context {C : Type}.
Variable clientGet :
  C -> string -> string -> C * result error (option RepositoryInfo).

(** X5.  Two lookups share a cache key only when they are the same
    lookup, provided the namespaces have no slash. *)
Theorem cacheKey_injective (ns repo ns' repo' : string) :
  Contains ns "/" = false ->
  Contains ns' "/" = false ->
  cacheKey ns repo = cacheKey ns' repo' ->
  ns = ns' /\ repo = repo'.
Proof.
  intros H H' E.
  pose proof (cacheKey_split ns repo H) as S1.
  pose proof (cacheKey_split ns' repo' H') as S2.
  rewrite E in S1. rewrite S1 in S2. now injection S2.
Qed.

(** X6.  [CleanupExpired] deletes the entries whose expiry is before
    the instant of the sweep and keeps every other entry, the one
    expiring at that very instant included; the time-to-live and the
    wrapped client are untouched.  No request read at or after the
    sweep can tell that it happened: it gets the same answer and makes
    the same calls of the wrapped client. *)
Theorem CleanupExpired_unobservable
    (c : CachedClient C) (swept now stored : Z) (ns repo : string) :
  swept <= now ->
  (forall key,
     cache (CleanupExpired c swept) !! key =
     match cache c !! key with
     | Some entry => if expiresAt entry <? swept then None else Some entry
     | None => None
     end) /\
  ttl (CleanupExpired c swept) = ttl c /\
  client (CleanupExpired c swept) = client c /\
  (GetRepositoryInfo clientGet (CleanupExpired c swept) now stored ns repo).2 =
    (GetRepositoryInfo clientGet c now stored ns repo).2 /\
  client (GetRepositoryInfo clientGet (CleanupExpired c swept) now stored ns repo).1
    = client (GetRepositoryInfo clientGet c now stored ns repo).1.
Proof.
  intros Hle. split; [intros key; apply CleanupExpired_lookup|].
  split; [reflexivity|]. split; [reflexivity|].
  apply GetRepositoryInfo_by_liveEntry; try reflexivity.
  unfold liveEntry. rewrite CleanupExpired_lookup.
  destruct (cache c !! cacheKey ns repo) as [entry|]; [|reflexivity].
  destruct (Z.ltb_spec (expiresAt entry) swept); [|reflexivity].
  destruct (Z.ltb_spec now (expiresAt entry)); [lia|reflexivity].
Qed.

(** X7.  A request changes the cache at its own key at most: the entry
    of every other key, and the time-to-live, are as before. *)
Theorem GetRepositoryInfo_other_keys
    (c : CachedClient C) (now stored : Z) (ns repo key : string) :
  key <> cacheKey ns repo ->
  cache (GetRepositoryInfo clientGet c now stored ns repo).1 !! key =
    cache c !! key /\
  ttl (GetRepositoryInfo clientGet c now stored ns repo).1 = ttl c.
Proof.
  intros Hne. unfold GetRepositoryInfo.
  destruct (liveEntry c now (cacheKey ns repo)); [auto|].
  destruct (invoke clientGet (client c) ns repo) as [w [d|e]]; simpl; [|auto].
  split; [|reflexivity]. now apply lookup_insert_ne.
Qed.

End CacheMore.

Section Chain.
Import gostrings dockerhub.
Context {B L : Type}.
Variable baseGet :
  B -> string -> string -> B * result error (option RepositoryInfo).
Variable limiterWait : L -> L * option error.

(** X8.  In the chained client a request answered from the cache
    leaves the limiter and the base client alone.  A request that
    misses waits on the limiter once; when the wait fails, the error is
    returned, the base client is not called and nothing is cached; when
    it succeeds, the base client is called once. *)
Theorem chained_request
    (c : CachedClient (RateLimitedClient (Wrapped B) L))
    (now stored : Z) (ns repo : string) :
  let c' := (ChainedGetRepositoryInfo baseGet limiterWait c now stored ns repo).1 in
  match liveEntry c now (cacheKey ns repo) with
  | Some entry =>
      ChainedGetRepositoryInfo baseGet limiterWait c now stored ns repo =
      (c, Ok (data entry))
  | None =>
      limiter (inner (client c')) = (limiterWait (limiter (inner (client c)))).1 /\
      match (limiterWait (limiter (inner (client c)))).2 with
      | Some err =>
          (ChainedGetRepositoryInfo baseGet limiterWait c now stored ns repo).2
            = Err err /\
          limited (inner (client c')) = limited (inner (client c)) /\
          cache c' = cache c
      | None =>
          calls (limited (inner (client c'))) =
            (calls (limited (inner (client c))) ++ [(ns, repo)])%list
      end
  end.
Proof.
  intros c'. unfold c', ChainedGetRepositoryInfo, GetRepositoryInfo.
  destruct (liveEntry c now (cacheKey ns repo)); [reflexivity|].
  unfold invoke, RateLimitedGetRepositoryInfo.
  destruct (limiterWait (limiter (inner (client c)))) as [l [err|]]; simpl.
  - auto.
  - destruct (baseGet (inner (limited (inner (client c)))) ns repo) as [b [d|e]];
      simpl; auto.
Qed.

End Chain.

(** ** More on the reconciler: the reconciliation pass *)

Section ReconcileFacts.
Import v1alpha1 controller reconciler_spec.
Variable lower : string -> string.

Lemma seenAgain_refl (cr : ImageCertificationInfo) : seenAgain cr cr.
Proof. unfold seenAgain. repeat split; auto. Qed.

Lemma seenAgain_trans (a b c : ImageCertificationInfo) :
  seenAgain a b -> seenAgain b c -> seenAgain a c.
Proof.
  unfold seenAgain.
  intros (A1 & A2 & A3 & A4 & A5 & A6 & A7 & A8 & A9 & A10 & A11 & A12)
         (B1 & B2 & B3 & B4 & B5 & B6 & B7 & B8 & B9 & B10 & B11 & B12).
  repeat split; try congruence. auto.
Qed.

Lemma namedByKey_insert (c c' : Cluster) (name : string)
    (cr : ImageCertificationInfo) :
  namedByKey c -> ObjectName cr = name ->
  infos c' = <[name := cr]> (infos c) -> namedByKey c'.
Proof.
  unfold namedByKey. intros Hn Hcr ->. now apply map_Forall_insert_2.
Qed.

(** [createImageCertificationInfo] for a name that is free. *)
Lemma createImageCertificationInfo_fresh (r : PodReconciler) (now : Z)
    (c : Cluster) (ref : image.Reference) (crName : string)
    (podRef : PodReference) :
  infos c !! crName = None ->
  let out := createImageCertificationInfo lower r now c ref crName podRef in
  out.2 = None /\
  pods out.1.1 = pods c /\ podFailures out.1.1 = podFailures c /\
  listFailure out.1.1 = listFailure c /\
  (exists cr, infos out.1.1 = <[crName := cr]> (infos c) /\
              ObjectName cr = crName /\
              PodReferences (Status cr) = [podRef]) /\
  out.1.2 =
    match PyxisClient r with
    | Some _ =>
        if image.IsRedHatRegistry lower (image.Registry ref)
        then Some {| enrichName := crName; enrichRef := ref |} else None
    | None => None
    end.
Proof.
  intros Hnone. unfold createImageCertificationInfo, Create.
  cbn [ObjectName]. rewrite Hnone.
  unfold StatusUpdate. cbn [setStatus ObjectName logStatusWrite setInfos infos].
  rewrite lookup_insert_eq.
  destruct (Recorder r); cbn; rewrite insert_insert_eq;
    (split; [reflexivity|]); repeat (split; [reflexivity|]);
    (split; [eexists; split; [reflexivity|split; reflexivity]|]);
    destruct (PyxisClient r); reflexivity.
Qed.

(** [updatePodReferences] for a record that is in the store as read. *)
Lemma updatePodReferences_existing (now : Z) (c : Cluster)
    (cr : ImageCertificationInfo) (podRef : PodReference) :
  infos c !! ObjectName cr = Some cr ->
  let out := updatePodReferences now c cr podRef in
  pods out.1.1 = pods c /\ podFailures out.1.1 = podFailures c /\
  listFailure out.1.1 = listFailure c /\
  exists cr',
    infos out.1.1 = <[ObjectName cr := cr']> (infos c) /\
    seenAgain cr cr' /\
    podRef ∈ PodReferences (Status cr') /\
    (podRef ∈ PodReferences (Status cr) ->
     PodReferences (Status cr') = PodReferences (Status cr)).
Proof.
  intros Hcr. unfold updatePodReferences, StatusUpdate.
  destruct (existsb _ _) eqn:E; cbn; rewrite Hcr; cbn;
    repeat (split; [reflexivity|]); eexists; (split; [reflexivity|]).
  - apply existsb_samePodReference in E.
    split; [unfold seenAgain; cbn; repeat split; auto|]. cbn. auto.
  - split; [unfold seenAgain; cbn; repeat split; auto|]; cbn.
    + intros p Hp. apply elem_of_app. now left.
    + split.
      * apply elem_of_app. right. now apply list_elem_of_singleton.
      * intros Hin. apply existsb_samePodReference in Hin. congruence.
Qed.

Lemma referencesOf_insert (c c' : Cluster) (name : string)
    (cr cr' : ImageCertificationInfo) :
  infos c !! name = Some cr ->
  infos c' = <[name := cr']> (infos c) ->
  PodReferences (Status cr') = PodReferences (Status cr) ->
  forall other, referencesOf c' other = referencesOf c other.
Proof.
  intros Hcr Hi Hr other. unfold referencesOf. rewrite Hi.
  destruct (decide (name = other)) as [<-|Hne].
  - rewrite lookup_insert_eq, Hcr. simpl. now rewrite Hr.
  - now rewrite lookup_insert_ne.
Qed.

(** One iteration of the loop of [Reconcile]. *)
Lemma reconcileStatus_step (r : PodReconciler) (pod : corev1.Pod) (now : Z)
    (c : Cluster) (started : list Enrichment)
    (containerStatus : corev1.ContainerStatus) :
  namedByKey c ->
  let out := reconcileStatus lower r pod now (c, started) containerStatus in
  namedByKey out.1 /\
  pods out.1 = pods c /\ podFailures out.1 = podFailures c /\
  listFailure out.1 = listFailure c /\
  (forall name cr, infos c !! name = Some cr ->
     exists cr', infos out.1 !! name = Some cr' /\ seenAgain cr cr') /\
  (forall key podRef,
     observation lower pod containerStatus = Some (key, podRef) ->
     exists cr', infos out.1 !! key = Some cr' /\
                 podRef ∈ PodReferences (Status cr')) /\
  (forall key podRef cr,
     observation lower pod containerStatus = Some (key, podRef) ->
     infos c !! key = Some cr -> podRef ∈ PodReferences (Status cr) ->
     (forall name, referencesOf out.1 name = referencesOf c name) /\
     out.2 = started) /\
  exists tasks,
    out.2 = (started ++ tasks)%list /\
    forall t, t ∈ tasks ->
      PyxisClient r <> None /\
      image.IsRedHatRegistry lower (image.Registry (enrichRef t)) = true /\
      enrichName t = image.ReferenceToCRName lower (enrichRef t).
Proof.
  intros Hn. unfold reconcileStatus, observation.
  assert (forall name cr, infos c !! name = Some cr ->
            exists cr', infos c !! name = Some cr' /\ seenAgain cr cr') as Hsame.
  { intros name cr H. exists cr. split; [assumption|apply seenAgain_refl]. }
  assert (exists tasks : list Enrichment,
            started = (started ++ tasks)%list /\
            forall t, t ∈ tasks ->
              PyxisClient r <> None /\
              image.IsRedHatRegistry lower (image.Registry (enrichRef t)) = true /\
              enrichName t = image.ReferenceToCRName lower (enrichRef t)) as Hnil.
  { exists []. split; [now rewrite app_nil_r|]. intros t Ht. inversion Ht. }
  destruct (String.eqb (corev1.ImageID containerStatus) "").
  { cbn. repeat (split; [auto; try discriminate|]). exact Hnil. }
  destruct (image.ParseImageID (corev1.ImageID containerStatus)) as [ref|e].
  2:{ cbn. repeat (split; [auto; try discriminate|]). exact Hnil. }
  set (crName := image.ReferenceToCRName lower ref).
  set (podRef := {| Namespace := corev1.Namespace pod;
                    Name := corev1.Name pod;
                    Container := corev1.ContainerName containerStatus |}).
  unfold GetInfo. destruct (infos c !! crName) as [existing|] eqn:E.
  - assert (ObjectName existing = crName) as Hname by now apply Hn in E.
    destruct (updatePodReferences_existing now c existing podRef)
      as (Hp & Hf & Hl & cr' & Hi & Hs & Hin & Hkeep).
    { now rewrite Hname. }
    rewrite Hname in Hi.
    destruct (updatePodReferences now c existing podRef) as [[c1 cr1] err].
    cbn in *.
    split. { apply (namedByKey_insert c c1 crName cr'); try assumption.
             destruct Hs as [-> _]. assumption. }
    repeat (split; [assumption|]).
    split.
    { intros name cr Hcr. rewrite Hi.
      destruct (decide (crName = name)) as [<-|Hne].
      - rewrite lookup_insert_eq. exists cr'. split; [reflexivity|].
        rewrite E in Hcr. injection Hcr as <-. assumption.
      - rewrite lookup_insert_ne by assumption. exists cr.
        split; [assumption|apply seenAgain_refl]. }
    split.
    { intros key p [= <- <-]. exists cr'. rewrite Hi.
      split; [apply lookup_insert_eq|assumption]. }
    split.
    { intros key p cr [= <- <-] Hcr Hp'. rewrite E in Hcr. injection Hcr as <-.
      split; [|reflexivity].
      apply (referencesOf_insert c c1 crName existing cr'); auto. }
    exact Hnil.
  - cbn [IsNotFound].
    destruct (createImageCertificationInfo_fresh r now c ref crName podRef E)
      as (He & Hp & Hf & Hl & (cr & Hi & Hname & Hrefs) & Ht).
    destruct (createImageCertificationInfo lower r now c ref crName podRef)
      as [[c1 task] err].
    cbn in *.
    split. { now apply (namedByKey_insert c c1 crName cr). }
    repeat (split; [assumption|]).
    split.
    { intros name cr0 Hcr. rewrite Hi.
      destruct (decide (crName = name)) as [<-|Hne]; [congruence|].
      rewrite lookup_insert_ne by assumption. exists cr0.
      split; [assumption|apply seenAgain_refl]. }
    split.
    { intros key p [= <- <-]. exists cr. rewrite Hi.
      split; [apply lookup_insert_eq|]. rewrite Hrefs.
      now apply list_elem_of_singleton. }
    split.
    { intros key p cr0 [= <- <-] Hcr. congruence. }
    exists (option_list task). split; [reflexivity|].
    intros t Hin. rewrite Ht in Hin.
    destruct (PyxisClient r) as [get|]; [|inversion Hin].
    destruct (image.IsRedHatRegistry lower (image.Registry ref)) eqn:Er;
      [|inversion Hin].
    cbn in Hin. apply list_elem_of_singleton in Hin. subst t. cbn.
    split; [discriminate|]. split; [assumption|reflexivity].
Qed.

(** The loop of [Reconcile]. *)
Lemma reconcileStatuses_loop (r : PodReconciler) (pod : corev1.Pod)
    (clock : nat -> Z) (statuses : list corev1.ContainerStatus) :
  forall (i : nat) (c : Cluster) (started : list Enrichment),
    namedByKey c ->
    let out := reconcileStatuses lower r pod clock i statuses (c, started) in
    namedByKey out.1 /\
    pods out.1 = pods c /\ podFailures out.1 = podFailures c /\
    listFailure out.1 = listFailure c /\
    (forall name cr, infos c !! name = Some cr ->
       exists cr', infos out.1 !! name = Some cr' /\ seenAgain cr cr') /\
    (forall containerStatus key podRef,
       containerStatus ∈ statuses ->
       observation lower pod containerStatus = Some (key, podRef) ->
       exists cr', infos out.1 !! key = Some cr' /\
                   podRef ∈ PodReferences (Status cr')) /\
    exists tasks,
      out.2 = (started ++ tasks)%list /\
      forall t, t ∈ tasks ->
        PyxisClient r <> None /\
        image.IsRedHatRegistry lower (image.Registry (enrichRef t)) = true /\
        enrichName t = image.ReferenceToCRName lower (enrichRef t).
Proof.
  induction statuses as [|cs rest IH]; intros i c started Hn;
    cbn [reconcileStatuses].
  - split; [assumption|]. do 3 (split; [reflexivity|]). split; [|split].
    + intros name cr H. exists cr. split; [assumption|apply seenAgain_refl].
    + intros cs key p H. inversion H.
    + exists []. split; [now rewrite app_nil_r|]. intros t Ht. inversion Ht.
  - destruct (reconcileStatus_step r pod (clock i) c started cs Hn)
      as (Hn1 & Hp1 & Hf1 & Hl1 & Hm1 & Ho1 & _ & tasks1 & Ht1 & Hq1).
    destruct (reconcileStatus lower r pod (clock i) (c, started) cs)
      as [c1 started1]. cbn [fst snd] in *.
    destruct (IH (S i) c1 started1 Hn1)
      as (Hn2 & Hp2 & Hf2 & Hl2 & Hm2 & Ho2 & tasks2 & Ht2 & Hq2).
    split; [assumption|]. split; [congruence|]. split; [congruence|].
    split; [congruence|]. split; [|split].
    + intros name cr Hcr. destruct (Hm1 name cr Hcr) as (cr1 & Hcr1 & Hs1).
      destruct (Hm2 name cr1 Hcr1) as (cr2 & Hcr2 & Hs2).
      exists cr2. split; [assumption|]. now apply (seenAgain_trans cr cr1 cr2).
    + intros cs' key p Hin Hobs. apply elem_of_cons in Hin as [->|Hin].
      * destruct (Ho1 key p Hobs) as (cr1 & Hcr1 & Hin1).
        destruct (Hm2 key cr1 Hcr1) as (cr2 & Hcr2 & Hs2).
        exists cr2. split; [assumption|]. now apply Hs2.
      * now apply (Ho2 cs' key p).
    + exists (tasks1 ++ tasks2)%list. split.
      * rewrite Ht2, Ht1. now rewrite app_assoc.
      * intros t Hin. apply elem_of_app in Hin as [Hin|Hin]; auto.
Qed.

(** The loop, over statuses whose observations are all in the store. *)
Lemma reconcileStatuses_replay (r : PodReconciler) (pod : corev1.Pod)
    (clock : nat -> Z) (statuses : list corev1.ContainerStatus) :
  forall (i : nat) (c : Cluster) (started : list Enrichment),
    namedByKey c ->
    (forall containerStatus key podRef,
       containerStatus ∈ statuses ->
       observation lower pod containerStatus = Some (key, podRef) ->
       exists cr, infos c !! key = Some cr /\
                  podRef ∈ PodReferences (Status cr)) ->
    let out := reconcileStatuses lower r pod clock i statuses (c, started) in
    (forall name, referencesOf out.1 name = referencesOf c name) /\
    out.2 = started.
Proof.
  induction statuses as [|cs rest IH]; intros i c started Hn Hall;
    cbn [reconcileStatuses].
  - auto.
  - destruct (reconcileStatus_step r pod (clock i) c started cs Hn)
      as (Hn1 & _ & _ & _ & Hm1 & _ & Hre & _).
    assert ((forall name,
               referencesOf
                 (reconcileStatus lower r pod (clock i) (c, started) cs).1 name
               = referencesOf c name) /\
            (reconcileStatus lower r pod (clock i) (c, started) cs).2 = started)
      as [Hr1 Hs1].
    { destruct (observation lower pod cs) as [[key p]|] eqn:Eo.
      - destruct (Hall cs key p) as (cr & Hcr & Hin); [left|assumption|].
        now apply (Hre key p cr).
      - unfold reconcileStatus. unfold observation in Eo.
        destruct (String.eqb (corev1.ImageID cs) ""); [auto|].
        destruct (image.ParseImageID (corev1.ImageID cs)); [discriminate|auto]. }
    destruct (reconcileStatus lower r pod (clock i) (c, started) cs)
      as [c1 started1]. cbn [fst snd] in *. subst started1.
    destruct (IH (S i) c1 started Hn1) as [Hr2 Hs2].
    { intros cs' key p Hin Hobs.
      destruct (Hall cs' key p) as (cr & Hcr & Hp); [now right|assumption|].
      destruct (Hm1 key cr Hcr) as (cr1 & Hcr1 & Hsa).
      exists cr1. split; [assumption|]. now apply Hsa. }
    split; [|assumption]. intros name. now rewrite Hr2.
Qed.

End ReconcileFacts.

Section ReconcileMore.
Import v1alpha1 controller reconciler_spec.
Variable lower : string -> string.

Lemma Reconcile_running (r : PodReconciler) (clock : nat -> Z) (c : Cluster)
    (req : string * string) (pod : corev1.Pod) :
  GetPod c req = Ok pod ->
  corev1.Phase pod = corev1.PodRunning \/ corev1.Phase pod = corev1.PodPending ->
  Reconcile lower r clock c req =
  (reconcileStatuses lower r pod clock 0
     (corev1.ContainerStatuses pod ++ corev1.InitContainerStatuses pod)%list
     (c, []), None).
Proof.
  intros Hpod Hphase. unfold Reconcile. rewrite Hpod.
  assert (negb (String.eqb (corev1.Phase pod) corev1.PodRunning)
          && negb (String.eqb (corev1.Phase pod) corev1.PodPending) = false) as ->.
  { destruct Hphase as [-> | ->]; reflexivity. }
  destruct (reconcileStatuses _ _ _ _ _ _ _). reflexivity.
Qed.

Lemma Reconcile_cases (r : PodReconciler) (clock : nat -> Z) (c : Cluster)
    (req : string * string) :
  (Reconcile lower r clock c req).1 = (c, []) \/
  exists pod,
    GetPod c req = Ok pod /\
    (corev1.Phase pod = corev1.PodRunning \/
     corev1.Phase pod = corev1.PodPending).
Proof.
  unfold Reconcile. destruct (GetPod c req) as [pod|err].
  - destruct (String.eqb_spec (corev1.Phase pod) corev1.PodRunning) as [E|E].
    + right. exists pod. auto.
    + destruct (String.eqb_spec (corev1.Phase pod) corev1.PodPending) as [E'|E'].
      * right. exists pod. auto.
      * left. reflexivity.
  - left. destruct (IsNotFound err); reflexivity.
Qed.

Lemma Reconcile_trichotomy (c : Cluster) (req : string * string) :
  (exists err, GetPod c req = Err err /\
     forall r clock, Reconcile lower r clock c req =
                     (c, [], if IsNotFound err then None else Some err)) \/
  (exists pod, GetPod c req = Ok pod /\
     forall r clock, Reconcile lower r clock c req = (c, [], None)) \/
  (exists pod, GetPod c req = Ok pod /\
     (corev1.Phase pod = corev1.PodRunning \/
      corev1.Phase pod = corev1.PodPending)).
Proof.
  destruct (GetPod c req) as [pod|err] eqn:E.
  - destruct (String.eqb_spec (corev1.Phase pod) corev1.PodRunning) as [E1|E1];
      [right; right; exists pod; auto|].
    destruct (String.eqb_spec (corev1.Phase pod) corev1.PodPending) as [E2|E2];
      [right; right; exists pod; auto|].
    right. left. exists pod. split; [reflexivity|]. intros r clock.
    unfold Reconcile. rewrite E.
    destruct (String.eqb_spec (corev1.Phase pod) corev1.PodRunning);
      [contradiction|].
    destruct (String.eqb_spec (corev1.Phase pod) corev1.PodPending);
      [contradiction|]. reflexivity.
  - left. exists err. split; [reflexivity|]. intros r clock.
    unfold Reconcile. rewrite E. destruct (IsNotFound err); reflexivity.
Qed.

(** X9.  [Reconcile] hands an error to the work queue exactly when the
    read of the pod fails with an error other than not-found, and then,
    as for a pod that is gone or a pod that is neither Running nor
    Pending, it leaves the cluster as it is and starts no enrichment. *)
Theorem Reconcile_skips (r : PodReconciler) (clock : nat -> Z) (c : Cluster)
    (req : string * string) :
  (Reconcile lower r clock c req).2 =
    match GetPod c req with
    | Err err => if IsNotFound err then None else Some err
    | Ok _ => None
    end /\
  (forall err, GetPod c req = Err err ->
     (Reconcile lower r clock c req).1 = (c, [])) /\
  (forall pod, GetPod c req = Ok pod ->
     corev1.Phase pod <> corev1.PodRunning ->
     corev1.Phase pod <> corev1.PodPending ->
     Reconcile lower r clock c req = (c, [], None)).
Proof.
  unfold Reconcile. destruct (GetPod c req) as [pod|err].
  - split; [|split].
    + destruct (negb _ && negb _); [reflexivity|].
      destruct (reconcileStatuses _ _ _ _ _ _ _). reflexivity.
    + discriminate.
    + intros pod' [= <-] H1 H2.
      destruct (String.eqb_spec (corev1.Phase pod) corev1.PodRunning);
        [contradiction|].
      destruct (String.eqb_spec (corev1.Phase pod) corev1.PodPending);
        [contradiction|]. reflexivity.
  - split; [|split].
    + destruct (IsNotFound err); reflexivity.
    + intros _ _. destruct (IsNotFound err); reflexivity.
    + discriminate.
Qed.

(** X10.  A pass of [Reconcile] over a store filed by name keeps the
    store filed by name, does not touch the pods, and takes nothing
    away: every record is still there, the same but for the time it was
    last seen and for references that were added. *)
Theorem Reconcile_keeps_records (r : PodReconciler) (clock : nat -> Z)
    (c : Cluster) (req : string * string) :
  namedByKey c ->
  namedByKey (Reconcile lower r clock c req).1.1 /\
  pods (Reconcile lower r clock c req).1.1 = pods c /\
  podFailures (Reconcile lower r clock c req).1.1 = podFailures c /\
  forall name cr, infos c !! name = Some cr ->
    exists cr', infos (Reconcile lower r clock c req).1.1 !! name = Some cr' /\
                seenAgain cr cr'.
Proof.
  intros Hn. destruct (Reconcile_cases r clock c req) as [E|(pod & Hpod & Hph)].
  - rewrite E. cbn. repeat (split; [auto|]).
    intros name cr H. exists cr. split; [assumption|apply seenAgain_refl].
  - rewrite (Reconcile_running r clock c req pod Hpod Hph). cbn [fst snd].
    destruct (reconcileStatuses_loop lower r pod clock
                (corev1.ContainerStatuses pod ++ corev1.InitContainerStatuses pod)%list
                0 c [] Hn) as (H1 & H2 & H3 & _ & H5 & _).
    auto.
Qed.

(** X11.  After a pass of [Reconcile] for a Running or Pending pod,
    every container status of the pod, init containers included, whose
    image identifier parses has its record in the store, under the key
    of the image, and the record refers to the container. *)
Theorem Reconcile_records_every_container
    (r : PodReconciler) (clock : nat -> Z) (c : Cluster)
    (req : string * string) (pod : corev1.Pod)
    (containerStatus : corev1.ContainerStatus) (ref : image.Reference) :
  namedByKey c ->
  GetPod c req = Ok pod ->
  corev1.Phase pod = corev1.PodRunning \/ corev1.Phase pod = corev1.PodPending ->
  containerStatus ∈ corev1.ContainerStatuses pod \/
    containerStatus ∈ corev1.InitContainerStatuses pod ->
  corev1.ImageID containerStatus <> "" ->
  image.ParseImageID (corev1.ImageID containerStatus) = Ok ref ->
  exists cr,
    infos (Reconcile lower r clock c req).1.1
      !! image.ReferenceToCRName lower ref = Some cr /\
    {| Namespace := corev1.Namespace pod; Name := corev1.Name pod;
       Container := corev1.ContainerName containerStatus |}
      ∈ PodReferences (Status cr).
Proof.
  intros Hn Hpod Hph Hin Hne Hparse.
  rewrite (Reconcile_running r clock c req pod Hpod Hph). cbn [fst snd].
  destruct (reconcileStatuses_loop lower r pod clock
              (corev1.ContainerStatuses pod ++ corev1.InitContainerStatuses pod)%list
              0 c [] Hn) as (_ & _ & _ & _ & _ & Ho & _).
  apply (Ho containerStatus).
  - apply elem_of_app. exact Hin.
  - unfold observation. rewrite Hparse.
    destruct (String.eqb_spec (corev1.ImageID containerStatus) "");
      [contradiction|reflexivity].
Qed.

(** X12.  Observing the same pod a second time adds nothing: after a
    pass of [Reconcile], a further pass for the same request, at any
    later readings of the clock, leaves the references of every record
    as they are, creates no record and starts no enrichment. *)
Theorem Reconcile_replay (r r' : PodReconciler) (clock clock' : nat -> Z)
    (c : Cluster) (req : string * string) :
  namedByKey c ->
  let c1 := (Reconcile lower r clock c req).1.1 in
  (forall name,
     referencesOf (Reconcile lower r' clock' c1 req).1.1 name =
     referencesOf c1 name) /\
  (Reconcile lower r' clock' c1 req).1.2 = [] /\
  (Reconcile lower r' clock' c1 req).2 = (Reconcile lower r clock c req).2.
Proof.
  intros Hn c1. unfold c1. clear c1.
  destruct (Reconcile_trichotomy c req)
    as [(err & Herr & Hskip)|[(pod & Hpod & Hskip)|(pod & Hpod & Hph)]].
  - rewrite !Hskip. cbn [fst snd]. auto.
  - rewrite !Hskip. cbn [fst snd]. auto.
  - rewrite (Reconcile_running r clock c req pod Hpod Hph). cbn [fst snd].
    set (statuses :=
           (corev1.ContainerStatuses pod ++ corev1.InitContainerStatuses pod)%list).
    destruct (reconcileStatuses_loop lower r pod clock statuses 0 c [] Hn)
      as (Hn1 & Hp & Hf & _ & _ & Ho & _).
    set (c1 := (reconcileStatuses lower r pod clock 0 statuses (c, [])).1) in *.
    assert (GetPod c1 req = Ok pod) as Hpod1.
    { unfold GetPod in *. now rewrite Hp, Hf. }
    rewrite (Reconcile_running r' clock' c1 req pod Hpod1 Hph). cbn [fst snd].
    fold statuses.
    destruct (reconcileStatuses_replay lower r' pod clock' statuses 0 c1 [] Hn1)
      as [Hr Hs]; [exact Ho|].
    auto.
Qed.

End ReconcileMore.

Section StartedFacts.
Import v1alpha1 controller reconciler_spec.
Variable lower : string -> string.

(** The enrichments are started by [createImageCertificationInfo]
    alone, for a Red Hat registry and with a client set. *)
Lemma createImageCertificationInfo_started (r : PodReconciler) (now : Z)
    (c : Cluster) (ref : image.Reference) (crName : string)
    (podRef : PodReference) (t : Enrichment) :
  (createImageCertificationInfo lower r now c ref crName podRef).1.2 = Some t ->
  PyxisClient r <> None /\
  image.IsRedHatRegistry lower (image.Registry ref) = true /\
  t = {| enrichName := crName; enrichRef := ref |}.
Proof.
  unfold createImageCertificationInfo.
  destruct (Create c _) as [c1 [e1|]]; [discriminate|].
  destruct (StatusUpdate c1 _) as [c2 [e2|]]; [discriminate|].
  cbn. destruct (PyxisClient r); [|discriminate].
  destruct (image.IsRedHatRegistry lower (image.Registry ref)); [|discriminate].
  intros [= <-]. split; [discriminate|]. auto.
Qed.

Lemma reconcileStatus_started (r : PodReconciler) (pod : corev1.Pod) (now : Z)
    (c : Cluster) (started : list Enrichment) (cs : corev1.ContainerStatus) :
  Forall (eligible lower r) started ->
  Forall (eligible lower r) (reconcileStatus lower r pod now (c, started) cs).2.
Proof.
  intros Hs. unfold reconcileStatus.
  destruct (String.eqb (corev1.ImageID cs) ""); [assumption|].
  destruct (image.ParseImageID (corev1.ImageID cs)) as [ref|e]; [|assumption].
  destruct (GetInfo c _) as [existing|err].
  - destruct (updatePodReferences _ _ _ _) as [[c1 cr1] e1]. assumption.
  - destruct (IsNotFound err); [|assumption].
    match goal with
    | |- context [createImageCertificationInfo lower r now c ref ?n ?p] =>
        pose proof (createImageCertificationInfo_started r now c ref n p) as Ht;
        destruct (createImageCertificationInfo lower r now c ref n p)
          as [[c1 task] e1]
    end.
    cbn in *. apply Forall_app. split; [assumption|].
    destruct task as [t|]; [|constructor].
    destruct (Ht t eq_refl) as (H1 & H2 & ->).
    repeat constructor; assumption.
Qed.

Lemma reconcileStatuses_started (r : PodReconciler) (pod : corev1.Pod)
    (clock : nat -> Z) (statuses : list corev1.ContainerStatus) :
  forall (i : nat) (c : Cluster) (started : list Enrichment),
    Forall (eligible lower r) started ->
    Forall (eligible lower r)
      (reconcileStatuses lower r pod clock i statuses (c, started)).2.
Proof.
  induction statuses as [|cs rest IH]; intros i c started Hs;
    cbn [reconcileStatuses]; [assumption|].
  pose proof (reconcileStatus_started r pod (clock i) c started cs Hs) as H1.
  destruct (reconcileStatus lower r pod (clock i) (c, started) cs) as [c1 s1].
  now apply IH.
Qed.

End StartedFacts.

Section Started.
Import v1alpha1 controller reconciler_spec.
Variable lower : string -> string.

(** X13.  [Reconcile] starts an enrichment only with a certification
    client set and only for an image of a Red Hat registry; the
    enrichment is for the record under the key of that image. *)
Theorem Reconcile_enrichment_eligible (r : PodReconciler) (clock : nat -> Z)
    (c : Cluster) (req : string * string) (t : Enrichment) :
  t ∈ (Reconcile lower r clock c req).1.2 ->
  PyxisClient r <> None /\
  image.IsRedHatRegistry lower (image.Registry (enrichRef t)) = true /\
  enrichName t = image.ReferenceToCRName lower (enrichRef t).
Proof.
  unfold Reconcile. destruct (GetPod c req) as [pod|err].
  - destruct (negb _ && negb _); [intros H; inversion H|].
    pose proof (reconcileStatuses_started lower r pod clock
                  (corev1.ContainerStatuses pod ++ corev1.InitContainerStatuses pod)%list
                  0 c [] (Forall_nil_2 _)) as Hall.
    destruct (reconcileStatuses _ _ _ _ _ _ _) as [c1 started]. cbn in *.
    intros Hin. rewrite Forall_forall in Hall. now apply Hall.
  - destruct (IsNotFound err); intros H; inversion H.
Qed.

End Started.

(** ** More on the reconciler: enrichment and cleanup *)

Section EnrichmentFacts.
Import v1alpha1 controller reconciler_spec.
Variable timeParse : string -> string -> option Z.
Variable durationDays : Z -> Z.

Lemma fold_recordEvent_frame (es : list Event) (c : Cluster) :
  infos (fold_left recordEvent es c) = infos c /\
  pods (fold_left recordEvent es c) = pods c /\
  podFailures (fold_left recordEvent es c) = podFailures c /\
  listFailure (fold_left recordEvent es c) = listFailure c.
Proof.
  revert c. induction es as [|e es IH]; intros c; cbn; [auto|].
  destruct (IH (recordEvent c e)) as (-> & -> & -> & ->). auto.
Qed.

(** What [checkPyxisCertification] does with the client set and the
    record in the store. *)
Lemma checkPyxisCertification_stored
    (r : PodReconciler) (get : pyxis.Client) (now tSince tUntil : Z)
    (c : Cluster) (crName : string) (ref : image.Reference)
    (cr : ImageCertificationInfo) :
  PyxisClient r = Some get ->
  infos c !! crName = Some cr ->
  ObjectName cr = crName ->
  let c' := checkPyxisCertification timeParse durationDays r now tSince tUntil
              c crName ref in
  infos c' =
    <[crName := enriched timeParse durationDays now tSince tUntil cr
                  (get (image.Registry ref) (image.Repository ref)
                     (image.Digest ref))]> (infos c) /\
  pods c' = pods c /\ podFailures c' = podFailures c /\
  listFailure c' = listFailure c.
Proof.
  intros Hr Hcr Hname c'.
  set (P := fun k : Cluster =>
              infos k =
                <[crName := enriched timeParse durationDays now tSince tUntil cr
                              (get (image.Registry ref) (image.Repository ref)
                                 (image.Digest ref))]> (infos c) /\
              pods k = pods c /\ podFailures k = podFailures c /\
              listFailure k = listFailure c).
  change (P c'). unfold c'. clear c'. unfold checkPyxisCertification.
  rewrite Hr. unfold GetInfo at 1. rewrite Hcr.
  destruct (get _ _ _) as [[certData|]|err].
  - set (st := certifiedStatus _ _ _ _ _ _).
    pose proof (fold_recordEvent_frame
                  (certificationEvents timeParse durationDays r tUntil
                     (ObjectName cr) certData) c) as Hframe.
    revert Hframe. generalize (fold_left recordEvent
                  (certificationEvents timeParse durationDays r tUntil
                     (ObjectName cr) certData) c).
    intros c0 (Hi0 & Hp0 & Hf0 & Hl0).
    assert (infos (StatusUpdate c0 (setStatus cr st)).1 =
            <[crName := setStatus cr st]> (infos c) /\
            pods (StatusUpdate c0 (setStatus cr st)).1 = pods c /\
            podFailures (StatusUpdate c0 (setStatus cr st)).1 = podFailures c /\
            listFailure (StatusUpdate c0 (setStatus cr st)).1 = listFailure c)
      as H1.
    { unfold StatusUpdate. cbn [setStatus ObjectName logStatusWrite infos].
      rewrite Hi0, Hname, Hcr. cbn. auto. }
    revert H1. generalize (StatusUpdate c0 (setStatus cr st)).1.
    intros c1 (H1 & Hp1 & Hf1 & Hl1).
    unfold P, enriched.
    destruct (0 <? length (pyxis.CVEs certData))%nat.
    + unfold GetInfo. rewrite H1, lookup_insert_eq.
      unfold Update. cbn [ObjectName setStatus Annotations Spec Status].
      rewrite Hname, H1, lookup_insert_eq.
      cbn [fst setInfos infos pods podFailures listFailure].
      rewrite insert_insert_eq. auto.
    + auto.
  - unfold P, enriched, StatusUpdate.
    cbn [setStatus ObjectName logStatusWrite infos].
    rewrite Hname, Hcr. cbn. auto.
  - unfold P, enriched, StatusUpdate.
    cbn [setStatus ObjectName logStatusWrite infos].
    rewrite Hname, Hcr. cbn. auto.
Qed.

Lemma checkPyxisCertification_idle
    (r : PodReconciler) (now tSince tUntil : Z)
    (c : Cluster) (crName : string) (ref : image.Reference) :
  PyxisClient r = None \/ infos c !! crName = None ->
  checkPyxisCertification timeParse durationDays r now tSince tUntil
    c crName ref = c.
Proof.
  unfold checkPyxisCertification, GetInfo.
  intros [-> | H]; [reflexivity|].
  destruct (PyxisClient r); [|reflexivity]. now rewrite H.
Qed.

End EnrichmentFacts.

Section EnrichmentMore.
Import v1alpha1 controller reconciler_spec.
Variable timeParse : string -> string -> option Z.
Variable durationDays : Z -> Z.

(** X14.  [checkPyxisCertification] works on the one record it is
    called for.  Over a store filed by name, the store stays filed by
    name, the pods and every other record are untouched, and no record is
    added or removed; without a client, or without the record, the
    cluster is left exactly as it is.  Of the record itself the name,
    the specification, the pod references, the registry type, the times
    it was first and last seen and the conditions stay as they are. *)
Theorem checkPyxisCertification_frame
    (r : PodReconciler) (now tSince tUntil : Z) (c : Cluster)
    (crName : string) (ref : image.Reference) :
  namedByKey c ->
  let c' := checkPyxisCertification timeParse durationDays r now tSince tUntil
              c crName ref in
  namedByKey c' /\
  pods c' = pods c /\
  (forall name, name <> crName -> infos c' !! name = infos c !! name) /\
  (PyxisClient r = None \/ infos c !! crName = None -> c' = c) /\
  (forall cr, infos c !! crName = Some cr ->
     exists cr', infos c' !! crName = Some cr' /\
       ObjectName cr' = ObjectName cr /\
       Spec cr' = Spec cr /\
       PodReferences (Status cr') = PodReferences (Status cr) /\
       RegistryType_ (Status cr') = RegistryType_ (Status cr) /\
       FirstSeenAt (Status cr') = FirstSeenAt (Status cr) /\
       LastSeenAt (Status cr') = LastSeenAt (Status cr) /\
       Conditions (Status cr') = Conditions (Status cr)).
Proof.
  intros Hn c'.
  assert (PyxisClient r = None \/ infos c !! crName = None -> c' = c) as Hidle.
  { apply checkPyxisCertification_idle. }
  destruct (PyxisClient r) as [get|] eqn:Hr.
  2:{ rewrite Hidle by now left. repeat (split; [auto|]).
      intros cr Hcr. exists cr. repeat split; auto. }
  destruct (infos c !! crName) as [cr|] eqn:Hcr.
  2:{ rewrite Hidle by now right. repeat (split; [auto|]).
      intros cr H. discriminate. }
  assert (ObjectName cr = crName) as Hname by now apply Hn in Hcr.
  destruct (checkPyxisCertification_stored timeParse durationDays r get
              now tSince tUntil c crName ref cr Hr Hcr Hname)
    as (Hi & Hp & _).
  fold c' in Hi, Hp.
  set (cr' := enriched timeParse durationDays now tSince tUntil cr
                (get (image.Registry ref) (image.Repository ref)
                   (image.Digest ref))) in *.
  assert (ObjectName cr' = ObjectName cr /\
          Spec cr' = Spec cr /\
          PodReferences (Status cr') = PodReferences (Status cr) /\
          RegistryType_ (Status cr') = RegistryType_ (Status cr) /\
          FirstSeenAt (Status cr') = FirstSeenAt (Status cr) /\
          LastSeenAt (Status cr') = LastSeenAt (Status cr) /\
          Conditions (Status cr') = Conditions (Status cr)) as Hfields.
  { unfold cr', enriched. destruct (get _ _ _) as [[d|]|e]; cbn; repeat split. }
  split. { apply (namedByKey_insert c c' crName cr'); try assumption.
           destruct Hfields as [-> _]. assumption. }
  split; [assumption|]. split.
  { intros name Hne. rewrite Hi. apply lookup_insert_ne. congruence. }
  split; [assumption|].
  intros cr0 [= <-]. exists cr'. split; [|assumption].
  rewrite Hi. apply lookup_insert_eq.
Qed.

(** X15.  The CVE annotation follows the status: when the answer of
    the client lists CVEs, the annotation
    [security.telco.openshift.io/cves] of the record becomes their list,
    joined by commas, and the other annotations stay; on every other
    answer, the data without CVEs included, the annotations stay as
    they were, an older list of CVEs with them. *)
Theorem checkPyxisCertification_cve_annotation
    (r : PodReconciler) (get : pyxis.Client) (now tSince tUntil : Z)
    (c : Cluster) (crName : string) (ref : image.Reference)
    (cr : ImageCertificationInfo) :
  PyxisClient r = Some get ->
  infos c !! crName = Some cr ->
  ObjectName cr = crName ->
  exists cr',
    infos (checkPyxisCertification timeParse durationDays r now tSince tUntil
             c crName ref) !! crName = Some cr' /\
    Annotations cr' =
      match get (image.Registry ref) (image.Repository ref) (image.Digest ref) with
      | Ok (Some certData) =>
          match pyxis.CVEs certData with
          | [] => Annotations cr
          | _ :: _ =>
              <["security.telco.openshift.io/cves" :=
                  String.concat "," (pyxis.CVEs certData)]> (Annotations cr)
          end
      | _ => Annotations cr
      end.
Proof.
  intros Hr Hcr Hname.
  destruct (checkPyxisCertification_stored timeParse durationDays r get
              now tSince tUntil c crName ref cr Hr Hcr Hname) as (Hi & _).
  eexists. split; [rewrite Hi; apply lookup_insert_eq|].
  unfold enriched. destruct (get _ _ _) as [[d|]|e]; cbn; try reflexivity.
  destruct (pyxis.CVEs d); reflexivity.
Qed.

(** X16.  The payload and the fields computed from it are renewed
    only by an answer with data.  An absent answer and an error leave
    the payload, the image age and the days until end of life as they
    were.  An answer with data stores a payload with the publication
    date and the end-of-life date read from the answer: the first as
    RFC 3339, the second as RFC 3339 or else as a plain day.  The image
    age becomes [formatDuration] of the time since that publication
    date, and the days until end of life the whole days until that
    end-of-life date; each of the two keeps its previous value when the
    date of the answer is empty or cannot be read. *)
Theorem checkPyxisCertification_computed_fields
    (r : PodReconciler) (get : pyxis.Client) (now tSince tUntil : Z)
    (c : Cluster) (crName : string) (ref : image.Reference)
    (cr : ImageCertificationInfo) :
  PyxisClient r = Some get ->
  infos c !! crName = Some cr ->
  ObjectName cr = crName ->
  exists cr',
    infos (checkPyxisCertification timeParse durationDays r now tSince tUntil
             c crName ref) !! crName = Some cr' /\
    match get (image.Registry ref) (image.Repository ref) (image.Digest ref) with
    | Ok (Some certData) =>
        let published :=
          if String.eqb (pyxis.PublishedAt certData) "" then None
          else timeParse "2006-01-02T15:04:05Z07:00"
                 (pyxis.PublishedAt certData) in
        let eol :=
          if String.eqb (pyxis.EOLDate certData) "" then None
          else
            match timeParse "2006-01-02T15:04:05Z07:00"
                    (pyxis.EOLDate certData) with
            | Some eolTime => Some eolTime
            | None => timeParse "2006-01-02" (pyxis.EOLDate certData)
            end in
        (exists data,
           PyxisData_ (Status cr') = Some data /\
           PublishedAt data = published /\
           EOLDate data = eol) /\
        ImageAge (Status cr') =
          match published with
          | Some publishedTime =>
              formatDuration durationDays (tSince - publishedTime)
          | None => ImageAge (Status cr)
          end /\
        DaysUntilEOL (Status cr') =
          match eol with
          | Some eolTime => Some (durationDays (eolTime - tUntil))
          | None => DaysUntilEOL (Status cr)
          end
    | _ =>
        PyxisData_ (Status cr') = PyxisData_ (Status cr) /\
        ImageAge (Status cr') = ImageAge (Status cr) /\
        DaysUntilEOL (Status cr') = DaysUntilEOL (Status cr)
    end.
Proof.
  intros Hr Hcr Hname.
  destruct (checkPyxisCertification_stored timeParse durationDays r get
              now tSince tUntil c crName ref cr Hr Hcr Hname) as (Hi & _).
  eexists. split; [rewrite Hi; apply lookup_insert_eq|].
  unfold enriched. destruct (get _ _ _) as [[d|]|e].
  - cbv zeta. unfold certifiedStatus, newPyxisData, formatDuration.
    cbn [Status PyxisData_ ImageAge DaysUntilEOL PublishedAt EOLDate
         setLastPyxisCheckAt].
    split; [|split; reflexivity].
    eexists. split; [reflexivity|]. split; reflexivity.
  - cbn. auto.
  - cbn. auto.
Qed.

End EnrichmentMore.

Section CleanupMoreFacts.
Import v1alpha1 controller reconciler_spec.

Lemma cleanupRecord_pods (c : Cluster) (cr : ImageCertificationInfo) :
  pods (cleanupRecord c cr) = pods c /\
  podFailures (cleanupRecord c cr) = podFailures c /\
  listFailure (cleanupRecord c cr) = listFailure c.
Proof.
  unfold cleanupRecord. destruct (negb _); [|auto].
  unfold StatusUpdate. cbn [ObjectName setStatus logStatusWrite infos].
  destruct (infos c !! ObjectName cr); cbn; auto.
Qed.

Lemma cleanup_fold_pods (items : list ImageCertificationInfo) (c : Cluster) :
  pods (fold_left cleanupRecord items c) = pods c /\
  podFailures (fold_left cleanupRecord items c) = podFailures c /\
  listFailure (fold_left cleanupRecord items c) = listFailure c.
Proof.
  revert c. induction items as [|cr items IH]; intros c; cbn; [auto|].
  destruct (IH (cleanupRecord c cr)) as (-> & -> & ->).
  apply cleanupRecord_pods.
Qed.

(** A record all of whose references are kept is passed over. *)
Lemma cleanupRecord_clean (c : Cluster) (cr : ImageCertificationInfo) :
  forallb (keepReference c) (PodReferences (Status cr)) = true ->
  cleanupRecord c cr = c.
Proof.
  intros H. unfold cleanupRecord. rewrite filter_shrinks.
  assert (existsb (fun x => negb (keepReference c x))
            (PodReferences (Status cr)) = false) as ->; [|reflexivity].
  induction (PodReferences (Status cr)) as [|p l IH]; cbn in *; [reflexivity|].
  apply andb_prop in H as [-> Hl]. cbn. now apply IH.
Qed.

Lemma cleanup_fold_clean (items : list ImageCertificationInfo) (c : Cluster) :
  (forall cr, cr ∈ items ->
     forallb (keepReference c) (PodReferences (Status cr)) = true) ->
  fold_left cleanupRecord items c = c.
Proof.
  induction items as [|cr items IH]; intros H; cbn; [reflexivity|].
  rewrite cleanupRecord_clean by (apply H; left).
  apply IH. intros cr' Hin. apply H. now right.
Qed.

(** The store after a pass, by name. *)
Lemma CleanupStaleReferences_infos (c : Cluster) :
  namedByKey c -> listFailure c = None ->
  infos (CleanupStaleReferences c).1 = withoutStale c <$> infos c.
Proof.
  intros Hn Hl. unfold CleanupStaleReferences, ListInfos. rewrite Hl. cbn.
  destruct (cleanup_loop c (map snd (map_to_list (infos c))) c eq_refl eq_refl)
    as (Ha & Hb & _).
  { rewrite items_names by assumption. apply NoDup_fst_map_to_list. }
  { intros cr Hcr. now apply items_elem. }
  apply map_eq. intros name. rewrite lookup_fmap.
  destruct (infos c !! name) as [cr|] eqn:E; cbn.
  - assert (ObjectName cr = name) as Hname by now apply Hn in E.
    rewrite <- Hname. apply Ha. apply items_elem; [assumption|].
    now rewrite Hname.
  - rewrite Hb; [assumption|].
    rewrite items_names by assumption. intros Hin.
    apply list_elem_of_fmap in Hin as ([k v] & -> & Hin).
    apply elem_of_map_to_list in Hin. cbn in E. congruence.
Qed.

End CleanupMoreFacts.

Section CleanupMore.
Import v1alpha1 controller reconciler_spec.

(** X17.  A cleanup pass does not touch the pods and keeps the store
    filed by name, and a second pass right after it finds nothing to do:
    it returns the cluster as the first pass left it, without a single
    status update. *)
Theorem CleanupStaleReferences_idempotent (c : Cluster) :
  namedByKey c ->
  listFailure c = None ->
  let c1 := (CleanupStaleReferences c).1 in
  pods c1 = pods c /\
  namedByKey c1 /\
  CleanupStaleReferences c1 = (c1, None).
Proof.
  intros Hn Hl c1.
  pose proof (CleanupStaleReferences_infos c Hn Hl) as Hi. fold c1 in Hi.
  assert (pods c1 = pods c /\ podFailures c1 = podFailures c /\
          listFailure c1 = listFailure c) as (Hp & Hf & Hl1).
  { unfold c1, CleanupStaleReferences, ListInfos.
    destruct (listFailure c) eqn:E; [discriminate|]. cbn.
    rewrite <- E. apply cleanup_fold_pods. }
  split; [assumption|].
  assert (namedByKey c1) as Hn1.
  { unfold namedByKey. rewrite Hi. apply map_Forall_fmap.
    intros name cr Hcr. cbn. now apply Hn in Hcr. }
  split; [assumption|].
  unfold CleanupStaleReferences, ListInfos. rewrite Hl1, Hl.
  rewrite cleanup_fold_clean; [reflexivity|].
  intros cr1 Hin. apply items_elem in Hin; [|assumption].
  rewrite Hi, lookup_fmap in Hin.
  destruct (infos c !! ObjectName cr1) as [cr|]; [|discriminate].
  cbn in Hin. injection Hin as <-.
  unfold withoutStale. cbn. apply forallb_forall. intros p Hp'.
  apply filter_In in Hp' as [_ Hk].
  rewrite (keepReference_same c c1) by assumption.
  now rewrite keepReference_confirmedAbsent.
Qed.

End CleanupMore.

(** * The secret reader *)

Section SecretReader.
Import secrets.

(** X18.  [ReadAPIKey] returns a value exactly when the three arguments
    are not empty, the secret can be read, and its data have the key;
    the value is the one stored under the key.  With an empty argument it
    fails whatever the cluster holds. *)
Theorem ReadAPIKey_value (s : SecretStore) (namespace secretName secretKey : string) :
  (forall value,
     ReadAPIKey s namespace secretName secretKey = Ok value <->
     namespace <> "" /\ secretName <> "" /\ secretKey <> "" /\
     secretFailures s !! (namespace, secretName) = None /\
     exists data, secretData s !! (namespace, secretName) = Some data /\
                  data !! secretKey = Some value) /\
  (namespace = "" \/ secretName = "" \/ secretKey = "" ->
   ReadAPIKey s namespace secretName secretKey = Err MissingArgument).
Proof.
  unfold ReadAPIKey, GetSecret. split.
  - intros value.
    destruct (String.eqb_spec namespace "") as [->|Hn]; cbn [orb].
    { split; [discriminate|]. intros (H & _). now contradiction H. }
    destruct (String.eqb_spec secretName "") as [->|Hs]; cbn [orb].
    { split; [discriminate|]. intros (_ & H & _). now contradiction H. }
    destruct (String.eqb_spec secretKey "") as [->|Hk]; cbn [orb].
    { split; [discriminate|]. intros (_ & _ & H & _). now contradiction H. }
    destruct (secretFailures s !! (namespace, secretName)) as [msg|].
    { split; [discriminate|]. intros (_ & _ & _ & H & _). discriminate. }
    destruct (secretData s !! (namespace, secretName)) as [data|].
    + destruct (data !! secretKey) as [v|] eqn:E.
      * split.
        -- intros [= <-]. repeat (split; [assumption || reflexivity|]).
           exists data. now split.
        -- intros (_ & _ & _ & _ & data' & [= <-] & Hv).
           rewrite E in Hv. now injection Hv as <-.
      * split; [discriminate|].
        intros (_ & _ & _ & _ & data' & [= <-] & Hv). congruence.
    + split; [discriminate|].
      intros (_ & _ & _ & _ & data' & Hd & _). discriminate.
  - intros [-> | [-> | ->]].
    + reflexivity.
    + now rewrite orb_true_r.
    + now rewrite orb_true_r.
Qed.

End SecretReader.

(** * The Pyxis client *)

Section PyxisConversionFacts.
Import pyxiswire pyxisclient pyxis_spec.

Lemma existsb_eqb (key : string) (set : list string) :
  existsb (String.eqb key) set = true <-> In key set.
Proof.
  rewrite existsb_exists. split.
  - intros (x & Hx & E). apply String.eqb_eq in E. now subst.
  - intros H. exists key. split; [assumption|apply String.eqb_refl].
Qed.

Lemma setAdd_In (key a : string) (set : list string) :
  In a (setAdd key set) <-> a = key \/ In a set.
Proof.
  unfold setAdd. destruct (existsb (String.eqb key) set) eqn:E.
  - apply existsb_eqb in E. split; [now right|]. now intros [->|].
  - rewrite in_app_iff. cbn. split.
    + intros [H|[H|[]]]; [now right|now left].
    + intros [->|H]; [right; now left|now left].
Qed.

Lemma setAdd_NoDup (key : string) (set : list string) :
  List.NoDup set -> List.NoDup (setAdd key set).
Proof.
  intros H. unfold setAdd. destruct (existsb (String.eqb key) set) eqn:E.
  - assumption.
  - apply NoDup_ListNoDup. apply NoDup_app. split; [now apply NoDup_ListNoDup|].
    split.
    + intros x Hx Hk. apply list_elem_of_singleton in Hk as ->.
      apply list_elem_of_In in Hx. apply existsb_eqb in Hx. congruence.
    + apply NoDup_singleton.
Qed.

Lemma mapGet_mapSet (key k value : string) (m : list (string * string)) :
  mapGet k (mapSet key value m) =
  if String.eqb key k then Some value else mapGet k m.
Proof.
  induction m as [|[k' v'] m IH]; cbn.
  - reflexivity.
  - destruct (String.eqb_spec k' key) as [->|Hne]; cbn.
    + destruct (String.eqb_spec key k); reflexivity.
    + rewrite IH. destruct (String.eqb_spec k' k) as [->|Hk].
      * destruct (String.eqb_spec key k) as [->|]; [now contradiction Hne|].
        reflexivity.
      * reflexivity.
Qed.

Lemma extractArchitectureHealth_snoc grades g :
  extractArchitectureHealth (grades ++ [g]) =
  if negb (String.eqb (Architecture g) "")
     && negb (String.eqb (StreamGrade g) "")
  then mapSet (Architecture g) (StreamGrade g)
         (extractArchitectureHealth grades)
  else extractArchitectureHealth grades.
Proof. unfold extractArchitectureHealth. now rewrite fold_left_app. Qed.

Lemma lastGrade_snoc_other grades g arch grade :
  (Architecture g = arch -> StreamGrade g = "") ->
  lastGrade (grades ++ [g]) arch grade /\ grade <> "" <->
  lastGrade grades arch grade /\ grade <> "".
Proof.
  intros Hg. split; intros [(before & g0 & after & E & Ha & Hv & Hlast) Hne];
    (split; [|assumption]).
  - destruct after as [|h after _] using rev_ind.
    + apply app_inj_tail in E as [_ <-]. specialize (Hg Ha). congruence.
    + rewrite app_comm_cons, app_assoc in E.
      apply app_inj_tail in E as [-> ->].
      exists before, g0, after. repeat split; try assumption.
      intros h' Hin. apply Hlast. apply in_or_app. now left.
  - exists before, g0, (after ++ [g])%list. subst grades.
    rewrite <- app_assoc. repeat split; try assumption.
    intros h' Hin Hh. apply in_app_or in Hin as [Hin|[<-|[]]].
    + now apply Hlast.
    + now apply Hg.
Qed.

Lemma lastGrade_snoc_same grades g arch grade :
  Architecture g = arch -> StreamGrade g <> "" ->
  lastGrade (grades ++ [g]) arch grade /\ grade <> "" <->
  grade = StreamGrade g.
Proof.
  intros Ha Hv. split.
  - intros [(before & g0 & after & E & Ha0 & Hv0 & Hlast) Hne].
    destruct after as [|h after _] using rev_ind.
    + apply app_inj_tail in E as [_ <-]. now symmetry.
    + rewrite app_comm_cons, app_assoc in E.
      apply app_inj_tail in E as [_ ->].
      contradiction Hv. apply Hlast; [|assumption].
      apply in_or_app. right. now left.
  - intros ->. split; [|assumption].
    exists grades, g, []. repeat split; try assumption. intros h [].
Qed.

Lemma unlessSet_empty (current : string) : unlessSet current "" = current.
Proof. unfold unlessSet. now destruct (String.eqb_spec current "") as [->|]. Qed.

Lemma extractPublisherInfo_labels labels certData :
  extractPublisherInfo (Some {| Labels := labels |}) certData =
  setProjectID
    (setPublisher certData
       (unlessSet (pyxis.Publisher certData)
          (firstValue ["vendor"; "maintainer"] labels)))
    (unlessSet (pyxis.ProjectID certData)
       (firstValue ["com.redhat.component"] labels)).
Proof.
  unfold extractPublisherInfo. cbn [Labels].
  revert certData. induction labels as [|label labels IH]; intros certData.
  - unfold firstValue. cbn [fold_left find]. rewrite !unlessSet_empty.
    now destruct certData.
  - cbn [fold_left]. rewrite IH. clear IH.
    unfold unlessSet, firstValue. cbn [find existsb].
    destruct certData as [pid pub]; cbn [pyxis.Publisher pyxis.ProjectID].
    destruct (String.eqb_spec (Name label) "vendor") as [Ev|Ev];
      [|destruct (String.eqb_spec (Name label) "maintainer") as [Em|Em]];
      cbn [orb andb].
    1,2: assert (String.eqb (Name label) "com.redhat.component" = false)
           as -> by (rewrite ?Ev, ?Em; reflexivity); cbn [orb andb].
    1,2: destruct (String.eqb_spec pub "") as [->|Hp];
         cbn [setPublisher setProjectID pyxis.Publisher pyxis.ProjectID];
         [destruct (String.eqb_spec (Value label) "") as [->|Hv];
          cbn [negb]; reflexivity|];
         destruct (String.eqb_spec pub ""); [contradiction|reflexivity].
    destruct (String.eqb_spec (Name label) "com.redhat.component") as [Ec|Ec];
      cbn [orb andb].
    + destruct (String.eqb_spec pid "") as [->|Hp];
        cbn [setPublisher setProjectID pyxis.Publisher pyxis.ProjectID];
        [destruct (String.eqb_spec (Value label) "") as [->|Hv];
         cbn [negb]; reflexivity|].
      destruct (String.eqb_spec pid ""); [contradiction|reflexivity].
    + reflexivity.
Qed.

Lemma archSet_fold (grades : list PyxisContentStreamGrade) (acc : list string) :
  List.NoDup acc ->
  let archSet :=
    fold_left
      (fun archSet grade =>
         if negb (String.eqb (Architecture grade) "")
         then setAdd (Architecture grade) archSet else archSet)
      grades acc in
  List.NoDup archSet /\
  forall arch, In arch archSet <->
    In arch acc \/
    (arch <> "" /\ exists grade, In grade grades /\ Architecture grade = arch).
Proof.
  revert acc. induction grades as [|g grades IH]; intros acc Hacc; cbn.
  - split; [assumption|]. intros arch. split; [now left|].
    intros [H|(_ & g & [] & _)]. assumption.
  - destruct (String.eqb_spec (Architecture g) "") as [E|E]; cbn [negb].
    + destruct (IH acc Hacc) as [Hnd Hin]. split; [assumption|].
      intros arch. rewrite Hin. split.
      * intros [H|(Hne & g' & Hg' & Ha)]; [now left|].
        right. split; [assumption|]. exists g'. split; [now right|assumption].
      * intros [H|(Hne & g' & [<-|Hg'] & Ha)]; [now left| |].
        -- congruence.
        -- right. split; [assumption|]. now exists g'.
    + destruct (IH _ (setAdd_NoDup (Architecture g) acc Hacc)) as [Hnd Hin].
      split; [assumption|].
      intros arch. rewrite Hin, setAdd_In. split.
      * intros [[->|H]|(Hne & g' & Hg' & Ha)].
        -- right. split; [assumption|]. exists g. split; [now left|reflexivity].
        -- now left.
        -- right. split; [assumption|]. exists g'. split; [now right|assumption].
      * intros [H|(Hne & g' & [<-|Hg'] & Ha)].
        -- left. now right.
        -- left. now left.
        -- right. split; [assumption|]. now exists g'.
Qed.

Lemma extractPublisherInfo_sets parsedData certData :
  exists publisher projectID,
    extractPublisherInfo parsedData certData =
    setProjectID (setPublisher certData publisher) projectID.
Proof.
  destruct parsedData as [[labels]|].
  - eexists _, _. apply extractPublisherInfo_labels.
  - exists (pyxis.Publisher certData), (pyxis.ProjectID certData).
    now destruct certData.
Qed.

End PyxisConversionFacts.

Section PyxisConversion.
Import pyxiswire pyxisclient pyxis_spec.

Variable baseURL : string.
Variable QueryEscape : string -> string.
Variable rangeOrder : list string -> list string.
Variable fetchAndParseResponse :
  string -> result string (option PyxisImageResponse).
Variable getRepositoryInfo : string -> string -> option RepositoryInfo.
Variable getVulnerabilitiesWithAdvisories : string -> list string * list string.

Let convert :=
  convertToCertificationData rangeOrder getRepositoryInfo
    getVulnerabilitiesWithAdvisories.
Let query :=
  queryAndParse rangeOrder fetchAndParseResponse getRepositoryInfo
    getVulnerabilitiesWithAdvisories.

(** X19.  Whatever order the map of architectures is walked in,
    [extractArchitectures] lists every architecture once: the names that
    are not empty and occur in the grades, without repetition. *)
Theorem extractArchitectures_distinct (grades : list PyxisContentStreamGrade) :
  (forall keys, Permutation (rangeOrder keys) keys) ->
  List.NoDup (extractArchitectures rangeOrder grades) /\
  forall arch,
    In arch (extractArchitectures rangeOrder grades) <->
    arch <> "" /\ exists grade, In grade grades /\ Architecture grade = arch.
Proof.
  intros Hperm. unfold extractArchitectures.
  destruct (archSet_fold grades [] (List.NoDup_nil _)) as [Hnd Hin].
  cbv zeta in *. split.
  - eapply Permutation_NoDup; [|exact Hnd]. symmetry. apply Hperm.
  - intros arch. split; intros H.
    + apply (Permutation_in _ (Hperm _)) in H.
      apply Hin in H as [[]|H]. exact H.
    + eapply Permutation_in; [symmetry; apply Hperm|].
      apply Hin. now right.
Qed.

(** X20.  In the map of [extractArchitectureHealth] an architecture has
    the grade of its last entry that carries one: entries without an
    architecture or without a grade are skipped, and a later grade
    replaces an earlier one. *)
Theorem extractArchitectureHealth_last_wins
    (grades : list PyxisContentStreamGrade) (arch grade : string) :
  mapGet arch (extractArchitectureHealth grades) = Some grade <->
  arch <> "" /\ (lastGrade grades arch grade /\ grade <> "").
Proof.
  revert grade. induction grades as [|g grades IH] using rev_ind; intros grade.
  - cbn. split; [discriminate|].
    intros (_ & (before & g & after & E & _) & _).
    now destruct before.
  - rewrite extractArchitectureHealth_snoc.
    destruct (String.eqb_spec (Architecture g) "") as [Ea|Ea]; cbn [negb andb].
    { rewrite IH. destruct (String.eqb_spec arch "") as [->|Hne].
      - split; intros [H _]; now contradiction H.
      - rewrite lastGrade_snoc_other; [reflexivity|]. congruence. }
    destruct (String.eqb_spec (StreamGrade g) "") as [Eg|Eg]; cbn [negb].
    { rewrite IH. now rewrite lastGrade_snoc_other. }
    rewrite mapGet_mapSet.
    destruct (String.eqb_spec (Architecture g) arch) as [Eq|Eq].
    + rewrite (lastGrade_snoc_same grades g arch grade Eq Eg). split.
      * intros [= <-]. split; [congruence|reflexivity].
      * now intros [_ ->].
    + rewrite IH. rewrite lastGrade_snoc_other; [reflexivity|].
      intros H. now contradiction Eq.
Qed.

(** X21.  [extractPublisherInfo] changes the publisher and the project
    only: a publisher that is empty becomes the first value, not empty,
    of a [vendor] or [maintainer] label, a project that is empty the
    first such value of a [com.redhat.component] label; a field that is
    set already, or for which no label has a value, stays as it is. *)
Theorem extractPublisherInfo_first_value
    (parsedData : option PyxisImageParsedData)
    (certData : pyxis.CertificationData) :
  let labels :=
    match parsedData with Some parsed => Labels parsed | None => [] end in
  extractPublisherInfo parsedData certData =
  setProjectID
    (setPublisher certData
       (unlessSet (pyxis.Publisher certData)
          (firstValue ["vendor"; "maintainer"] labels)))
    (unlessSet (pyxis.ProjectID certData)
       (firstValue ["com.redhat.component"] labels)).
Proof.
  destruct parsedData as [[labels]|]; cbn [Labels].
  - apply extractPublisherInfo_labels.
  - unfold firstValue. cbn [find extractPublisherInfo].
    rewrite !unlessSet_empty. now destruct certData.
Qed.

(** X22.  What [GetImageCertification] answers comes from the two image
    queries, the one by manifest list digest being tried only after the
    one by image id gave nothing.  Data are the conversion of an image
    that Pyxis returned and that passes the registry filter; no data means
    that each query found no image or one that fails the filter; an error
    is the error of one of the two exchanges. *)
Theorem GetImageCertification_answer (registry repository digest : string) :
  let byImageID := baseURL ++ "/images?filter=image_id==" ++ QueryEscape digest in
  let byManifestList :=
    baseURL ++ "/images?filter=repositories.manifest_list_digest=="
    ++ QueryEscape digest in
  let absent requestURL :=
    fetchAndParseResponse requestURL = Ok None \/
    exists pyxisResp,
      fetchAndParseResponse requestURL = Ok (Some pyxisResp) /\
      isFromRedHatRegistry pyxisResp = false in
  match
    GetImageCertification baseURL QueryEscape rangeOrder fetchAndParseResponse
      getRepositoryInfo getVulnerabilitiesWithAdvisories
      registry repository digest
  with
  | Ok (Some certData) =>
      exists pyxisResp,
        isFromRedHatRegistry pyxisResp = true /\
        certData = convert pyxisResp /\
        (fetchAndParseResponse byImageID = Ok (Some pyxisResp) \/
         absent byImageID /\
         fetchAndParseResponse byManifestList = Ok (Some pyxisResp))
  | Ok None => absent byImageID /\ absent byManifestList
  | Err err =>
      fetchAndParseResponse byImageID = Err err \/
      absent byImageID /\ fetchAndParseResponse byManifestList = Err err
  end.
Proof.
  intros byImageID byManifestList absent.
  unfold GetImageCertification, queryByImageID, queryByManifestListDigest.
  fold byImageID byManifestList.
  assert (forall requestURL,
            match query requestURL with
            | Ok (Some certData) =>
                exists pyxisResp,
                  fetchAndParseResponse requestURL = Ok (Some pyxisResp) /\
                  isFromRedHatRegistry pyxisResp = true /\
                  certData = convert pyxisResp
            | Ok None => absent requestURL
            | Err err => fetchAndParseResponse requestURL = Err err
            end) as Hq.
  { intros requestURL. unfold query, queryAndParse, absent.
    destruct (fetchAndParseResponse requestURL) as [[pyxisResp|]|err].
    - destruct (isFromRedHatRegistry pyxisResp) eqn:E; cbn [negb].
      + exists pyxisResp. now repeat split.
      + right. exists pyxisResp. now split.
    - now left.
    - reflexivity. }
  fold query.
  pose proof (Hq byImageID) as H1. pose proof (Hq byManifestList) as H2.
  destruct (query byImageID) as [[certData|]|err].
  - destruct H1 as (pyxisResp & Hf & Hr & ->).
    exists pyxisResp. repeat split; [assumption|now left].
  - destruct (query byManifestList) as [[certData|]|err].
    + destruct H2 as (pyxisResp & Hf & Hr & ->).
      exists pyxisResp. repeat split; [assumption|]. right. now split.
    + now split.
    + right. now split.
  - now left.
Qed.

(** X23.  The conversion keeps the id of the image, reports a size or a
    layer count that is not positive as zero, and takes the CVE and
    advisory lists as the vulnerabilities of that id give them; for an
    image without an id both lists are empty. *)
Theorem convertToCertificationData_fields (pyxisResp : PyxisImageResponse) :
  let certData := convert pyxisResp in
  pyxis.ImageID certData = ID pyxisResp /\
  pyxis.CompressedSizeBytes certData = Z.max 0 (TotalSizeBytes pyxisResp) /\
  pyxis.UncompressedSizeBytes certData =
    Z.max 0 (TotalUncompressedSizeBytes pyxisResp) /\
  pyxis.LayerCount certData = Z.max 0 (LayerCount pyxisResp) /\
  (pyxis.CVEs certData, pyxis.AdvisoryIDs certData) =
    if String.eqb (ID pyxisResp) "" then ([], [])
    else getVulnerabilitiesWithAdvisories (ID pyxisResp).
Proof.
  intros certData. unfold certData, convert, convertToCertificationData.
  set (d0 := {| pyxis.ProjectID := "" |}).
  assert (pyxis.ImageID d0 = ID pyxisResp /\
          pyxis.CompressedSizeBytes d0 = Z.max 0 (TotalSizeBytes pyxisResp) /\
          pyxis.UncompressedSizeBytes d0 =
            Z.max 0 (TotalUncompressedSizeBytes pyxisResp) /\
          pyxis.LayerCount d0 = Z.max 0 (LayerCount pyxisResp) /\
          pyxis.CVEs d0 = [] /\ pyxis.AdvisoryIDs d0 = []) as H0.
  { unfold d0. cbn.
    repeat split;
      match goal with
      | |- context [0 <? ?x] => destruct (Z.ltb_spec 0 x); lia
      | _ => reflexivity
      end. }
  clearbody d0.
  set (d1 := populateRepositoryData getRepositoryInfo pyxisResp d0).
  assert (pyxis.ImageID d1 = pyxis.ImageID d0 /\
          pyxis.CompressedSizeBytes d1 = pyxis.CompressedSizeBytes d0 /\
          pyxis.UncompressedSizeBytes d1 = pyxis.UncompressedSizeBytes d0 /\
          pyxis.LayerCount d1 = pyxis.LayerCount d0 /\
          pyxis.CVEs d1 = pyxis.CVEs d0 /\
          pyxis.AdvisoryIDs d1 = pyxis.AdvisoryIDs d0) as H1.
  { unfold d1, populateRepositoryData.
    destruct (Repositories pyxisResp) as [|repo ?]; [now repeat split|].
    destruct (getRepositoryInfo _ _);
      destruct (String.eqb (PushDate repo) ""); now repeat split. }
  clearbody d1.
  set (d2 := match FreshnessGrades pyxisResp with
             | [] => d1
             | grade :: _ => setHealthIndex d1 (Grade grade)
             end).
  assert (pyxis.ImageID d2 = pyxis.ImageID d1 /\
          pyxis.CompressedSizeBytes d2 = pyxis.CompressedSizeBytes d1 /\
          pyxis.UncompressedSizeBytes d2 = pyxis.UncompressedSizeBytes d1 /\
          pyxis.LayerCount d2 = pyxis.LayerCount d1 /\
          pyxis.CVEs d2 = pyxis.CVEs d1 /\
          pyxis.AdvisoryIDs d2 = pyxis.AdvisoryIDs d1) as H2.
  { unfold d2. destruct (FreshnessGrades pyxisResp); now repeat split. }
  clearbody d2.
  destruct (extractPublisherInfo_sets (ParsedData pyxisResp) d2)
    as (publisher & projectID & ->).
  set (d3 := setProjectID (setPublisher d2 publisher) projectID).
  assert (pyxis.ImageID d3 = pyxis.ImageID d2 /\
          pyxis.CompressedSizeBytes d3 = pyxis.CompressedSizeBytes d2 /\
          pyxis.UncompressedSizeBytes d3 = pyxis.UncompressedSizeBytes d2 /\
          pyxis.LayerCount d3 = pyxis.LayerCount d2 /\
          pyxis.CVEs d3 = pyxis.CVEs d2 /\
          pyxis.AdvisoryIDs d3 = pyxis.AdvisoryIDs d2) as H3.
  { now repeat split. }
  clearbody d3.
  set (d4 := copyVulnerabilitySummary (VulnerabilitySummary pyxisResp) d3).
  assert (pyxis.ImageID d4 = pyxis.ImageID d3 /\
          pyxis.CompressedSizeBytes d4 = pyxis.CompressedSizeBytes d3 /\
          pyxis.UncompressedSizeBytes d4 = pyxis.UncompressedSizeBytes d3 /\
          pyxis.LayerCount d4 = pyxis.LayerCount d3 /\
          pyxis.CVEs d4 = pyxis.CVEs d3 /\
          pyxis.AdvisoryIDs d4 = pyxis.AdvisoryIDs d3) as H4.
  { unfold d4, copyVulnerabilitySummary.
    destruct (VulnerabilitySummary pyxisResp); now repeat split. }
  clearbody d4.
  destruct H0 as (A0 & B0 & C0 & D0 & E0 & F0).
  destruct H1 as (A1 & B1 & C1 & D1 & E1 & F1).
  destruct H2 as (A2 & B2 & C2 & D2 & E2 & F2).
  destruct H3 as (A3 & B3 & C3 & D3 & E3 & F3).
  destruct H4 as (A4 & B4 & C4 & D4 & E4 & F4).
  assert (pyxis.ImageID d4 = ID pyxisResp) as A by congruence.
  assert (pyxis.CVEs d4 = []) as E by congruence.
  assert (pyxis.AdvisoryIDs d4 = []) as F by congruence.
  rewrite A.
  destruct (String.eqb (ID pyxisResp) ""); cbn [negb].
  - repeat split; congruence.
  - destruct (getVulnerabilitiesWithAdvisories (ID pyxisResp))
      as [cves advisoryIDs].
    cbn. rewrite E, F.
    repeat split; try congruence.
    now destruct cves, advisoryIDs.
Qed.

End PyxisConversion.

(** ** Further statements on concrete inputs *)

Section MoreWitnesses.
Import v1alpha1 controller reconciler_spec examples.

Lemma DigestToCRName_roundtrip_witness :
  image.CRNameToDigest (image.DigestToCRName ("sha256:" ++ testDigest)) =
  "sha256:" ++ testDigest.
Proof.
  destruct (DigestToCRName_roundtrip testDigest) as (_ & H & _).
  - reflexivity.
  - exact H.
Defined.

Lemma ParseImageID_scheme_insensitive_witness :
  image.ParseImageID ("docker-pullable://" ++ exampleImageID) =
  image.ParseImageID exampleImageID.
Proof.
  destruct (ParseImageID_scheme_insensitive exampleImageID) as [H _].
  - discriminate.
  - reflexivity.
  - reflexivity.
  - exact H.
Defined.

Lemma ParseImageID_reassembles_witness :
  image.Registry exampleRef <> "" /\
  gostrings.Contains (image.Registry exampleRef) "/" = false.
Proof.
  destruct (ParseImageID_reassembles exampleImageID exampleRef)
    as (name & tagged & _ & _ & _ & Hr & Hs & _).
  - reflexivity.
  - split; [exact Hr|exact Hs].
Defined.

Lemma cacheKey_injective_witness :
  "library" = "library" /\ "nginx" = "nginx".
Proof.
  apply (cacheKey_injective "library" "nginx" "library" "nginx");
    reflexivity.
Defined.

Lemma CleanupExpired_unobservable_witness :
  (dockerhub.GetRepositoryInfo countingClient
     (dockerhub.CleanupExpired warmCache 5) 7 8 "library" "nginx").2 =
  (dockerhub.GetRepositoryInfo countingClient warmCache 7 8
     "library" "nginx").2.
Proof.
  destruct (CleanupExpired_unobservable countingClient warmCache 5 7 8
              "library" "nginx") as (_ & _ & _ & H & _).
  - lia.
  - exact H.
Defined.

Lemma GetRepositoryInfo_other_keys_witness :
  dockerhub.cache
    (dockerhub.GetRepositoryInfo countingClient warmCache 20 21
       "library" "redis").1 !! dockerhub.cacheKey "library" "nginx" =
  dockerhub.cache warmCache !! dockerhub.cacheKey "library" "nginx".
Proof.
  destruct (GetRepositoryInfo_other_keys countingClient warmCache 20 21
              "library" "redis" (dockerhub.cacheKey "library" "nginx"))
    as [H _].
  - discriminate.
  - exact H.
Defined.

Lemma Reconcile_keeps_records_witness :
  exists cr',
    infos (Reconcile lower noClient (fun _ => 200) exampleCluster
             ("default", "test-pod")).1.1
      !! "registry.example.ns.app.abc123de" = Some cr' /\
    seenAgain exampleRecord cr'.
Proof.
  destruct (Reconcile_keeps_records lower noClient (fun _ => 200)
              exampleCluster ("default", "test-pod")) as (_ & _ & _ & H).
  - apply map_Forall_singleton. reflexivity.
  - apply H. reflexivity.
Defined.

Lemma Reconcile_records_every_container_witness :
  exists cr,
    infos (Reconcile lower noClient (fun _ => 100) freshCluster
             ("default", "test-pod")).1.1
      !! image.ReferenceToCRName lower exampleRef = Some cr /\
    reference "test-pod" "test-container" ∈ PodReferences (Status cr).
Proof.
  apply (Reconcile_records_every_container lower noClient (fun _ => 100)
           freshCluster ("default", "test-pod") testPod
           {| corev1.ContainerName := "test-container";
              corev1.ImageID := exampleImageID |} exampleRef).
  - apply map_Forall_empty.
  - reflexivity.
  - left. reflexivity.
  - left. apply list_elem_of_here.
  - discriminate.
  - reflexivity.
Defined.

Lemma Reconcile_replay_witness :
  (Reconcile lower (withClient certified) (fun _ => 200) afterFirstPass
     ("default", "test-pod")).1.2 = [].
Proof.
  destruct (Reconcile_replay lower noClient (withClient certified)
              (fun _ => 100) (fun _ => 200) ubiCluster
              ("default", "test-pod")) as (_ & H & _).
  - apply map_Forall_empty.
  - exact H.
Defined.

Lemma Reconcile_enrichment_eligible_witness :
  PyxisClient (withClient certified) <> None /\
  image.IsRedHatRegistry lower (image.Registry ubiRef) = true.
Proof.
  destruct (Reconcile_enrichment_eligible lower (withClient certified)
              (fun _ => 100) ubiCluster ("default", "test-pod")
              {| enrichName := image.ReferenceToCRName lower ubiRef;
                 enrichRef := ubiRef |}) as (H1 & H2 & _).
  - vm_compute. apply list_elem_of_here.
  - split; [exact H1|exact H2].
Defined.

Lemma checkPyxisCertification_frame_witness :
  pods (checkPyxisCertification parseAny days (withClient certified)
          300 301 302 exampleCluster "registry.example.ns.app.abc123de"
          exampleRef) = pods exampleCluster.
Proof.
  destruct (checkPyxisCertification_frame parseAny days
              (withClient certified) 300 301 302 exampleCluster
              "registry.example.ns.app.abc123de" exampleRef)
    as (_ & H & _).
  - apply map_Forall_singleton. reflexivity.
  - exact H.
Defined.

Lemma checkPyxisCertification_cve_annotation_witness :
  exists cr',
    infos (checkPyxisCertification parseAny days (withClient certified)
             300 301 302 exampleCluster "registry.example.ns.app.abc123de"
             exampleRef) !! "registry.example.ns.app.abc123de" = Some cr' /\
    Annotations cr' =
      <["security.telco.openshift.io/cves" := "CVE-2024-0001"]>
        (Annotations exampleRecord).
Proof.
  apply (checkPyxisCertification_cve_annotation parseAny days
           (withClient certified) certified 300 301 302 exampleCluster
           "registry.example.ns.app.abc123de" exampleRef exampleRecord);
    reflexivity.
Defined.

Lemma checkPyxisCertification_computed_fields_witness :
  exists cr',
    infos (checkPyxisCertification parseDates days (withClient dated)
             300 afterPublication beforeEOL exampleCluster
             "registry.example.ns.app.abc123de" exampleRef)
      !! "registry.example.ns.app.abc123de" = Some cr' /\
    (exists data,
       PyxisData_ (Status cr') = Some data /\
       PublishedAt data = Some 1705314600000000000 /\
       EOLDate data = Some 1909008000000000000) /\
    ImageAge (Status cr') = "1 month" /\
    DaysUntilEOL (Status cr') = Some 10.
Proof.
  apply (checkPyxisCertification_computed_fields parseDates days
           (withClient dated) dated 300 afterPublication beforeEOL
           exampleCluster "registry.example.ns.app.abc123de" exampleRef
           exampleRecord);
    reflexivity.
Defined.

Lemma CleanupStaleReferences_idempotent_witness :
  CleanupStaleReferences (CleanupStaleReferences exampleCluster).1 =
  ((CleanupStaleReferences exampleCluster).1, None).
Proof.
  destruct (CleanupStaleReferences_idempotent exampleCluster)
    as (_ & _ & H).
  - apply map_Forall_singleton. reflexivity.
  - reflexivity.
  - exact H.
Defined.

Lemma extractArchitectures_distinct_witness :
  List.NoDup (pyxisclient.extractArchitectures (@rev string) exampleGrades).
Proof.
  destruct (extractArchitectures_distinct (@rev string) exampleGrades)
    as [H _].
  - intros keys. symmetry. apply Permutation_rev.
  - exact H.
Defined.

End MoreWitnesses.
